(** * Car-wash booking lifecycle: a shallow embedding of [app.py]

    The store is the SQLite schema of [init_db], one list of rows per table
    in insertion order.  A handler runs its statements in one transaction:
    a statement that raises leaves the connection uncommitted, and the
    store is then the one the request started from. *)

From Stdlib Require Import ZArith QArith List Ascii String Bool Lia.
Import ListNotations.
Local Open Scope string_scope.
Local Open Scope Z_scope.

(** ** Values *)

(** [now_str()] yields a formatted wall-clock reading; the readings are
    inputs of the handlers, one per call site. *)
Definition timestamp := string.

Inductive Role := Customer | Staff | Admin.

Inductive Status := Booked | InProgress | Completed | Cancelled.

(** [hash_password]: the hex digest is kept symbolic. *)
Inductive digest := sha256_hex (pw : string).

Definition hash_password (pw : string) : digest := sha256_hex pw.

Definition Role_eqb (a b : Role) : bool :=
  match a, b with
  | Customer, Customer | Staff, Staff | Admin, Admin => true
  | _, _ => false
  end.

Definition Status_eqb (a b : Status) : bool :=
  match a, b with
  | Booked, Booked | InProgress, InProgress
  | Completed, Completed | Cancelled, Cancelled => true
  | _, _ => false
  end.

Definition digest_eqb (a b : digest) : bool :=
  match a, b with sha256_hex x, sha256_hex y => String.eqb x y end.

(** ** Rows, one record per table of the schema *)

Module User.
Record t := mk
  { user_id : Z; full_name : string; phone : string; email : option string;
    password_hash : digest; role : Role; created_at : timestamp }.
End User.

Module Vehicle.
Record t := mk
  { vehicle_id : Z; customer_id : Z; plate_no : string;
    make : option string; model : option string; color : option string;
    vehicle_type : option string }.
End Vehicle.

Module Package.
Record t := mk
  { package_id : Z; package_name : string; price : Q;
    duration_minutes : Z; is_active : Z }.
End Package.

Module Stage.
Record t := mk { stage_id : Z; stage_name : string; stage_order : Z }.
End Stage.

Module Booking.
Record t := mk
  { booking_id : Z; customer_id : Z; vehicle_id : Z; package_id : Z;
    booking_datetime : timestamp; scheduled_datetime : option string;
    status : Status; current_stage_id : option Z; notes : option string }.
End Booking.

Module History.
Record t := mk
  { history_id : Z; booking_id : Z; stage_id : Z; start_time : timestamp;
    end_time : option timestamp; updated_by_staff_id : Z }.
End History.

Module Assignment.
Record t := mk { booking_id : Z; staff_id : Z; assigned_at : timestamp }.
End Assignment.

Module Payment.
Record t := mk
  { payment_id : Z; booking_id : Z; amount : Q; method : string;
    payment_status : string; paid_at : option timestamp }.
End Payment.

Record db := mkdb
  { users : list User.t;
    vehicles : list Vehicle.t;
    packages : list Package.t;
    service_stages : list Stage.t;
    bookings : list Booking.t;
    booking_stage_history : list History.t;
    booking_staff_assignment : list Assignment.t;
    payments : list Payment.t }.

Definition empty_db : db := mkdb [] [] [] [] [] [] [] [].

Definition set_users (x : list User.t) (d : db) : db :=
  mkdb x (vehicles d) (packages d) (service_stages d) (bookings d)
       (booking_stage_history d) (booking_staff_assignment d) (payments d).

Definition set_vehicles (x : list Vehicle.t) (d : db) : db :=
  mkdb (users d) x (packages d) (service_stages d) (bookings d)
       (booking_stage_history d) (booking_staff_assignment d) (payments d).

Definition set_packages (x : list Package.t) (d : db) : db :=
  mkdb (users d) (vehicles d) x (service_stages d) (bookings d)
       (booking_stage_history d) (booking_staff_assignment d) (payments d).

Definition set_service_stages (x : list Stage.t) (d : db) : db :=
  mkdb (users d) (vehicles d) (packages d) x (bookings d)
       (booking_stage_history d) (booking_staff_assignment d) (payments d).

Definition set_bookings (x : list Booking.t) (d : db) : db :=
  mkdb (users d) (vehicles d) (packages d) (service_stages d) x
       (booking_stage_history d) (booking_staff_assignment d) (payments d).

Definition set_history (x : list History.t) (d : db) : db :=
  mkdb (users d) (vehicles d) (packages d) (service_stages d) (bookings d)
       x (booking_staff_assignment d) (payments d).

Definition set_assignment (x : list Assignment.t) (d : db) : db :=
  mkdb (users d) (vehicles d) (packages d) (service_stages d) (bookings d)
       (booking_stage_history d) x (payments d).

Definition set_payments (x : list Payment.t) (d : db) : db :=
  mkdb (users d) (vehicles d) (packages d) (service_stages d) (bookings d)
       (booking_stage_history d) (booking_staff_assignment d) x.

(** ** Exceptions and the statement monad *)

(** The exceptions the handlers can meet: [TypeError] from subscripting the
    [None] that [fetchone()] gives when no row matches, [ValueError] from
    [int()] or [float()] on a field whose text is not a number, and
    [sqlite3.IntegrityError] from a violated constraint.

    The handlers are modelled for requests whose integer fields are sent
    with the form and whose integers lie in the signed 64-bit range of an
    SQLite [INTEGER].  Outside of that the source has two more exceptions,
    both raised before anything is committed: [int(None)] is a [TypeError]
    when the form does not send the field, and [execute] raises
    [OverflowError] when it binds an integer parameter that is not [int64].
    A property whose conclusion would be another one for such an integer
    names [int64] among its hypotheses. *)
Inductive exn := TypeError | ValueError | IntegrityError.

(** The integers [sqlite3] binds as a parameter and SQLite stores. *)
Definition int64 (z : Z) : Prop :=
  -9223372036854775808 <= z <= 9223372036854775807.

Definition M (A : Type) : Type := (exn + A)%type.

Definition ret {A} (a : A) : M A := inr a.
Definition raise {A} (e : exn) : M A := inl e.
Definition bind {A B} (m : M A) (k : A -> M B) : M B :=
  match m with inl e => inl e | inr a => k a end.

Notation "x <- m ;; k" := (bind m (fun x => k))
  (at level 61, m at next level, right associativity).
Notation "' p <- m ;; k" := (bind m (fun p => k))
  (at level 61, p pattern, m at next level, right associativity).

(** [fetchone()[0]]: subscripting a missing row. *)
Definition fetchone0 {A} (row : option A) : M A :=
  match row with Some a => ret a | None => raise TypeError end.

(** [int(request.form.get(k))] on a field the form sends: the field is
    given parsed, [None] when its text is not an integer literal. *)
Definition int_field (v : option Z) : M Z :=
  match v with Some z => ret z | None => raise ValueError end.

(** ** Queries *)

Definition has_id (ids : list Z) (i : Z) : bool := existsb (Z.eqb i) ids.

Definition user_ids (d : db) := map User.user_id (users d).
Definition vehicle_ids (d : db) := map Vehicle.vehicle_id (vehicles d).
Definition package_ids (d : db) := map Package.package_id (packages d).
Definition stage_ids (d : db) := map Stage.stage_id (service_stages d).
Definition booking_ids (d : db) := map Booking.booking_id (bookings d).

(** An [INTEGER PRIMARY KEY AUTOINCREMENT] rowid: one past the largest ever
    used; no handler deletes a row, so that is the largest present. *)
Definition next_rowid (ids : list Z) : Z := 1 + fold_right Z.max 0 ids.

(** [SELECT stage_id FROM service_stages ORDER BY stage_order LIMIT 1] *)
Fixpoint first_stage (l : list Stage.t) : option Stage.t :=
  match l with
  | [] => None
  | s :: l' =>
      match first_stage l' with
      | None => Some s
      | Some m =>
          if Stage.stage_order s <=? Stage.stage_order m then Some s else Some m
      end
  end.

(** [SELECT MAX(stage_order) FROM service_stages] *)
Fixpoint max_stage_order (l : list Stage.t) : option Z :=
  match l with
  | [] => None
  | s :: l' =>
      match max_stage_order l' with
      | None => Some (Stage.stage_order s)
      | Some m => Some (Z.max (Stage.stage_order s) m)
      end
  end.

(** [SELECT stage_order FROM service_stages WHERE stage_id=?] *)
Definition stage_order_of (d : db) (sid : Z) : option Z :=
  option_map Stage.stage_order
    (find (fun s => Stage.stage_id s =? sid) (service_stages d)).

(** [SELECT ... FROM bookings WHERE booking_id=?] *)
Definition booking_of (d : db) (bid : Z) : option Booking.t :=
  find (fun b => Booking.booking_id b =? bid) (bookings d).

(** [SELECT price FROM packages WHERE package_id=?] *)
Definition price_of (d : db) (pid : Z) : option Q :=
  option_map Package.price
    (find (fun p => Package.package_id p =? pid) (packages d)).

(** [SELECT amount, method, payment_status, paid_at FROM payments
    WHERE booking_id=?] *)
Definition payment_of (d : db) (bid : Z) : option Payment.t :=
  find (fun p => Payment.booking_id p =? bid) (payments d).

Definition is_open (h : History.t) : bool :=
  match History.end_time h with None => true | Some _ => false end.

(** The open history entries of a booking, oldest first. *)
Definition open_entries (d : db) (bid : Z) : list History.t :=
  filter (fun h => (History.booking_id h =? bid) && is_open h)
         (booking_stage_history d).

Definition assigned (d : db) (bid sid : Z) : list Assignment.t :=
  filter (fun a => (Assignment.booking_id a =? bid)
                   && (Assignment.staff_id a =? sid))
         (booking_staff_assignment d).

(** ** Statements

    Each [INSERT] and [UPDATE] checks the constraints its table declares
    (the connection runs with [PRAGMA foreign_keys = ON]) and raises
    [IntegrityError] when one fails; the failing statement changes nothing. *)

Definition check (ok : bool) : M unit :=
  if ok then ret tt else raise IntegrityError.

Definition email_free (e : option string) (us : list User.t) : bool :=
  match e with
  | None => true
  | Some a =>
      negb (existsb (fun u => match User.email u with
                              | Some b => String.eqb a b
                              | None => false
                              end) us)
  end.

Definition insert_user (full_name phone : string) (email : option string)
    (password_hash : digest) (role : Role) (created_at : timestamp)
    (d : db) : M db :=
  _ <- check (negb (existsb (fun u => String.eqb (User.phone u) phone)
                            (users d))) ;;
  _ <- check (email_free email (users d)) ;;
  ret (set_users
         (users d ++ [User.mk (next_rowid (user_ids d)) full_name phone email
                              password_hash role created_at]) d).

Definition insert_vehicle (customer_id : Z) (plate_no : string)
    (make model color vehicle_type : option string) (d : db) : M db :=
  _ <- check (negb (existsb (fun v => String.eqb (Vehicle.plate_no v) plate_no)
                            (vehicles d))) ;;
  _ <- check (has_id (user_ids d) customer_id) ;;
  ret (set_vehicles
         (vehicles d ++ [Vehicle.mk (next_rowid (vehicle_ids d)) customer_id
                                    plate_no make model color vehicle_type]) d).

Definition insert_package
    (row : string * Q * Z * Z) (d : db) : M db :=
  let '(package_name, price, duration_minutes, is_active) := row in
  _ <- check (negb (existsb
                      (fun p => String.eqb (Package.package_name p) package_name)
                      (packages d))) ;;
  _ <- check (Qle_bool 0 price) ;;
  _ <- check (0 <? duration_minutes) ;;
  _ <- check ((is_active =? 0) || (is_active =? 1)) ;;
  ret (set_packages
         (packages d ++ [Package.mk (next_rowid (package_ids d)) package_name
                                    price duration_minutes is_active]) d).

Definition insert_stage (row : string * Z) (d : db) : M db :=
  let '(stage_name, stage_order) := row in
  _ <- check (negb (existsb
                      (fun s => String.eqb (Stage.stage_name s) stage_name)
                      (service_stages d))) ;;
  _ <- check (negb (existsb (fun s => Stage.stage_order s =? stage_order)
                            (service_stages d))) ;;
  _ <- check (0 <? stage_order) ;;
  ret (set_service_stages
         (service_stages d ++ [Stage.mk (next_rowid (stage_ids d)) stage_name
                                        stage_order]) d).

Definition fk_opt (ids : list Z) (i : option Z) : bool :=
  match i with Some x => has_id ids x | None => true end.

(** Returns [cur.lastrowid] with the store. *)
Definition insert_booking (customer_id vehicle_id package_id : Z)
    (booking_datetime : timestamp) (scheduled_datetime : option string)
    (status : Status) (current_stage_id : option Z) (notes : option string)
    (d : db) : M (Z * db) :=
  _ <- check (has_id (user_ids d) customer_id) ;;
  _ <- check (has_id (vehicle_ids d) vehicle_id) ;;
  _ <- check (has_id (package_ids d) package_id) ;;
  _ <- check (fk_opt (stage_ids d) current_stage_id) ;;
  let rowid := next_rowid (booking_ids d) in
  ret (rowid,
       set_bookings
         (bookings d ++ [Booking.mk rowid customer_id vehicle_id package_id
                                    booking_datetime scheduled_datetime status
                                    current_stage_id notes]) d).

Definition insert_history (booking_id stage_id : Z) (start_time : timestamp)
    (end_time : option timestamp) (updated_by_staff_id : Z) (d : db) : M db :=
  _ <- check (has_id (booking_ids d) booking_id) ;;
  _ <- check (has_id (stage_ids d) stage_id) ;;
  _ <- check (has_id (user_ids d) updated_by_staff_id) ;;
  ret (set_history
         (booking_stage_history d
            ++ [History.mk
                  (next_rowid (map History.history_id (booking_stage_history d)))
                  booking_id stage_id start_time end_time updated_by_staff_id])
         d).

Definition insert_assignment (booking_id staff_id : Z) (assigned_at : timestamp)
    (d : db) : M db :=
  _ <- check (match assigned d booking_id staff_id with
              | [] => true
              | _ :: _ => false
              end) ;;
  _ <- check (has_id (booking_ids d) booking_id) ;;
  _ <- check (has_id (user_ids d) staff_id) ;;
  ret (set_assignment
         (booking_staff_assignment d
            ++ [Assignment.mk booking_id staff_id assigned_at]) d).

Definition valid_method (m : string) : bool :=
  String.eqb m "Cash" || String.eqb m "Card" || String.eqb m "Online".

Definition valid_payment_status (s : string) : bool :=
  String.eqb s "Unpaid" || String.eqb s "Paid" || String.eqb s "Partial"
  || String.eqb s "Refunded".

Definition insert_payment (booking_id : Z) (amount : Q) (method : string)
    (payment_status : string) (paid_at : option timestamp) (d : db) : M db :=
  _ <- check (negb (existsb (fun p => Payment.booking_id p =? booking_id)
                            (payments d))) ;;
  _ <- check (Qle_bool 0 amount) ;;
  _ <- check (valid_method method) ;;
  _ <- check (valid_payment_status payment_status) ;;
  _ <- check (has_id (booking_ids d) booking_id) ;;
  ret (set_payments
         (payments d
            ++ [Payment.mk (next_rowid (map Payment.payment_id (payments d)))
                           booking_id amount method payment_status paid_at]) d).

(** [UPDATE booking_stage_history SET end_time=?
     WHERE booking_id=? AND stage_id=? AND end_time IS NULL] *)
Definition close_history (now : timestamp) (booking_id stage_id : Z) (d : db)
    : db :=
  set_history
    (map (fun h =>
            if (History.booking_id h =? booking_id)
               && (History.stage_id h =? stage_id) && is_open h
            then History.mk (History.history_id h) (History.booking_id h)
                            (History.stage_id h) (History.start_time h)
                            (Some now) (History.updated_by_staff_id h)
            else h)
         (booking_stage_history d)) d.

(** [UPDATE bookings SET current_stage_id=?, status=? WHERE booking_id=?] *)
Definition update_booking (current_stage_id : Z) (status : Status)
    (booking_id : Z) (d : db) : M db :=
  _ <- check (negb (has_id (booking_ids d) booking_id)
              || has_id (stage_ids d) current_stage_id) ;;
  ret (set_bookings
         (map (fun b =>
                 if Booking.booking_id b =? booking_id
                 then Booking.mk (Booking.booking_id b) (Booking.customer_id b)
                                 (Booking.vehicle_id b) (Booking.package_id b)
                                 (Booking.booking_datetime b)
                                 (Booking.scheduled_datetime b) status
                                 (Some current_stage_id) (Booking.notes b)
                 else b)
              (bookings d)) d).

(** [UPDATE payments SET method=?, payment_status=?, paid_at=?
     WHERE booking_id=?]; [method] and [payment_status] are [NOT NULL] and
    range over the lists of their [CHECK]s wherever a row is updated. *)
Definition update_payment (method payment_status : option string)
    (paid_at : option timestamp) (booking_id : Z) (d : db) : M db :=
  match payment_of d booking_id with
  | None => ret d
  | Some _ =>
      match method, payment_status with
      | Some m, Some s =>
          _ <- check (valid_method m) ;;
          _ <- check (valid_payment_status s) ;;
          ret (set_payments
                 (map (fun p =>
                         if Payment.booking_id p =? booking_id
                         then Payment.mk (Payment.payment_id p)
                                         (Payment.booking_id p)
                                         (Payment.amount p) m s paid_at
                         else p)
                      (payments d)) d)
      | _, _ => raise IntegrityError
      end
  end.

(** [UPDATE packages SET is_active = CASE WHEN is_active=1 THEN 0 ELSE 1 END
     WHERE package_id=?] *)
Definition toggle_active (package_id : Z) (d : db) : db :=
  set_packages
    (map (fun p =>
            if Package.package_id p =? package_id
            then Package.mk (Package.package_id p) (Package.package_name p)
                            (Package.price p) (Package.duration_minutes p)
                            (if Package.is_active p =? 1 then 0 else 1)
            else p)
         (packages d)) d.

Fixpoint executemany {A} (stmt : A -> db -> M db) (rows : list A) (d : db)
    : M db :=
  match rows with
  | [] => ret d
  | r :: rs => d' <- stmt r d ;; executemany stmt rs d'
  end.

(** ** [init_db]: the seeds, each only into an empty table *)

Definition seed_stages : list (string * Z) :=
  [("Washing", 1); ("Drying", 2); ("Polishing", 3); ("Completed", 4)].

Definition seed_packages : list (string * Q * Z * Z) :=
  [("Basic Wash", inject_Z 500, 20, 1);
   ("Standard Wash", inject_Z 800, 35, 1);
   ("Premium Wash", inject_Z 1200, 50, 1)].

Definition init_db (now : timestamp) (d : db) : M db :=
  d1 <- match service_stages d with
        | [] => executemany insert_stage seed_stages d
        | _ :: _ => ret d
        end ;;
  d2 <- match packages d1 with
        | [] => executemany insert_package seed_packages d1
        | _ :: _ => ret d1
        end ;;
  match filter (fun u => Role_eqb (User.role u) Admin) (users d2) with
  | [] => insert_user "Admin" "0300-0000000" (Some "admin@carwash.local")
                      (hash_password "admin123") Admin now d2
  | _ :: _ => ret d2
  end.

(** ** Sessions, guards and responses *)

Module Session.
Record t := mk { user_id : Z; full_name : string; role : Role }.
End Session.

(** The cookie session: [None] when it holds no ["user_id"]. *)
Definition session := option Session.t.

Definition require_login (s : session) : bool :=
  match s with Some _ => true | None => false end.

Definition require_staff (s : session) : bool :=
  match s with
  | Some u => Role_eqb (Session.role u) Staff || Role_eqb (Session.role u) Admin
  | None => false
  end.

(** [not require_login() or session["role"] != "Customer"] is its negation. *)
Definition require_customer (s : session) : bool :=
  match s with
  | Some u => Role_eqb (Session.role u) Customer
  | None => false
  end.

Inductive page := login_page | register_page | home | customer_dashboard
                | staff_dashboard.

(** The flashed messages. *)
Inductive notice :=
| InvalidLogin | Welcome (full_name : string) (role : Role)
| PasswordsDoNotMatch | Registered | RegistrationFailed
| VehicleAdded | VehicleAddFailed
| BookingCreated (booking_id : Z)
| StaffAssigned
| PackageCreated | PackageCreateFailed | PackageStatusUpdated
| InvalidRole | StaffUserCreated | UserCreateFailed
| BookingNotFound | StageUpdated
| PaymentUpdated.

(** A handler answers with a redirect, or an exception escapes it. *)
Inductive response :=
| Redirect (to : page) (flashed : option notice)
| Abort (e : exn).

(** [x.strip() or None]; text fields are given stripped. *)
Definition or_None (x : string) : option string :=
  if String.eqb x "" then None else Some x.

(** [x.replace("T", " ")] *)
Fixpoint replace_T (x : string) : string :=
  match x with
  | EmptyString => EmptyString
  | String c r =>
      String (if Ascii.eqb c "T"%char then " "%char else c) (replace_T r)
  end.

(** ** Handlers

    Every handler takes the session and the store and gives the response
    and the store left behind. *)

Definition login (phone password : string) (s : session) (d : db)
    : response * session :=
  match find (fun u => String.eqb (User.phone u) phone
                       && digest_eqb (User.password_hash u)
                                     (hash_password password)) (users d) with
  | None => (Redirect login_page (Some InvalidLogin), s)
  | Some u =>
      (Redirect home (Some (Welcome (User.full_name u) (User.role u))),
       Some (Session.mk (User.user_id u) (User.full_name u) (User.role u)))
  end.

Definition register (full_name phone email password confirm : string)
    (now : timestamp) (d : db) : response * db :=
  if negb (String.eqb password confirm)
  then (Redirect register_page (Some PasswordsDoNotMatch), d)
  else
    match insert_user full_name phone (or_None email) (hash_password password)
                      Customer now d with
    | inr d' => (Redirect login_page (Some Registered), d')
    | inl IntegrityError =>
        (Redirect register_page (Some RegistrationFailed), d)
    | inl e => (Abort e, d)
    end.

Definition add_vehicle (plate_no make model color vehicle_type : string)
    (s : session) (d : db) : response * db :=
  match s with
  | Some u =>
      if negb (Role_eqb (Session.role u) Customer)
      then (Redirect login_page None, d)
      else
        match insert_vehicle (Session.user_id u) plate_no (or_None make)
                (or_None model) (or_None color) (or_None vehicle_type) d with
        | inr d' => (Redirect customer_dashboard (Some VehicleAdded), d')
        | inl IntegrityError =>
            (Redirect customer_dashboard (Some VehicleAddFailed), d)
        | inl e => (Abort e, d)
        end
  | None => (Redirect login_page None, d)
  end.

(** The statements of [create_booking] between [get_conn()] and
    [conn.commit()]; gives the new [booking_id]. *)
Definition create_booking_tx (user_id vehicle_id package_id : Z)
    (scheduled notes : option string) (t_booking t_history : timestamp)
    (d : db) : M (Z * db) :=
  first <- fetchone0 (first_stage (service_stages d)) ;;
  let first_stage_id := Stage.stage_id first in
  '(booking_id, d1) <- insert_booking user_id vehicle_id package_id t_booking
                         scheduled Booked (Some first_stage_id) notes d ;;
  d2 <- insert_history booking_id first_stage_id t_history None 1 d1 ;;
  pkg_price <- fetchone0 (price_of d2 package_id) ;;
  d3 <- insert_payment booking_id pkg_price "Cash" "Unpaid" None d2 ;;
  ret (booking_id, d3).

(** [t_booking] and [t_history] are the two readings of [now_str()]. *)
Definition create_booking (vehicle_id package_id : option Z)
    (scheduled_raw notes : string) (t_booking t_history : timestamp)
    (s : session) (d : db) : response * db :=
  match s with
  | Some u =>
      if negb (Role_eqb (Session.role u) Customer)
      then (Redirect login_page None, d)
      else
        match
          (vid <- int_field vehicle_id ;;
           pid <- int_field package_id ;;
           let scheduled :=
             if String.eqb scheduled_raw "" then None
             else Some (replace_T scheduled_raw) in
           create_booking_tx (Session.user_id u) vid pid scheduled
                             (or_None notes) t_booking t_history d)
        with
        | inr (booking_id, d') =>
            (Redirect customer_dashboard (Some (BookingCreated booking_id)), d')
        | inl e => (Abort e, d)
        end
  | None => (Redirect login_page None, d)
  end.

(** The loop of [staff_assign]; [now i] is the reading of [now_str()] in
    iteration [i]. *)
Fixpoint staff_assign_loop (booking_id : Z) (staff_ids : list (option Z))
    (now : nat -> timestamp) (i : nat) (d : db) : M db :=
  match staff_ids with
  | [] => ret d
  | sid :: rest =>
      d' <- (staff_id <- int_field sid ;;
             match insert_assignment booking_id staff_id (now i) d with
             | inl IntegrityError => ret d
             | r => r
             end) ;;
      staff_assign_loop booking_id rest now (S i) d'
  end.

Definition staff_assign (booking_id : option Z) (staff_ids : list (option Z))
    (now : nat -> timestamp) (s : session) (d : db) : response * db :=
  if negb (require_staff s) then (Redirect login_page None, d)
  else
    match (bid <- int_field booking_id ;;
           staff_assign_loop bid staff_ids now 0%nat d) with
    | inr d' => (Redirect staff_dashboard (Some StaffAssigned), d')
    | inl e => (Abort e, d)
    end.

(** [price] is [float(...)] of its field, [None] when that raises. *)
Definition create_package (package_name : string) (price : option Q)
    (duration_minutes : option Z) (is_active_on : bool)
    (s : session) (d : db) : response * db :=
  if negb (require_staff s) then (Redirect login_page None, d)
  else
    match price, duration_minutes with
    | Some p, Some m =>
        match insert_package
                (package_name, p, m, if is_active_on then 1 else 0) d with
        | inr d' => (Redirect staff_dashboard (Some PackageCreated), d')
        | inl IntegrityError =>
            (Redirect staff_dashboard (Some PackageCreateFailed), d)
        | inl e => (Abort e, d)
        end
    | _, _ => (Abort ValueError, d)
    end.

Definition toggle_package (package_id : Z) (s : session) (d : db)
    : response * db :=
  if negb (require_staff s) then (Redirect login_page None, d)
  else (Redirect staff_dashboard (Some PackageStatusUpdated),
        toggle_active package_id d).

Definition create_staff_user (full_name phone email role password : string)
    (now : timestamp) (s : session) (d : db) : response * db :=
  if negb (require_staff s) then (Redirect login_page None, d)
  else
    match (if String.eqb role "Staff" then Some Staff
           else if String.eqb role "Admin" then Some Admin else None) with
    | None => (Redirect staff_dashboard (Some InvalidRole), d)
    | Some r =>
        match insert_user full_name phone (or_None email)
                          (hash_password password) r now d with
        | inr d' => (Redirect staff_dashboard (Some StaffUserCreated), d')
        | inl IntegrityError =>
            (Redirect staff_dashboard (Some UserCreateFailed), d)
        | inl e => (Abort e, d)
        end
    end.

(** The statements of [staff_update_stage] after the booking row is found,
    up to [conn.commit()]. *)
Definition staff_update_stage_tx (booking_id new_stage_id : Z)
    (end_prev : bool) (current_stage_id : option Z) (actor : Z)
    (t_end t_start : timestamp) (d : db) : M db :=
  let d1 := match current_stage_id with
            | Some cur => if end_prev then close_history t_end booking_id cur d
                          else d
            | None => d
            end in
  new_order <- fetchone0 (stage_order_of d1 new_stage_id) ;;
  let max_order := max_stage_order (service_stages d1) in
  let new_status :=
    match max_order with
    | Some m => if new_order =? m then Completed else InProgress
    | None => InProgress
    end in
  d2 <- update_booking new_stage_id new_status booking_id d1 ;;
  insert_history booking_id new_stage_id t_start None actor d2.

(** [t_end] is the reading of [now_str()] that closes the previous entry,
    [t_start] the one that opens the new entry. *)
Definition staff_update_stage (booking_id : Z) (stage_id : option Z)
    (end_prev : bool) (t_end t_start : timestamp) (s : session) (d : db)
    : response * db :=
  match s with
  | Some u =>
      if negb (require_staff s) then (Redirect login_page None, d)
      else
        match stage_id with
        | None => (Abort ValueError, d)
        | Some new_stage_id =>
            match booking_of d booking_id with
            | None => (Redirect staff_dashboard (Some BookingNotFound), d)
            | Some row =>
                match staff_update_stage_tx booking_id new_stage_id end_prev
                        (Booking.current_stage_id row) (Session.user_id u)
                        t_end t_start d with
                | inr d' => (Redirect staff_dashboard (Some StageUpdated), d')
                | inl e => (Abort e, d)
                end
            end
        end
  | None => (Redirect login_page None, d)
  end.

(** [staff_update_stage] reads the booking's [current_stage_id] with a
    [SELECT] that opens no transaction; the transaction begins with the
    first write after it.  When another request commits in between, the
    handler has read the row in the store [seen] and writes to the store
    [d]; [staff_update_stage] is the case [seen = d]. *)
Definition staff_update_stage_overlapped (booking_id : Z)
    (stage_id : option Z) (end_prev : bool) (t_end t_start : timestamp)
    (s : session) (seen d : db) : response * db :=
  match s with
  | Some u =>
      if negb (require_staff s) then (Redirect login_page None, d)
      else
        match stage_id with
        | None => (Abort ValueError, d)
        | Some new_stage_id =>
            match booking_of seen booking_id with
            | None => (Redirect staff_dashboard (Some BookingNotFound), d)
            | Some row =>
                match staff_update_stage_tx booking_id new_stage_id end_prev
                        (Booking.current_stage_id row) (Session.user_id u)
                        t_end t_start d with
                | inr d' => (Redirect staff_dashboard (Some StageUpdated), d')
                | inl e => (Abort e, d)
                end
            end
        end
  | None => (Redirect login_page None, d)
  end.

Definition staff_update_payment (booking_id : Z)
    (method status : option string) (now : timestamp) (s : session) (d : db)
    : response * db :=
  if negb (require_staff s) then (Redirect login_page None, d)
  else
    let paid_at := match status with
                   | Some st => if String.eqb st "Paid" then Some now else None
                   | None => None
                   end in
    match update_payment method status paid_at booking_id d with
    | inr d' => (Redirect staff_dashboard (Some PaymentUpdated), d')
    | inl e => (Abort e, d)
    end.

(** ** Requests and reachable stores *)

Inductive request :=
| Register (full_name phone email password confirm : string) (now : timestamp)
| AddVehicle (plate_no make model color vehicle_type : string) (s : session)
| CreateBooking (vehicle_id package_id : option Z)
    (scheduled_raw notes : string) (t_booking t_history : timestamp)
    (s : session)
| StaffAssign (booking_id : option Z) (staff_ids : list (option Z))
    (now : nat -> timestamp) (s : session)
| CreatePackage (package_name : string) (price : option Q)
    (duration_minutes : option Z) (is_active_on : bool) (s : session)
| TogglePackage (package_id : Z) (s : session)
| CreateStaffUser (full_name phone email role password : string)
    (now : timestamp) (s : session)
| StaffUpdateStage (booking_id : Z) (stage_id : option Z) (end_prev : bool)
    (t_end t_start : timestamp) (s : session)
| StaffUpdatePayment (booking_id : Z) (method status : option string)
    (now : timestamp) (s : session).

Definition handle (r : request) (d : db) : response * db :=
  match r with
  | Register n p e pw c now => register n p e pw c now d
  | AddVehicle pl mk mo co vt s => add_vehicle pl mk mo co vt s d
  | CreateBooking v p sr nt t1 t2 s => create_booking v p sr nt t1 t2 s d
  | StaffAssign b ids now s => staff_assign b ids now s d
  | CreatePackage n p m a s => create_package n p m a s d
  | TogglePackage p s => toggle_package p s d
  | CreateStaffUser n p e r pw now s => create_staff_user n p e r pw now s d
  | StaffUpdateStage b st ep t1 t2 s => staff_update_stage b st ep t1 t2 s d
  | StaffUpdatePayment b m st now s => staff_update_payment b m st now s d
  end.

(** The stores the application reaches from an empty database file when it
    handles one request after another: [init_db] runs before the first
    request of every process, and every request leaves the store its
    handler gives, no other request committing between the handler's reads
    and its writes.  [allowed] restricts the requests considered.  Requests
    that overlap are outside this relation; the one handler that reads
    before its transaction begins is [staff_update_stage], for which
    [staff_update_stage_overlapped] gives the other case. *)
Inductive reachable_by (allowed : request -> Prop) : db -> Prop :=
| reach_fresh now d :
    init_db now empty_db = inr d -> reachable_by allowed d
| reach_restart now d d' :
    reachable_by allowed d -> init_db now d = inr d' ->
    reachable_by allowed d'
| reach_request r d :
    reachable_by allowed d -> allowed r ->
    reachable_by allowed (snd (handle r d)).

Definition reachable : db -> Prop := reachable_by (fun _ => True).

(** The requests that never leave the previous history entry open. *)
Definition closes_previous (r : request) : Prop :=
  match r with
  | StaffUpdateStage _ _ end_prev _ _ _ => end_prev = true
  | _ => True
  end.

(** Running a list of requests from a store. *)
Definition run (rs : list request) (d : db) : db :=
  fold_left (fun d r => snd (handle r d)) rs d.

(** The store after [init_db] on an empty file. *)
Definition seeded (now : timestamp) : db :=
  match init_db now empty_db with inr d => d | inl _ => empty_db end.

(** ** The vocabulary of the properties *)

(** What [login] puts in a session: the id and role of a row of [users]. *)
Definition authentic (d : db) (u : Session.t) : bool :=
  existsb (fun row => (User.user_id row =? Session.user_id u)
                      && Role_eqb (User.role row) (Session.role u)) (users d).

(** The store in which [staff_update_stage] looks the new stage up: the
    previous entry is closed when [end_prev] is on and the booking has a
    current stage. *)
Definition previous_closed (end_prev : bool) (t_end : timestamp)
    (booking_id : Z) (current_stage_id : option Z) (d : db) : db :=
  match current_stage_id with
  | Some cur => if end_prev then close_history t_end booking_id cur d else d
  | None => d
  end.

(** Whether [insert_assignment] would pass its constraints. *)
Definition assignable (d : db) (b s : Z) : bool :=
  match assigned d b s with [] => true | _ :: _ => false end
  && has_id (booking_ids d) b && has_id (user_ids d) s.

(** One turn of the loop: the insert, with its [IntegrityError] passed over. *)
Definition try_assign (b s : Z) (t : timestamp) (d : db) : db :=
  if assignable d b s
  then set_assignment (booking_staff_assignment d ++ [Assignment.mk b s t]) d
  else d.

(** The tables an assignment leaves alone. *)
Definition assignment_frame (d d' : db) : Prop :=
  users d' = users d /\ vehicles d' = vehicles d /\ packages d' = packages d
  /\ service_stages d' = service_stages d /\ bookings d' = bookings d
  /\ booking_stage_history d' = booking_stage_history d
  /\ payments d' = payments d.

(** The rows of [service_stages] after [init_db]; no handler writes to the
    table. *)
Definition seeded_stages : list Stage.t := service_stages (seeded "").

Record schema_ok (d : db) : Prop := mk_schema_ok
  { ok_stages : service_stages d = seeded_stages;
    ok_admin : has_id (user_ids d) 1 = true;
    ok_history_fk :
      forall h, In h (booking_stage_history d) ->
                has_id (booking_ids d) (History.booking_id h) = true;
    ok_payment_fk :
      forall p, In p (payments d) ->
                has_id (booking_ids d) (Payment.booking_id p) = true;
    ok_price :
      forall p, In p (packages d) -> Qle_bool 0 (Package.price p) = true;
    ok_assignment_pk :
      forall b s, (List.length (assigned d b s) <= 1)%nat;
    ok_status :
      forall b, In b (bookings d) ->
                Booking.status b <> Cancelled
                /\ exists cur, Booking.current_stage_id b = Some cur }.

(** The store a committed [create_booking] leaves: one row more in
    [bookings], in [booking_stage_history] and in [payments]. *)
Definition booking_created (d : db) (bid uid vid pid : Z)
    (sc nt : option string) (t1 t2 : timestamp) (first : Stage.t) (price : Q)
    : db :=
  mkdb (users d) (vehicles d) (packages d) (service_stages d)
       (bookings d
          ++ [Booking.mk bid uid vid pid t1 sc Booked
                         (Some (Stage.stage_id first)) nt])
       (booking_stage_history d
          ++ [History.mk
                (next_rowid (map History.history_id (booking_stage_history d)))
                bid (Stage.stage_id first) t2 None 1])
       (booking_staff_assignment d)
       (payments d
          ++ [Payment.mk (next_rowid (map Payment.payment_id (payments d)))
                         bid price "Cash" "Unpaid" None]).

(** Every booking has exactly one open history entry, and it is for the
    booking's current stage. *)
Definition one_open_entry (d : db) : Prop :=
  forall b, In b (bookings d) ->
    exists h, open_entries d (Booking.booking_id b) = [h]
              /\ Booking.current_stage_id b = Some (History.stage_id h).

(** At most one open entry per booking, and exactly one, for the current
    stage, unless the booking is cancelled. *)
Definition open_entry_invariant (d : db) : Prop :=
  forall b, In b (bookings d) ->
    (List.length (open_entries d (Booking.booking_id b)) <= 1)%nat
    /\ (Booking.status b <> Cancelled ->
        exists h, open_entries d (Booking.booking_id b) = [h]
                  /\ Booking.current_stage_id b = Some (History.stage_id h)).

(** The booking's current stage has the greatest order of all stages. *)
Definition at_last_stage (d : db) (b : Booking.t) : Prop :=
  exists cur o,
    Booking.current_stage_id b = Some cur
    /\ stage_order_of d cur = Some o
    /\ max_stage_order (service_stages d) = Some o.

Definition completed_iff_last (d : db) : Prop :=
  forall b, In b (bookings d) ->
    (Booking.status b = Completed <-> at_last_stage d b).

(** The tables the lifecycle reads. *)
Definition lifecycle_frame (d d' : db) : Prop :=
  bookings d' = bookings d
  /\ booking_stage_history d' = booking_stage_history d
  /\ service_stages d' = service_stages d.

(** The row [UPDATE bookings] writes. *)
Definition set_stage (new : Z) (st : Status) (bid : Z) (b : Booking.t)
    : Booking.t :=
  if Booking.booking_id b =? bid
  then Booking.mk (Booking.booking_id b) (Booking.customer_id b)
                  (Booking.vehicle_id b) (Booking.package_id b)
                  (Booking.booking_datetime b) (Booking.scheduled_datetime b)
                  st (Some new) (Booking.notes b)
  else b.

(** ** The stores of an example day *)

Definition at_0800 : timestamp := "2026-01-05 08:00:00".
Definition at_0915 : timestamp := "2026-01-05 09:15:00".
Definition at_0940 : timestamp := "2026-01-05 09:40:00".
Definition at_1005 : timestamp := "2026-01-05 10:05:00".

Definition admin_user : Session.t := Session.mk 1 "Admin" Admin.
Definition ali : Session.t := Session.mk 2 "Ali" Customer.
Definition omar : Session.t := Session.mk 3 "Omar" Customer.
Definition sara : Session.t := Session.mk 4 "Sara" Staff.

(** Two customers register, the admin hires Sara, Ali adds his car. *)
Definition opening : list request :=
  [Register "Ali" "0311-1111111" "" "pw1" "pw1" at_0800;
   Register "Omar" "0322-2222222" "" "pw2" "pw2" at_0800;
   CreateStaffUser "Sara" "0333-3333333" "" "Staff" "pw3" at_0800
                   (Some admin_user);
   AddVehicle "LEA-1234" "Toyota" "Corolla" "White" "Sedan" (Some ali)].

Definition open_shop : db := run opening (seeded at_0800).

(** Ali books the Standard Wash (package 2, price 800) for his car. *)
Definition booked : db :=
  run [CreateBooking (Some 1) (Some 2) "2026-01-06T10:30" "" at_0915 at_0915
                     (Some ali)]
      open_shop.

(** Sara moves the booking to Drying and leaves the Washing entry open. *)
Definition two_open : db :=
  run [StaffUpdateStage 1 (Some 2) false at_0940 at_0940 (Some sara)] booked.

(** Sara moves the booking to the last stage, closing the Washing entry. *)
Definition finished : db :=
  run [StaffUpdateStage 1 (Some 4) true at_0940 at_0940 (Some sara)] booked.

(** ** One statement at a time

    What a handler can commit, one successful statement (or transaction) at
    a time; a committed request is a sequence of such changes. *)

Inductive change (d : db) : db -> Prop :=
| change_user n p e h r t d' :
    insert_user n p e h r t d = inr d' -> change d d'
| change_vehicle c p a b e f d' :
    insert_vehicle c p a b e f d = inr d' -> change d d'
| change_package row d' :
    insert_package row d = inr d' -> change d d'
| change_toggle pid :
    change d (toggle_active pid d)
| change_booking uid vid pid sc nt t_booking t_history bid d' :
    create_booking_tx uid vid pid sc nt t_booking t_history d = inr (bid, d') ->
    change d d'
| change_assign b s t :
    change d (try_assign b s t d)
| change_stage bid new ep row actor t_end t_start d' :
    booking_of d bid = Some row ->
    staff_update_stage_tx bid new ep (Booking.current_stage_id row) actor
                          t_end t_start d = inr d' ->
    change d d'
| change_payment method status now b d' :
    update_payment method status
                   match status with
                   | Some st => if String.eqb st "Paid" then Some now else None
                   | None => None
                   end b d = inr d' ->
    change d d'.

Inductive changes (d : db) : db -> Prop :=
| changes_none : changes d d
| changes_more d1 d2 : changes d d1 -> change d1 d2 -> changes d d2.

(** The session a request comes with; [register] reads none. *)
Definition caller (r : request) : session :=
  match r with
  | Register _ _ _ _ _ _ => None
  | AddVehicle _ _ _ _ _ s => s
  | CreateBooking _ _ _ _ _ _ s => s
  | StaffAssign _ _ _ s => s
  | CreatePackage _ _ _ _ s => s
  | TogglePackage _ s => s
  | CreateStaffUser _ _ _ _ _ _ s => s
  | StaffUpdateStage _ _ _ _ _ s => s
  | StaffUpdatePayment _ _ _ _ s => s
  end.

(** The stores the changes lead to, written out. *)

Definition emails (d : db) : list string :=
  flat_map (fun u => match User.email u with Some a => [a] | None => [] end)
           (users d).

(** The row [UPDATE payments] writes. *)
Definition set_payment (m s : string) (paid_at : option timestamp) (bid : Z)
    (p : Payment.t) : Payment.t :=
  if Payment.booking_id p =? bid
  then Payment.mk (Payment.payment_id p) (Payment.booking_id p)
                  (Payment.amount p) m s paid_at
  else p.

(** The store a committed [staff_update_stage] leaves. *)
Definition stage_advanced (d : db) (bid new : Z) (ep : bool)
    (cur : option Z) (actor : Z) (t_end t_start : timestamp) (st : Status)
    : db :=
  let d1 := previous_closed ep t_end bid cur d in
  set_history
    (booking_stage_history d1
       ++ [History.mk
             (next_rowid (map History.history_id (booking_stage_history d1)))
             bid new t_start None actor])
    (set_bookings (map (set_stage new st bid) (bookings d1)) d1).

Inductive effect (d : db) : db -> Prop :=
| eff_none : effect d d
| eff_user n p e h r t :
    ~ In p (map User.phone (users d)) ->
    (forall a, e = Some a -> ~ In a (emails d)) ->
    effect d (set_users
                (users d ++ [User.mk (next_rowid (user_ids d)) n p e h r t]) d)
| eff_vehicle c p a b e f :
    ~ In p (map Vehicle.plate_no (vehicles d)) ->
    In c (user_ids d) ->
    effect d (set_vehicles
                (vehicles d
                   ++ [Vehicle.mk (next_rowid (vehicle_ids d)) c p a b e f]) d)
| eff_package n p m a :
    ~ In n (map Package.package_name (packages d)) ->
    Qle_bool 0 p = true -> 0 < m -> a = 0 \/ a = 1 ->
    effect d (set_packages
                (packages d
                   ++ [Package.mk (next_rowid (package_ids d)) n p m a]) d)
| eff_toggle pid :
    effect d (toggle_active pid d)
| eff_booking uid vid pid sc nt t_booking t_history first price :
    In uid (user_ids d) -> In vid (vehicle_ids d) -> In pid (package_ids d) ->
    first_stage (service_stages d) = Some first ->
    In 1 (user_ids d) ->
    price_of d pid = Some price -> Qle_bool 0 price = true ->
    ~ In (next_rowid (booking_ids d)) (map Payment.booking_id (payments d)) ->
    effect d (booking_created d (next_rowid (booking_ids d)) uid vid pid sc nt
                              t_booking t_history first price)
| eff_assign b s t :
    assigned d b s = [] -> In b (booking_ids d) -> In s (user_ids d) ->
    effect d (set_assignment
                (booking_staff_assignment d ++ [Assignment.mk b s t]) d)
| eff_stage bid new ep row actor t_end t_start st :
    booking_of d bid = Some row ->
    In new (stage_ids d) -> In actor (user_ids d) ->
    st = Completed \/ st = InProgress ->
    effect d (stage_advanced d bid new ep (Booking.current_stage_id row) actor
                             t_end t_start st)
| eff_payment m s now b :
    valid_method m = true -> valid_payment_status s = true ->
    effect d (set_payments
                (map (set_payment m s
                        (if String.eqb s "Paid" then Some now else None) b)
                     (payments d)) d).

(** ** What the schema declares, as properties of a store *)

(** The [PRIMARY KEY] and [UNIQUE] constraints. *)
Record keys_ok (d : db) : Prop := mk_keys_ok
  { key_user_ids : NoDup (user_ids d);
    key_phones : NoDup (map User.phone (users d));
    key_emails : NoDup (emails d);
    key_vehicle_ids : NoDup (vehicle_ids d);
    key_plates : NoDup (map Vehicle.plate_no (vehicles d));
    key_package_ids : NoDup (package_ids d);
    key_package_names : NoDup (map Package.package_name (packages d));
    key_booking_ids : NoDup (booking_ids d);
    key_history_ids :
      NoDup (map History.history_id (booking_stage_history d));
    key_payment_ids : NoDup (map Payment.payment_id (payments d));
    key_payment_booking : NoDup (map Payment.booking_id (payments d)) }.

(** The [FOREIGN KEY] constraints. *)
Record refs_ok (d : db) : Prop := mk_refs_ok
  { ref_vehicle :
      forall v, In v (vehicles d) -> In (Vehicle.customer_id v) (user_ids d);
    ref_booking :
      forall b, In b (bookings d) ->
        In (Booking.customer_id b) (user_ids d)
        /\ In (Booking.vehicle_id b) (vehicle_ids d)
        /\ In (Booking.package_id b) (package_ids d)
        /\ forall c, Booking.current_stage_id b = Some c -> In c (stage_ids d);
    ref_history :
      forall h, In h (booking_stage_history d) ->
        In (History.booking_id h) (booking_ids d)
        /\ In (History.stage_id h) (stage_ids d)
        /\ In (History.updated_by_staff_id h) (user_ids d);
    ref_assignment :
      forall a, In a (booking_staff_assignment d) ->
        In (Assignment.booking_id a) (booking_ids d)
        /\ In (Assignment.staff_id a) (user_ids d);
    ref_payment :
      forall p, In p (payments d) -> In (Payment.booking_id p) (booking_ids d) }.

(** The [CHECK] constraints, with what the handlers add to them: the seeds
    stay, every booking has its payment row, and [paid_at] is set exactly
    on the rows whose status is ["Paid"]. *)
Record checks_ok (d : db) : Prop := mk_checks_ok
  { chk_package :
      forall p, In p (packages d) ->
        Qle_bool 0 (Package.price p) = true
        /\ 0 < Package.duration_minutes p
        /\ (Package.is_active p = 0 \/ Package.is_active p = 1);
    chk_payment :
      forall p, In p (payments d) ->
        Qle_bool 0 (Payment.amount p) = true
        /\ valid_method (Payment.method p) = true
        /\ valid_payment_status (Payment.payment_status p) = true
        /\ (Payment.paid_at p <> None <-> Payment.payment_status p = "Paid");
    chk_packages : packages d <> [];
    chk_admin : exists u, In u (users d) /\ User.role u = Admin;
    chk_paid :
      forall b, In b (bookings d) ->
        In (Booking.booking_id b) (map Payment.booking_id (payments d)) }.

(** ** What a request leaves of the rows that were there *)

Definition prefix {A} (l l' : list A) : Prop := exists t, l' = (l ++ t)%list.

(** The columns no statement of the handlers writes to after the insert. *)
Definition package_columns (p : Package.t) :=
  (Package.package_id p, Package.package_name p, Package.price p,
   Package.duration_minutes p).

Definition booking_columns (b : Booking.t) :=
  (Booking.booking_id b, Booking.customer_id b, Booking.vehicle_id b,
   Booking.package_id b, Booking.booking_datetime b,
   Booking.scheduled_datetime b, Booking.notes b).

Definition history_columns (h : History.t) :=
  (History.history_id h, History.booking_id h, History.stage_id h,
   History.start_time h, History.updated_by_staff_id h).

Definition payment_columns (p : Payment.t) :=
  (Payment.payment_id p, Payment.booking_id p, Payment.amount p).

Record grows (d d' : db) : Prop := mk_grows
  { grow_users : prefix (users d) (users d');
    grow_vehicles : prefix (vehicles d) (vehicles d');
    grow_packages :
      prefix (map package_columns (packages d))
             (map package_columns (packages d'));
    grow_stages : service_stages d' = service_stages d;
    grow_bookings :
      prefix (map booking_columns (bookings d))
             (map booking_columns (bookings d'));
    grow_history :
      prefix (map history_columns (booking_stage_history d))
             (map history_columns (booking_stage_history d'));
    grow_closed :
      forall h, In h (booking_stage_history d) ->
                History.end_time h <> None ->
                In h (booking_stage_history d');
    grow_assignment :
      prefix (booking_staff_assignment d) (booking_staff_assignment d');
    grow_payments :
      prefix (map payment_columns (payments d))
             (map payment_columns (payments d')) }.

(** ** The pages that only read *)

(** [ORDER BY key DESC] of rows taken in table order. *)
Fixpoint insert_desc {A} (key : A -> Z) (x : A) (l : list A) : list A :=
  match l with
  | [] => [x]
  | y :: l' => if key y <? key x then x :: l else y :: insert_desc key x l'
  end.

Definition sort_desc {A} (key : A -> Z) (l : list A) : list A :=
  fold_right (insert_desc key) [] l.

(** A Python [dict] with integer keys, in insertion order. *)
Fixpoint dict_get {V} (m : list (Z * V)) (k : Z) : option V :=
  match m with
  | [] => None
  | (k', v) :: m' => if k' =? k then Some v else dict_get m' k
  end.

(** [m[k] = v] *)
Fixpoint dict_put {V} (m : list (Z * V)) (k : Z) (v : V) : list (Z * V) :=
  match m with
  | [] => [(k, v)]
  | (k', v') :: m' =>
      if k' =? k then (k, v) :: m' else (k', v') :: dict_put m' k v
  end.

(** [m.setdefault(k, v)] *)
Definition setdefault {V} (m : list (Z * V)) (k : Z) (v : V) : list (Z * V) :=
  match dict_get m k with Some _ => m | None => dict_put m k v end.

(** The loop both dashboards run over the history rows, [limit] being 4
    for the customer and 6 for the staff:
    [m.setdefault(booking_id, [])], then
    [if len(m[booking_id]) < limit: m[booking_id].append(entry)]. *)
Definition history_map_step {V} (limit : nat) (m : list (Z * list V))
    (row : Z * V) : list (Z * list V) :=
  let '(booking_id, entry) := row in
  let m1 := setdefault m booking_id [] in
  match dict_get m1 booking_id with
  | Some l =>
      if (List.length l <? limit)%nat
      then dict_put m1 booking_id (l ++ [entry])%list
      else m1
  | None => m1
  end.

Definition history_map_loop {V} (limit : nat) (rows : list (Z * V))
    : list (Z * list V) :=
  fold_left (history_map_step limit) rows [].

(** The [booking_id]s of the bookings query of [customer_dashboard]:
    [bookings] joined with [vehicles] and [packages], of one customer. *)
Definition customer_booking_ids (d : db) (uid : Z) : list Z :=
  map Booking.booking_id
    (sort_desc Booking.booking_id
       (flat_map
          (fun b =>
             flat_map
               (fun v =>
                  map (fun p => b)
                      (filter (fun p => Package.package_id p
                                        =? Booking.package_id b) (packages d)))
               (filter (fun v => Vehicle.vehicle_id v =? Booking.vehicle_id b)
                       (vehicles d)))
          (filter (fun b => Booking.customer_id b =? uid) (bookings d)))).

(** The history rows of [customer_dashboard]: [booking_stage_history]
    joined with [service_stages], [WHERE h.booking_id IN (...)
    ORDER BY h.history_id DESC]; a row is the booking id with
    [(stage_name, start_time, end_time)]. *)
Definition customer_history_rows (d : db) (booking_ids : list Z)
    : list (Z * (string * timestamp * option timestamp)) :=
  flat_map
    (fun h =>
       map (fun ss => (History.booking_id h,
                       (Stage.stage_name ss, History.start_time h,
                        History.end_time h)))
           (filter (fun ss => Stage.stage_id ss =? History.stage_id h)
                   (service_stages d)))
    (sort_desc History.history_id
       (filter (fun h => has_id booking_ids (History.booking_id h))
               (booking_stage_history d))).

(** [cust_history_map] of [customer_dashboard]. *)
Definition cust_history_map (d : db) (uid : Z)
    : list (Z * list (string * timestamp * option timestamp)) :=
  match customer_booking_ids d uid with
  | [] => []
  | booking_ids => history_map_loop 4 (customer_history_rows d booking_ids)
  end.

(** The ids of the active bookings of [staff_dashboard]: [bookings] joined
    with [users], [vehicles] and [packages],
    [WHERE b.status IN ('Booked','InProgress') ORDER BY b.booking_id ASC]. *)
Definition active_booking_ids (d : db) : list Z :=
  rev
    (map Booking.booking_id
       (sort_desc Booking.booking_id
          (flat_map
             (fun b =>
                flat_map
                  (fun c =>
                     flat_map
                       (fun v =>
                          map (fun p => b)
                              (filter (fun p => Package.package_id p
                                                =? Booking.package_id b)
                                      (packages d)))
                       (filter (fun v => Vehicle.vehicle_id v
                                         =? Booking.vehicle_id b)
                               (vehicles d)))
                  (filter (fun c => User.user_id c =? Booking.customer_id b)
                          (users d)))
             (filter (fun b => Status_eqb (Booking.status b) Booked
                               || Status_eqb (Booking.status b) InProgress)
                     (bookings d))))).

(** The history rows of [staff_dashboard]: joined with [service_stages] and
    with [users] for the name of who recorded the entry. *)
Definition staff_history_rows (d : db) (booking_ids : list Z)
    : list (Z * (string * timestamp * option timestamp * string)) :=
  flat_map
    (fun h =>
       flat_map
         (fun ss =>
            map (fun u => (History.booking_id h,
                           (Stage.stage_name ss, History.start_time h,
                            History.end_time h, User.full_name u)))
                (filter (fun u => User.user_id u
                                  =? History.updated_by_staff_id h) (users d)))
         (filter (fun ss => Stage.stage_id ss =? History.stage_id h)
                 (service_stages d)))
    (sort_desc History.history_id
       (filter (fun h => has_id booking_ids (History.booking_id h))
               (booking_stage_history d))).

(** [history_map] of [staff_dashboard]. *)
Definition staff_history_map (d : db)
    : list (Z * list (string * timestamp * option timestamp * string)) :=
  match active_booking_ids d with
  | [] => []
  | booking_ids => history_map_loop 6 (staff_history_rows d booking_ids)
  end.

(** The first query of [booking_detail]: the booking joined with its
    customer, vehicle and package, and [LEFT JOIN]ed with its stage. *)
Module Detail.
Record t := mk
  { booking_id : Z; booking_datetime : timestamp;
    scheduled_datetime : option string; status : Status;
    notes : option string; full_name : string; plate_no : string;
    package_name : string; price : Q; stage_name : option string }.
End Detail.

Definition booking_detail_rows (d : db) (bid : Z) : list Detail.t :=
  flat_map
    (fun b =>
       flat_map
         (fun u =>
            flat_map
              (fun v =>
                 flat_map
                   (fun p =>
                      let row name :=
                        Detail.mk (Booking.booking_id b)
                                  (Booking.booking_datetime b)
                                  (Booking.scheduled_datetime b)
                                  (Booking.status b) (Booking.notes b)
                                  (User.full_name u) (Vehicle.plate_no v)
                                  (Package.package_name p) (Package.price p)
                                  name in
                      match filter (fun s => match Booking.current_stage_id b with
                                             | Some c => Stage.stage_id s =? c
                                             | None => false
                                             end) (service_stages d) with
                      | [] => [row None]
                      | ss => map (fun s => row (Some (Stage.stage_name s))) ss
                      end)
                   (filter (fun p => Package.package_id p
                                     =? Booking.package_id b) (packages d)))
              (filter (fun v => Vehicle.vehicle_id v =? Booking.vehicle_id b)
                      (vehicles d)))
         (filter (fun u => User.user_id u =? Booking.customer_id b) (users d)))
    (filter (fun b => Booking.booking_id b =? bid) (bookings d)).

(** The history rows of [booking_detail], latest first. *)
Definition booking_detail_history (d : db) (bid : Z)
    : list (string * timestamp * option timestamp * string) :=
  map snd (staff_history_rows d [bid]).

(** What [booking_detail] answers: the three redirects, or the page with
    the booking row, its history and its payment row.  (The page also
    lists the assigned staff [ORDER BY a.assigned_at DESC]; the order of
    rows assigned in the same second is left to the store, and the list
    is not carried here.) *)
Inductive detail_response :=
| detail_to_login
| detail_not_found
| detail_not_allowed
| detail_page (booking : Detail.t)
              (history : list (string * timestamp * option timestamp * string))
              (payment : option Payment.t).

Definition booking_detail (booking_id : Z) (s : session) (d : db)
    : M detail_response :=
  match s with
  | None => ret detail_to_login
  | Some u =>
      match booking_detail_rows d booking_id with
      | [] => ret detail_not_found
      | booking :: _ =>
          allowed <-
            (if Role_eqb (Session.role u) Customer
             then
               row <- fetchone0 (booking_of d booking_id) ;;
               ret (Booking.customer_id row =? Session.user_id u)
             else ret true) ;;
          if allowed
          then ret (detail_page booking (booking_detail_history d booking_id)
                                (payment_of d booking_id))
          else ret detail_not_allowed
      end
  end.

(** Rowids grow with the position in the table. *)
Fixpoint increasing (l : list Z) : Prop :=
  match l with
  | [] => True
  | x :: l' => (forall y, In y l' -> x < y) /\ increasing l'
  end.

(** The history of a booking as [customer_dashboard] reads it, the entry
    inserted last first. *)
Definition customer_latest_entries (d : db) (bid : Z)
    : list (string * timestamp * option timestamp) :=
  flat_map
    (fun h =>
       map (fun ss => (Stage.stage_name ss, History.start_time h,
                       History.end_time h))
           (filter (fun ss => Stage.stage_id ss =? History.stage_id h)
                   (service_stages d)))
    (rev (filter (fun h => History.booking_id h =? bid)
                 (booking_stage_history d))).

(** The same as [staff_dashboard] and [booking_detail] read it, with the
    name of who recorded each entry. *)
Definition staff_latest_entries (d : db) (bid : Z)
    : list (string * timestamp * option timestamp * string) :=
  flat_map
    (fun h =>
       flat_map
         (fun ss =>
            map (fun u => (Stage.stage_name ss, History.start_time h,
                           History.end_time h, User.full_name u))
                (filter (fun u => User.user_id u
                                  =? History.updated_by_staff_id h) (users d)))
         (filter (fun ss => Stage.stage_id ss =? History.stage_id h)
                 (service_stages d)))
    (rev (filter (fun h => History.booking_id h =? bid)
                 (booking_stage_history d))).

(** * Properties *)

(** ** Lists, lookups and fresh rowids *)

Lemma has_id_In (ids : list Z) (i : Z) : has_id ids i = true <-> In i ids.
Proof.
  unfold has_id. rewrite existsb_exists. split.
  - intros [x [Hx E]]. apply Z.eqb_eq in E. now subst.
  - intros H. exists i. split; [assumption | apply Z.eqb_refl].
Qed.

Lemma has_id_app (l1 l2 : list Z) (i : Z) :
  has_id (l1 ++ l2) i = has_id l1 i || has_id l2 i.
Proof. unfold has_id. apply existsb_app. Qed.

Lemma fold_max_ge (ids : list Z) (i : Z) :
  In i ids -> i <= fold_right Z.max 0 ids.
Proof.
  induction ids as [|a ids IH]; simpl; [contradiction|].
  intros [-> | H]; [lia | specialize (IH H); lia].
Qed.

Lemma next_rowid_fresh (ids : list Z) : has_id ids (next_rowid ids) = false.
Proof.
  destruct (has_id ids (next_rowid ids)) eqn:E; [|reflexivity].
  apply has_id_In, fold_max_ge in E. unfold next_rowid in E. lia.
Qed.

Lemma find_In {A} (p : A -> bool) (l : list A) (a : A) :
  find p l = Some a -> In a l /\ p a = true.
Proof. apply find_some. Qed.

(** A [SELECT ... WHERE key=?] on a column that is a key finds the row
    that has the key. *)
Lemma find_key {A} (key : A -> Z) (l : list A) (a : A) :
  NoDup (map key l) -> In a l -> find (fun x => key x =? key a) l = Some a.
Proof.
  induction l as [|x l IH]; cbn [map find]; [contradiction|].
  intros Hnd [-> | Hin]; [now rewrite Z.eqb_refl|].
  inversion Hnd as [|? ? Hx Hl]; subst.
  destruct (key x =? key a) eqn:E; [|now apply IH].
  apply Z.eqb_eq in E. exfalso. apply Hx. rewrite E. now apply in_map.
Qed.

(** An [UPDATE ... WHERE key=?] seen through a [SELECT ... WHERE key=?]. *)
Lemma find_update {A} (key : A -> Z) (f : A -> A) (k k' : Z) (l : list A) :
  (forall a, key (f a) = key a) ->
  find (fun a => key a =? k') (map (fun a => if key a =? k then f a else a) l)
  = if k' =? k then option_map f (find (fun a => key a =? k) l)
    else find (fun a => key a =? k') l.
Proof.
  intros Hkey. induction l as [|a l IH]; simpl.
  - now destruct (k' =? k).
  - destruct (key a =? k) eqn:Ea.
    + rewrite Hkey. apply Z.eqb_eq in Ea. rewrite Ea.
      destruct (k =? k') eqn:Ek.
      * apply Z.eqb_eq in Ek. subst k'. now rewrite Z.eqb_refl.
      * rewrite IH. rewrite Z.eqb_sym in Ek. now rewrite Ek.
    + destruct (key a =? k') eqn:Ea'.
      * destruct (k' =? k) eqn:Ek; [|reflexivity].
        apply Z.eqb_eq in Ek. subst k'. congruence.
      * apply IH.
Qed.

Lemma first_stage_least (l : list Stage.t) (m : Stage.t) :
  first_stage l = Some m ->
  In m l /\ forall s, In s l -> Stage.stage_order m <= Stage.stage_order s.
Proof.
  revert m. induction l as [|a l IH]; simpl; [discriminate|].
  intros m. destruct (first_stage l) as [m'|] eqn:E.
  - destruct (IH m' eq_refl) as [Hin Hle].
    destruct (Stage.stage_order a <=? Stage.stage_order m') eqn:C;
      intros [= <-].
    + apply Z.leb_le in C. split; [now left|].
      intros s [<- | Hs]; [lia | specialize (Hle s Hs); lia].
    + apply Z.leb_gt in C. split; [now right|].
      intros s [<- | Hs]; [lia | now apply Hle].
  - intros [= <-]. destruct l; [|simpl in E; destruct (first_stage l);
      [destruct (_ <=? _)|]; discriminate].
    split; [now left|]. intros s [<- | []]. lia.
Qed.

Lemma max_stage_order_greatest (l : list Stage.t) (m : Z) :
  max_stage_order l = Some m ->
  (exists s, In s l /\ Stage.stage_order s = m)
  /\ forall s, In s l -> Stage.stage_order s <= m.
Proof.
  revert m. induction l as [|a l IH]; simpl; [discriminate|].
  intros m. destruct (max_stage_order l) as [m'|] eqn:E; intros [= <-].
  - destruct (IH m' eq_refl) as [[s [Hs Es]] Hle]. split.
    + destruct (Z.max_spec (Stage.stage_order a) m') as [[_ ->] | [_ ->]].
      * exists s. auto.
      * exists a. auto.
    + intros s' [<- | Hs']; [lia | specialize (Hle s' Hs'); lia].
  - destruct l; [|simpl in E; destruct (max_stage_order l); discriminate].
    split; [exists a; auto|]. intros s [<- | []]. lia.
Qed.

Lemma max_stage_order_some (l : list Stage.t) :
  l <> [] -> exists m, max_stage_order l = Some m.
Proof.
  destruct l as [|a l]; [congruence|]. intros _. simpl.
  destruct (max_stage_order l); eauto.
Qed.

Lemma stage_order_of_In (d : db) (sid o : Z) :
  stage_order_of d sid = Some o ->
  has_id (stage_ids d) sid = true
  /\ exists s, In s (service_stages d) /\ Stage.stage_order s = o.
Proof.
  unfold stage_order_of. destruct (find _ _) as [s|] eqn:E; [|discriminate].
  intros [= <-]. apply find_In in E. destruct E as [Hin Hk].
  apply Z.eqb_eq in Hk. split.
  - apply has_id_In. unfold stage_ids. rewrite <- Hk. now apply in_map.
  - eauto.
Qed.

(** ** What a statement that succeeds has done *)

Ltac checks H :=
  repeat match type of H with
    | bind (check ?c) _ = _ =>
        let E := fresh "Chk" in
        destruct c eqn:E; cbn [bind check ret raise] in H;
        [| discriminate H]
    end.

Lemma insert_user_inr n p e h r t d d' :
  insert_user n p e h r t d = inr d' ->
  d' = set_users (users d ++ [User.mk (next_rowid (user_ids d)) n p e h r t]) d.
Proof. unfold insert_user. intros H. checks H. now injection H. Qed.

Lemma insert_vehicle_inr c p a b e f d d' :
  insert_vehicle c p a b e f d = inr d' ->
  d' = set_vehicles
         (vehicles d ++ [Vehicle.mk (next_rowid (vehicle_ids d)) c p a b e f]) d.
Proof. unfold insert_vehicle. intros H. checks H. now injection H. Qed.

Lemma insert_package_inr n p m a d d' :
  insert_package (n, p, m, a) d = inr d' ->
  Qle_bool 0 p = true
  /\ d' = set_packages
            (packages d ++ [Package.mk (next_rowid (package_ids d)) n p m a]) d.
Proof. unfold insert_package. intros H. checks H. now injection H. Qed.

Lemma insert_booking_inr c v p t sc st cur nt d r :
  insert_booking c v p t sc st cur nt d = inr r ->
  r = (next_rowid (booking_ids d),
       set_bookings
         (bookings d ++ [Booking.mk (next_rowid (booking_ids d)) c v p t sc st
                                    cur nt]) d).
Proof. unfold insert_booking. intros H. checks H. now injection H. Qed.

Lemma insert_history_inr b s t e u d d' :
  insert_history b s t e u d = inr d' ->
  has_id (booking_ids d) b = true
  /\ d' = set_history
            (booking_stage_history d
               ++ [History.mk
                     (next_rowid
                        (map History.history_id (booking_stage_history d)))
                     b s t e u]) d.
Proof. unfold insert_history. intros H. checks H. now injection H. Qed.

Lemma insert_assignment_inr b s t d d' :
  insert_assignment b s t d = inr d' ->
  assigned d b s = []
  /\ d' = set_assignment
            (booking_staff_assignment d ++ [Assignment.mk b s t]) d.
Proof.
  unfold insert_assignment. intros H. checks H.
  destruct (assigned d b s); [|discriminate]. now injection H.
Qed.

Lemma insert_payment_inr b a m s p d d' :
  insert_payment b a m s p d = inr d' ->
  has_id (booking_ids d) b = true
  /\ d' = set_payments
            (payments d
               ++ [Payment.mk (next_rowid (map Payment.payment_id (payments d)))
                              b a m s p]) d.
Proof. unfold insert_payment. intros H. checks H. now injection H. Qed.

(** ** Sessions *)

Lemma Role_eqb_refl (r : Role) : Role_eqb r r = true.
Proof. now destruct r. Qed.

(** X2.  A session that [login] hands out names a row of [users], by id
    and role. *)
Lemma login_authentic phone password s d n r u :
  login phone password s d = (Redirect home (Some (Welcome n r)), Some u) ->
  authentic d u = true.
Proof.
  unfold login. destruct (find _ _) as [row|] eqn:E; [|discriminate].
  intros [= _ _ <-]. apply find_In in E. destruct E as [Hin _].
  unfold authentic. apply existsb_exists. exists row. split; [assumption|].
  simpl. now rewrite Z.eqb_refl, Role_eqb_refl.
Qed.

Lemma authentic_has_id d u :
  authentic d u = true -> has_id (user_ids d) (Session.user_id u) = true.
Proof.
  unfold authentic. rewrite existsb_exists. intros [row [Hin E]].
  apply andb_prop in E. destruct E as [E _]. apply Z.eqb_eq in E.
  apply has_id_In. rewrite <- E. unfold user_ids. now apply in_map.
Qed.

(** ** Advancing a booking to a stage *)

Lemma booking_ids_update (f : Booking.t -> Booking.t) (k : Z) l :
  (forall b, Booking.booking_id (f b) = Booking.booking_id b) ->
  map Booking.booking_id
      (map (fun b => if Booking.booking_id b =? k then f b else b) l)
  = map Booking.booking_id l.
Proof.
  intros Hf. rewrite map_map. apply map_ext. intros b.
  destruct (_ =? _); auto.
Qed.

Lemma booking_of_has_id d bid row :
  booking_of d bid = Some row -> has_id (booking_ids d) bid = true.
Proof.
  unfold booking_of. intros H. apply find_In in H. destruct H as [Hin E].
  apply Z.eqb_eq in E. apply has_id_In. rewrite <- E.
  unfold booking_ids. now apply in_map.
Qed.

Lemma previous_closed_frame ep t b cur d :
  let d1 := previous_closed ep t b cur d in
  users d1 = users d /\ service_stages d1 = service_stages d
  /\ bookings d1 = bookings d.
Proof. unfold previous_closed. destruct cur, ep; simpl; auto. Qed.

Lemma staff_update_stage_tx_inr d bid new ep cur actor t1 t2 o :
  has_id (booking_ids d) bid = true ->
  has_id (user_ids d) actor = true ->
  stage_order_of d new = Some o ->
  exists m,
    max_stage_order (service_stages d) = Some m /\
    staff_update_stage_tx bid new ep cur actor t1 t2 d
    = inr (let d1 := previous_closed ep t1 bid cur d in
           let d2 :=
             set_bookings
               (map (fun b =>
                       if Booking.booking_id b =? bid
                       then Booking.mk (Booking.booking_id b)
                              (Booking.customer_id b) (Booking.vehicle_id b)
                              (Booking.package_id b)
                              (Booking.booking_datetime b)
                              (Booking.scheduled_datetime b)
                              (if o =? m then Completed else InProgress)
                              (Some new) (Booking.notes b)
                       else b) (bookings d1)) d1 in
           set_history
             (booking_stage_history d2
                ++ [History.mk
                      (next_rowid
                         (map History.history_id (booking_stage_history d2)))
                      bid new t2 None actor]) d2).
Proof.
  intros Hb Hu Ho.
  destruct (stage_order_of_In _ _ _ Ho) as [Hs [s [Hin _]]].
  destruct (@max_stage_order_some (service_stages d)) as [m Hm].
  { intros E. rewrite E in Hin. contradiction. }
  exists m. split; [assumption|].
  unfold staff_update_stage_tx. fold (previous_closed ep t1 bid cur d).
  destruct (previous_closed_frame ep t1 bid cur d) as [Eu [Es Eb]].
  set (d1 := previous_closed ep t1 bid cur d) in *.
  assert (Ho1 : stage_order_of d1 new = Some o).
  { unfold stage_order_of. rewrite Es. exact Ho. }
  rewrite Ho1, Es, Hm. cbn [fetchone0 bind ret].
  unfold update_booking, insert_history, booking_ids, stage_ids, user_ids.
  rewrite Eb, Es. fold (booking_ids d) (stage_ids d).
  rewrite Hb, Hs. cbn [negb orb check bind ret set_bookings bookings
                        service_stages users booking_stage_history].
  rewrite booking_ids_update by reflexivity.
  rewrite ?Es, ?Eu. fold (booking_ids d) (stage_ids d) (user_ids d).
  rewrite Hb, Hs, Hu. cbn [check bind ret]. reflexivity.
Qed.

(** The update in terms of the order that the lookup of the new stage
    gives. *)
Lemma staff_update_stage_at_order :
  forall d u booking_id new_stage_id end_prev t_end t_start row new_order,
    require_staff (Some u) = true ->
    authentic d u = true ->
    booking_of d booking_id = Some row ->
    stage_order_of d new_stage_id = Some new_order ->
    exists d' row' h,
      staff_update_stage booking_id (Some new_stage_id) end_prev t_end t_start
                         (Some u) d
      = (Redirect staff_dashboard (Some StageUpdated), d')
      /\ booking_of d' booking_id = Some row'
      /\ Booking.current_stage_id row' = Some new_stage_id
      /\ ((forall s, In s (service_stages d) ->
                     Stage.stage_order s <= new_order) ->
          Booking.status row' = Completed)
      /\ (~ (forall s, In s (service_stages d) ->
                       Stage.stage_order s <= new_order) ->
          Booking.status row' = InProgress)
      /\ booking_stage_history d'
         = (booking_stage_history
              (previous_closed end_prev t_end booking_id
                               (Booking.current_stage_id row) d) ++ [h])%list
      /\ History.booking_id h = booking_id
      /\ History.stage_id h = new_stage_id
      /\ History.start_time h = t_start
      /\ History.end_time h = None
      /\ History.updated_by_staff_id h = Session.user_id u.
Proof.
  intros d u bid new ep t1 t2 row o Hstaff Hauth Hrow Ho.
  destruct (staff_update_stage_tx_inr d bid new ep
              (Booking.current_stage_id row) (Session.user_id u) t1 t2 o
              (booking_of_has_id _ _ _ Hrow) (authentic_has_id _ _ Hauth) Ho)
    as [m [Hm Htx]].
  unfold staff_update_stage. rewrite Hstaff, Hrow. cbn [negb]. rewrite Htx.
  destruct (previous_closed_frame ep t1 bid (Booking.current_stage_id row) d)
    as [_ [_ Eb]].
  eexists. eexists. eexists. split; [reflexivity|].
  split.
  { unfold booking_of. cbn [bookings set_history set_bookings]. rewrite Eb.
    rewrite (find_update Booking.booking_id _ bid bid) by reflexivity.
    rewrite Z.eqb_refl. fold (booking_of d bid). rewrite Hrow. reflexivity. }
  cbn [Booking.current_stage_id Booking.status booking_stage_history
       set_history set_bookings History.booking_id History.stage_id
       History.start_time History.end_time History.updated_by_staff_id].
  destruct (max_stage_order_greatest _ _ Hm) as [[s [Hs Es]] Hle].
  destruct (stage_order_of_In _ _ _ Ho) as [_ [so [Hso Eso]]].
  repeat split.
  - intros Hmax. specialize (Hmax s Hs). specialize (Hle so Hso).
    replace (o =? m) with true; [reflexivity|]. symmetry. apply Z.eqb_eq. lia.
  - intros Hnot. destruct (o =? m) eqn:E; [|reflexivity].
    apply Z.eqb_eq in E. subst m. contradiction.
Qed.

Lemma stage_order_of_row d s :
  NoDup (stage_ids d) -> In s (service_stages d) ->
  stage_order_of d (Stage.stage_id s) = Some (Stage.stage_order s).
Proof.
  intros Hk Hin. unfold stage_order_of.
  now rewrite (find_key Stage.stage_id _ s Hk Hin).
Qed.

(** C3.  When a Staff or Admin member advances an existing booking to a
    stage that is a row of [service_stages] (whose ids are a key, as the
    schema declares), the request succeeds; the booking then has that stage
    as current stage, and status Completed when the order in that row is
    the greatest of all stages and InProgress otherwise; and the history is
    the earlier one (its previous entry closed or not) followed by one new
    entry for the new stage, started at the reading of the clock, open, and
    attributed to the acting member. *)
Theorem staff_update_stage_effect :
  forall d u booking_id new_stage end_prev t_end t_start row,
    require_staff (Some u) = true ->
    authentic d u = true ->
    booking_of d booking_id = Some row ->
    NoDup (stage_ids d) ->
    In new_stage (service_stages d) ->
    exists d' row' h,
      staff_update_stage booking_id (Some (Stage.stage_id new_stage)) end_prev
                         t_end t_start (Some u) d
      = (Redirect staff_dashboard (Some StageUpdated), d')
      /\ booking_of d' booking_id = Some row'
      /\ Booking.current_stage_id row' = Some (Stage.stage_id new_stage)
      /\ ((forall s, In s (service_stages d) ->
                     Stage.stage_order s <= Stage.stage_order new_stage) ->
          Booking.status row' = Completed)
      /\ (~ (forall s, In s (service_stages d) ->
                       Stage.stage_order s <= Stage.stage_order new_stage) ->
          Booking.status row' = InProgress)
      /\ booking_stage_history d'
         = (booking_stage_history
              (previous_closed end_prev t_end booking_id
                               (Booking.current_stage_id row) d) ++ [h])%list
      /\ History.booking_id h = booking_id
      /\ History.stage_id h = Stage.stage_id new_stage
      /\ History.start_time h = t_start
      /\ History.end_time h = None
      /\ History.updated_by_staff_id h = Session.user_id u.
Proof.
  intros d u bid new ep t1 t2 row Hstaff Hauth Hrow Hk Hin.
  exact (staff_update_stage_at_order d u bid (Stage.stage_id new) ep t1 t2 row
           (Stage.stage_order new) Hstaff Hauth Hrow
           (stage_order_of_row d new Hk Hin)).
Qed.

(** A stage id that resolves to no row: the lookup of its order gives no
    row, the subscript raises, and nothing is committed. *)
Lemma staff_update_stage_unknown_stage :
  forall d s booking_id new_stage_id end_prev t_end t_start,
    stage_order_of d new_stage_id = None ->
    snd (staff_update_stage booking_id (Some new_stage_id) end_prev t_end
                            t_start s d) = d
    /\ (require_staff s = true -> booking_of d booking_id <> None ->
        fst (staff_update_stage booking_id (Some new_stage_id) end_prev t_end
                                t_start s d) = Abort TypeError).
Proof.
  intros d s bid new ep t1 t2 Ho. unfold staff_update_stage.
  destruct s as [u|]; [|split; [reflexivity | discriminate]].
  destruct (require_staff (Some u)); cbn [negb];
    [|split; [reflexivity | discriminate]].
  destruct (booking_of d bid) as [row|]; [|split; [reflexivity | congruence]].
  unfold staff_update_stage_tx.
  fold (previous_closed ep t1 bid (Booking.current_stage_id row) d).
  destruct (previous_closed_frame ep t1 bid (Booking.current_stage_id row) d)
    as [_ [Es _]].
  unfold stage_order_of in *. rewrite Es, Ho. cbn. auto.
Qed.

(** ** Recording a payment *)

Lemma String_eqb_neq (a b : string) : a <> b -> String.eqb a b = false.
Proof. intros H. now apply String.eqb_neq. Qed.

(** C9.  For a Staff or Admin caller and a booking that has a payment row,
    recording a method and a status of the schema's lists succeeds whatever
    the row held before; the row then holds that method and status, its
    [paid_at] is the reading of the clock when the status is ["Paid"] and
    null otherwise, and its amount (with its ids) is as before; the payment
    rows of other bookings are untouched. *)
Theorem staff_update_payment_effect :
  forall d s booking_id m st now p,
    require_staff s = true ->
    payment_of d booking_id = Some p ->
    valid_method m = true ->
    valid_payment_status st = true ->
    exists d' p',
      staff_update_payment booking_id (Some m) (Some st) now s d
      = (Redirect staff_dashboard (Some PaymentUpdated), d')
      /\ payment_of d' booking_id = Some p'
      /\ Payment.method p' = m
      /\ Payment.payment_status p' = st
      /\ (st = "Paid" -> Payment.paid_at p' = Some now)
      /\ (st <> "Paid" -> Payment.paid_at p' = None)
      /\ Payment.amount p' = Payment.amount p
      /\ Payment.payment_id p' = Payment.payment_id p
      /\ Payment.booking_id p' = Payment.booking_id p
      /\ (forall b, b <> booking_id -> payment_of d' b = payment_of d b).
Proof.
  intros d s bid m st now p Hs Hp Hm Hst.
  unfold staff_update_payment, update_payment. rewrite Hs, Hp, Hm, Hst.
  cbn [negb check bind ret]. eexists. eexists. split; [reflexivity|].
  unfold payment_of in *. cbn [payments set_payments].
  split.
  { rewrite (find_update Payment.booking_id _ bid bid) by reflexivity.
    rewrite Z.eqb_refl, Hp. reflexivity. }
  cbn [Payment.method Payment.payment_status Payment.paid_at Payment.amount
       Payment.payment_id Payment.booking_id].
  repeat split.
  - intros ->. reflexivity.
  - intros Hne. now rewrite String_eqb_neq.
  - intros b Hb.
    rewrite (find_update Payment.booking_id _ bid b) by reflexivity.
    apply Z.eqb_neq in Hb. now rewrite Hb.
Qed.

(** ** Creating Staff and Admin users *)

(** C10, as the code has it.  A caller that is not logged in, or whose role
    is Customer, is sent to the login page and the store is left as it was.
    The guard is [require_staff]: it lets Staff through as well as Admin. *)
Theorem create_staff_user_guard :
  forall d s full_name phone email role password now,
    require_staff s = false ->
    create_staff_user full_name phone email role password now s d
    = (Redirect login_page None, d).
Proof.
  intros d s n p e r pw now Hs. unfold create_staff_user. now rewrite Hs.
Qed.

(** ** Creating a booking *)

(** A [vehicle_id] that names no row of [vehicles] makes the insert of the
    booking violate its foreign key: the request ends in an exception for a
    Customer caller, and whoever calls, the store is left as it was.  The
    foreign key is the one check of the vehicle on this path. *)
Lemma create_booking_unknown_vehicle :
  forall d s vehicle_id package_id scheduled_raw notes t_booking t_history,
    has_id (vehicle_ids d) vehicle_id = false ->
    snd (create_booking (Some vehicle_id) package_id scheduled_raw notes
                        t_booking t_history s d) = d
    /\ (require_customer s = true ->
        exists e,
          fst (create_booking (Some vehicle_id) package_id scheduled_raw notes
                              t_booking t_history s d) = Abort e).
Proof.
  intros d s vid pid sr nt t1 t2 Hv. unfold create_booking.
  destruct s as [u|]; cbn [require_customer];
    [|split; [reflexivity | discriminate]].
  destruct (Role_eqb (Session.role u) Customer); cbn [negb];
    [|split; [reflexivity | discriminate]].
  assert (Hfail : forall e, snd (Abort e, d) = d
                    /\ (true = true -> exists e', fst (Abort e, d) = Abort e')).
  { intros e. split; [reflexivity | intros _; now exists e]. }
  destruct pid as [pid|]; cbn [int_field bind ret raise]; [|apply Hfail].
  unfold create_booking_tx, insert_booking.
  destruct (first_stage (service_stages d)); cbn [fetchone0 bind ret raise];
    [|apply Hfail].
  rewrite Hv.
  destruct (has_id (user_ids d) (Session.user_id u));
    cbn [check bind ret raise]; apply Hfail.
Qed.

(** ** Assigning staff *)

Lemma try_assign_eq b s t d :
  match insert_assignment b s t d with
  | inl IntegrityError => ret d
  | r => r
  end = inr (try_assign b s t d).
Proof.
  unfold try_assign, assignable, insert_assignment.
  destruct (assigned d b s); cbn [check bind ret raise andb]; [|reflexivity].
  destruct (has_id (booking_ids d) b); cbn [check bind ret raise andb];
    [|reflexivity].
  destruct (has_id (user_ids d) s); reflexivity.
Qed.

Lemma staff_assign_loop_cons b s ids now i d :
  staff_assign_loop b (Some s :: ids) now i d
  = staff_assign_loop b ids now (S i) (try_assign b s (now i) d).
Proof.
  cbn [staff_assign_loop int_field bind ret]. now rewrite try_assign_eq.
Qed.

Lemma try_assign_frame b s t d : assignment_frame d (try_assign b s t d).
Proof.
  unfold try_assign, assignment_frame. destruct (assignable d b s); cbn;
    repeat split.
Qed.

Lemma assigned_spec d b s a :
  In a (assigned d b s)
  <-> In a (booking_staff_assignment d)
      /\ Assignment.booking_id a = b /\ Assignment.staff_id a = s.
Proof.
  unfold assigned. rewrite filter_In, andb_true_iff, !Z.eqb_eq. tauto.
Qed.

Lemma assigned_app d b s l :
  assigned (set_assignment (booking_staff_assignment d ++ l) d) b s
  = (assigned d b s
     ++ filter (fun a => (Assignment.booking_id a =? b)
                         && (Assignment.staff_id a =? s)) l)%list.
Proof. unfold assigned. cbn. apply filter_app. Qed.

Lemma try_assign_rows b s t d a :
  In a (booking_staff_assignment (try_assign b s t d))
  <-> In a (booking_staff_assignment d)
      \/ (assignable d b s = true /\ a = Assignment.mk b s t).
Proof.
  unfold try_assign. destruct (assignable d b s); cbn.
  - rewrite in_app_iff. cbn. intuition congruence.
  - intuition congruence.
Qed.

Lemma try_assign_assigned b s t d :
  has_id (booking_ids d) b = true -> has_id (user_ids d) s = true ->
  exists a, In a (assigned (try_assign b s t d) b s).
Proof.
  intros Hb Hs. destruct (assignable d b s) eqn:E.
  - exists (Assignment.mk b s t). apply assigned_spec. split; [|now cbn].
    apply try_assign_rows. auto.
  - unfold try_assign. rewrite E. unfold assignable in E. rewrite Hb, Hs in E.
    destruct (assigned d b s) as [|a l]; [discriminate|]. exists a. now left.
Qed.

Lemma staff_assign_loop_spec :
  forall ids b now i d,
  exists d',
    staff_assign_loop b (map Some ids) now i d = inr d'
    /\ assignment_frame d d'
    /\ (forall a, In a (booking_staff_assignment d) ->
                  In a (booking_staff_assignment d'))
    /\ (forall s, In s ids -> has_id (booking_ids d) b = true ->
                  has_id (user_ids d) s = true ->
                  exists a, In a (assigned d' b s))
    /\ (forall a, In a (booking_staff_assignment d') ->
                  In a (booking_staff_assignment d)
                  \/ (Assignment.booking_id a = b
                      /\ In (Assignment.staff_id a) ids
                      /\ has_id (user_ids d) (Assignment.staff_id a) = true
                      /\ has_id (booking_ids d) b = true)).
Proof.
  induction ids as [|s ids IH]; intros b now i d.
  - exists d. cbn. unfold assignment_frame.
    repeat split; auto; contradiction.
  - cbn [map]. rewrite staff_assign_loop_cons.
    destruct (IH b now (S i) (try_assign b s (now i) d))
      as [d' [Hrun [Hfr [Hold [Hnew Honly]]]]].
    destruct (try_assign_frame b s (now i) d)
      as [Eu [_ [_ [_ [Eb _]]]]].
    assert (Eui : user_ids (try_assign b s (now i) d) = user_ids d)
      by (unfold user_ids; now rewrite Eu).
    assert (Ebi : booking_ids (try_assign b s (now i) d) = booking_ids d)
      by (unfold booking_ids; now rewrite Eb).
    rewrite Eui, Ebi in *.
    exists d'. split; [exact Hrun|]. split.
    { unfold assignment_frame in *.
      destruct Hfr as [-> [-> [-> [-> [-> [-> ->]]]]]].
      apply try_assign_frame. }
    split; [|split].
    + intros a Ha. apply Hold, try_assign_rows. auto.
    + intros s' [<- | Hin] Hb Hs.
      * destruct (try_assign_assigned b s (now i) d Hb Hs) as [a Ha].
        exists a. apply assigned_spec in Ha. apply assigned_spec.
        destruct Ha as [Ha Hk]. split; [now apply Hold | exact Hk].
      * now apply Hnew.
    + intros a Ha. destruct (Honly a Ha) as [Hin | [Hk [Hin [Hu Hb]]]].
      * apply try_assign_rows in Hin. destruct Hin as [Hin | [Hok ->]];
          [now left|]. right. cbn. unfold assignable in Hok.
        apply andb_prop in Hok. destruct Hok as [Hok Hu].
        apply andb_prop in Hok. destruct Hok as [_ Hb]. auto.
      * right. cbn. auto.
Qed.



(** ** What the schema keeps true of every reachable store *)

Ltac db_simpl :=
  cbn [users vehicles packages service_stages bookings booking_stage_history
       booking_staff_assignment payments set_users set_vehicles set_packages
       set_service_stages set_bookings set_history set_assignment set_payments
       close_history toggle_active fst snd] in *.

Ltac ok_frame H :=
  destruct H as [Hst Had Hhf Hpf Hpr Hpk Hbs];
  constructor;
  unfold assigned, booking_ids, user_ids in *; db_simpl;
  auto.

Lemma has_id_app_l (l1 l2 : list Z) (i : Z) :
  has_id l1 i = true -> has_id (l1 ++ l2) i = true.
Proof. intros H. rewrite has_id_app, H. reflexivity. Qed.

Lemma insert_user_ok n p e h r t d d' :
  schema_ok d -> insert_user n p e h r t d = inr d' -> schema_ok d'.
Proof.
  intros Hok H. apply insert_user_inr in H. subst d'. ok_frame Hok.
  rewrite map_app. now apply has_id_app_l.
Qed.

Lemma insert_vehicle_ok c p a b e f d d' :
  schema_ok d -> insert_vehicle c p a b e f d = inr d' -> schema_ok d'.
Proof.
  intros Hok H. apply insert_vehicle_inr in H. subst d'. ok_frame Hok.
Qed.

Lemma insert_package_ok row d d' :
  schema_ok d -> insert_package row d = inr d' -> schema_ok d'.
Proof.
  destruct row as [[[n p] m] a]. intros Hok H.
  apply insert_package_inr in H. destruct H as [Hp ->]. ok_frame Hok.
  intros q Hq. apply in_app_or in Hq. destruct Hq as [Hq | [<- | []]]; auto.
Qed.

Lemma toggle_active_ok pid d : schema_ok d -> schema_ok (toggle_active pid d).
Proof.
  intros Hok. ok_frame Hok. intros q Hq. apply in_map_iff in Hq.
  destruct Hq as [q0 [<- Hq0]]. destruct (_ =? pid); cbn; auto.
Qed.

Lemma insert_booking_ok c v p t sc st cur nt d r :
  schema_ok d -> st <> Cancelled ->
  insert_booking c v p t sc st (Some cur) nt d = inr r -> schema_ok (snd r).
Proof.
  intros Hok Hst' H. apply insert_booking_inr in H. subst r. ok_frame Hok.
  - intros h Hh. rewrite map_app. now apply has_id_app_l, Hhf.
  - intros q Hq. rewrite map_app. now apply has_id_app_l, Hpf.
  - intros b Hb. apply in_app_or in Hb. destruct Hb as [Hb | [<- | []]]; auto.
    cbn. eauto.
Qed.

Lemma insert_history_ok b s t e u d d' :
  schema_ok d -> insert_history b s t e u d = inr d' -> schema_ok d'.
Proof.
  intros Hok H. apply insert_history_inr in H. destruct H as [Hb ->].
  ok_frame Hok.
  intros h Hh. apply in_app_or in Hh.
  destruct Hh as [Hh | [<- | []]]; cbn; auto.
Qed.

Lemma insert_payment_ok b a m s p d d' :
  schema_ok d -> insert_payment b a m s p d = inr d' -> schema_ok d'.
Proof.
  intros Hok H. apply insert_payment_inr in H. destruct H as [Hb ->].
  ok_frame Hok.
  intros q Hq. apply in_app_or in Hq.
  destruct Hq as [Hq | [<- | []]]; cbn; auto.
Qed.

Lemma close_history_ok t b s d :
  schema_ok d -> schema_ok (close_history t b s d).
Proof.
  intros Hok. ok_frame Hok. intros h Hh. apply in_map_iff in Hh.
  destruct Hh as [h0 [<- Hh0]]. destruct (_ && _); cbn; auto.
Qed.

Lemma update_booking_ok cur st b d d' :
  schema_ok d -> st <> Cancelled ->
  update_booking cur st b d = inr d' -> schema_ok d'.
Proof.
  intros Hok Hst' H. unfold update_booking in H. checks H.
  injection H as <-. ok_frame Hok.
  - intros h Hh. rewrite booking_ids_update by reflexivity. auto.
  - intros q Hq. rewrite booking_ids_update by reflexivity. auto.
  - intros x Hx. apply in_map_iff in Hx. destruct Hx as [x0 [<- Hx0]].
    destruct (_ =? b); cbn; eauto.
Qed.

Lemma update_payment_ok m s p b d d' :
  schema_ok d -> update_payment m s p b d = inr d' -> schema_ok d'.
Proof.
  intros Hok H. unfold update_payment in H.
  destruct (payment_of d b); [|injection H as <-; exact Hok].
  destruct m as [m|]; [|discriminate]. destruct s as [s|]; [|discriminate].
  checks H. injection H as <-. ok_frame Hok.
  intros q Hq. apply in_map_iff in Hq. destruct Hq as [q0 [<- Hq0]].
  destruct (_ =? b); cbn; auto.
Qed.

Lemma try_assign_ok b s t d : schema_ok d -> schema_ok (try_assign b s t d).
Proof.
  intros Hok. unfold try_assign. destruct (assignable d b s) eqn:E; [|exact Hok].
  unfold assignable in E. apply andb_prop in E. destruct E as [E _].
  apply andb_prop in E. destruct E as [E _].
  destruct (assigned d b s) eqn:Eas; [|discriminate].
  pose proof (ok_assignment_pk d Hok) as Hpk'.
  destruct Hok as [Hst Had Hhf Hpf Hpr Hpk Hbs]. constructor; auto.
  intros b' s'. rewrite assigned_app, List.length_app. cbn.
  destruct ((b =? b') && (s =? s')) eqn:Ek; cbn.
  - apply andb_prop in Ek. destruct Ek as [Eb Es].
    apply Z.eqb_eq in Eb, Es. subst b' s'. rewrite Eas. cbn. lia.
  - specialize (Hpk' b' s'). lia.
Qed.

(** ** Handlers keep the schema's guarantees *)

Lemma bind_inr {A B} (m : M A) (k : A -> M B) (b : B) :
  bind m k = inr b -> exists a, m = inr a /\ k a = inr b.
Proof. destruct m as [e|a]; cbn; [discriminate | eauto]. Qed.

Lemma fetchone0_inr {A} (row : option A) (a : A) :
  fetchone0 row = inr a -> row = Some a.
Proof. destruct row; unfold fetchone0, ret, raise; congruence. Qed.

Lemma executemany_pres {A} (P : db -> Prop) (stmt : A -> db -> M db) :
  (forall r d d', P d -> stmt r d = inr d' -> P d') ->
  forall rows d d', P d -> executemany stmt rows d = inr d' -> P d'.
Proof.
  intros Hstmt. induction rows as [|r rows IH]; cbn; intros d d' Hd H.
  - now injection H as <-.
  - apply bind_inr in H. destruct H as [d1 [H1 H2]]. eauto.
Qed.

Lemma staff_assign_loop_pres (P : db -> Prop) :
  (forall b s t d, P d -> P (try_assign b s t d)) ->
  forall ids b now i d d',
    P d -> staff_assign_loop b ids now i d = inr d' -> P d'.
Proof.
  intros Hstep. induction ids as [|[s|] ids IH]; intros b now i d d' Hd H.
  - cbn in H. now injection H as <-.
  - rewrite staff_assign_loop_cons in H. eauto.
  - discriminate H.
Qed.

(** The three inserts of a booking that commits. *)
Lemma create_booking_tx_inr uid vid pid sc nt t1 t2 d bid d' :
  create_booking_tx uid vid pid sc nt t1 t2 d = inr (bid, d') ->
  exists first d1 d2 price,
    first_stage (service_stages d) = Some first
    /\ insert_booking uid vid pid t1 sc Booked (Some (Stage.stage_id first)) nt d
       = inr (bid, d1)
    /\ insert_history bid (Stage.stage_id first) t2 None 1 d1 = inr d2
    /\ price_of d2 pid = Some price
    /\ insert_payment bid price "Cash" "Unpaid" None d2 = inr d'.
Proof.
  unfold create_booking_tx. intros H.
  apply bind_inr in H. destruct H as [first [H0 H]].
  apply fetchone0_inr in H0.
  apply bind_inr in H. destruct H as [[bid' d1] [H1 H]].
  apply bind_inr in H. destruct H as [d2 [H2 H]].
  apply bind_inr in H. destruct H as [price [H3 H]].
  apply fetchone0_inr in H3.
  apply bind_inr in H. destruct H as [d3 [H4 H]].
  injection H as <- <-. exists first, d1, d2, price. auto.
Qed.

Lemma create_booking_tx_ok uid vid pid sc nt t1 t2 d bid d' :
  schema_ok d ->
  create_booking_tx uid vid pid sc nt t1 t2 d = inr (bid, d') -> schema_ok d'.
Proof.
  intros Hok H. apply create_booking_tx_inr in H.
  destruct H as [first [d1 [d2 [price [_ [H1 [H2 [_ H4]]]]]]]].
  eapply insert_payment_ok; [|exact H4].
  eapply insert_history_ok; [|exact H2].
  apply (insert_booking_ok _ _ _ _ _ _ _ _ _ _ Hok) in H1; [exact H1|].
  discriminate.
Qed.

(** The statements of a stage update that commits. *)
Lemma staff_update_stage_tx_parts bid new ep cur actor t1 t2 d d' :
  staff_update_stage_tx bid new ep cur actor t1 t2 d = inr d' ->
  exists o st d2,
    stage_order_of d new = Some o
    /\ st = match max_stage_order (service_stages d) with
            | Some m => if o =? m then Completed else InProgress
            | None => InProgress
            end
    /\ update_booking new st bid (previous_closed ep t1 bid cur d) = inr d2
    /\ insert_history bid new t2 None actor d2 = inr d'.
Proof.
  unfold staff_update_stage_tx. fold (previous_closed ep t1 bid cur d).
  destruct (previous_closed_frame ep t1 bid cur d) as [_ [Es _]].
  unfold stage_order_of. rewrite Es. intros H.
  apply bind_inr in H. destruct H as [o [H0 H]].
  apply fetchone0_inr in H0.
  apply bind_inr in H. destruct H as [d2 [H1 H]].
  exists o. eexists. exists d2. repeat split; eauto.
Qed.

Lemma previous_closed_ok ep t b cur d :
  schema_ok d -> schema_ok (previous_closed ep t b cur d).
Proof.
  intros Hok. unfold previous_closed. destruct cur, ep; auto.
  now apply close_history_ok.
Qed.

Lemma staff_update_stage_tx_ok bid new ep cur actor t1 t2 d d' :
  schema_ok d ->
  staff_update_stage_tx bid new ep cur actor t1 t2 d = inr d' -> schema_ok d'.
Proof.
  intros Hok H. apply staff_update_stage_tx_parts in H.
  destruct H as [o [st [d2 [_ [Hst [H1 H2]]]]]].
  eapply insert_history_ok; [|exact H2].
  eapply update_booking_ok; [apply previous_closed_ok, Hok | | exact H1].
  subst st. destruct (max_stage_order _); [destruct (_ =? _)|]; discriminate.
Qed.

Lemma handle_ok r d : schema_ok d -> schema_ok (snd (handle r d)).
Proof.
  intros Hok. destruct r; cbn [handle].
  - unfold register. destruct (negb _); [exact Hok|].
    destruct (insert_user _ _ _ _ _ _ _) as [[]|d'] eqn:E; cbn; auto.
    eapply insert_user_ok; eauto.
  - unfold add_vehicle. destruct s as [u|]; [|exact Hok].
    destruct (negb _); [exact Hok|].
    destruct (insert_vehicle _ _ _ _ _ _ _) as [[]|d'] eqn:E; cbn; auto.
    eapply insert_vehicle_ok; eauto.
  - unfold create_booking. destruct s as [u|]; [|exact Hok].
    destruct (negb _); [exact Hok|].
    destruct vehicle_id as [vid|]; [|exact Hok].
    destruct package_id as [pid|]; [|exact Hok].
    cbn [int_field bind ret].
    destruct (create_booking_tx _ _ _ _ _ _ _ _) as [e|[bid d']] eqn:E;
      cbn; auto.
    eapply create_booking_tx_ok; eauto.
  - unfold staff_assign. destruct (negb _); [exact Hok|].
    destruct booking_id as [bid|]; [|exact Hok]. cbn [int_field bind ret].
    destruct (staff_assign_loop _ _ _ _ _) as [e|d'] eqn:E; cbn; auto.
    eapply (staff_assign_loop_pres schema_ok); eauto.
    intros; now apply try_assign_ok.
  - unfold create_package. destruct (negb _); [exact Hok|].
    destruct price as [p|]; [|exact Hok].
    destruct duration_minutes as [m|]; [|exact Hok].
    destruct (insert_package _ _) as [[]|d'] eqn:E; cbn; auto.
    eapply insert_package_ok; eauto.
  - unfold toggle_package. destruct (negb _); [exact Hok|].
    now apply toggle_active_ok.
  - unfold create_staff_user. destruct (negb _); [exact Hok|].
    destruct (if String.eqb role "Staff" then _ else _) as [r|]; [|exact Hok].
    destruct (insert_user _ _ _ _ _ _ _) as [[]|d'] eqn:E; cbn; auto.
    eapply insert_user_ok; eauto.
  - unfold staff_update_stage. destruct s as [u|]; [|exact Hok].
    destruct (negb _); [exact Hok|].
    destruct stage_id as [new|]; [|exact Hok].
    destruct (booking_of d booking_id) as [row|]; [|exact Hok].
    destruct (staff_update_stage_tx _ _ _ _ _ _ _ _) as [e|d'] eqn:E;
      cbn; auto.
    eapply staff_update_stage_tx_ok; eauto.
  - unfold staff_update_payment. destruct (negb _); [exact Hok|].
    destruct (update_payment _ _ _ _ _) as [e|d'] eqn:E; cbn; auto.
    eapply update_payment_ok; eauto.
Qed.

Lemma seeded_stages_eq :
  seeded_stages
  = [Stage.mk 1 "Washing" 1; Stage.mk 2 "Drying" 2; Stage.mk 3 "Polishing" 3;
     Stage.mk 4 "Completed" 4].
Proof. reflexivity. Qed.

Lemma init_db_ok now d d' :
  schema_ok d -> init_db now d = inr d' -> schema_ok d'.
Proof.
  intros Hok H. unfold init_db in H.
  destruct (service_stages d) eqn:Es.
  { pose proof (ok_stages d Hok) as E. rewrite Es, seeded_stages_eq in E.
    discriminate E. }
  cbn [bind ret] in H. apply bind_inr in H. destruct H as [d2 [H2 H]].
  assert (Hok2 : schema_ok d2).
  { destruct (packages d); [|now injection H2 as <-].
    eapply (executemany_pres schema_ok); [|exact Hok|exact H2].
    intros; eapply insert_package_ok; eauto. }
  destruct (filter _ (users d2)); [|now injection H as <-].
  eapply insert_user_ok; eauto.
Qed.

Lemma init_db_fresh now d :
  init_db now empty_db = inr d ->
  d = mkdb [User.mk 1 "Admin" "0300-0000000" (Some "admin@carwash.local")
                    (sha256_hex "admin123") Admin now]
           []
           [Package.mk 1 "Basic Wash" (inject_Z 500) 20 1;
            Package.mk 2 "Standard Wash" (inject_Z 800) 35 1;
            Package.mk 3 "Premium Wash" (inject_Z 1200) 50 1]
           seeded_stages [] [] [] [].
Proof. intros H. vm_compute in H. injection H as <-. reflexivity. Qed.

Lemma fresh_ok now d : init_db now empty_db = inr d -> schema_ok d.
Proof.
  intros H. apply init_db_fresh in H. subst d.
  constructor; db_simpl.
  - reflexivity.
  - reflexivity.
  - intros h [].
  - intros p [].
  - intros p [<- | [<- | [<- | []]]]; reflexivity.
  - intros b s. cbn. lia.
  - intros b [].
Qed.

Lemma reachable_by_schema_ok allowed d :
  reachable_by allowed d -> schema_ok d.
Proof.
  induction 1 as [now d H | now d d' _ IH H | r d _ IH _].
  - eapply fresh_ok; eauto.
  - eapply init_db_ok; eauto.
  - now apply handle_ok.
Qed.

(** ** A booking that commits *)

Lemma create_booking_tx_shape uid vid pid sc nt t1 t2 d bid d' :
  create_booking_tx uid vid pid sc nt t1 t2 d = inr (bid, d') ->
  exists first price,
    first_stage (service_stages d) = Some first
    /\ price_of d pid = Some price
    /\ bid = next_rowid (booking_ids d)
    /\ d' = booking_created d bid uid vid pid sc nt t1 t2 first price.
Proof.
  intros H. apply create_booking_tx_inr in H.
  destruct H as [first [d1 [d2 [price [H0 [H1 [H2 [H3 H4]]]]]]]].
  apply insert_booking_inr in H1. injection H1 as -> ->.
  apply insert_history_inr in H2. destruct H2 as [_ ->].
  apply insert_payment_inr in H4. destruct H4 as [_ ->].
  exists first, price. repeat split; auto.
Qed.

Lemma first_stage_some (l : list Stage.t) :
  l <> [] -> exists m, first_stage l = Some m.
Proof.
  destruct l as [|a l]; [congruence|]. intros _. cbn.
  destruct (first_stage l); [destruct (_ <=? _)|]; eauto.
Qed.

Lemma price_of_In d pid price :
  price_of d pid = Some price ->
  has_id (package_ids d) pid = true
  /\ exists p, In p (packages d) /\ Package.price p = price.
Proof.
  unfold price_of. destruct (find _ _) as [p|] eqn:E; [|discriminate].
  intros [= <-]. apply find_In in E. destruct E as [Hin Hk].
  apply Z.eqb_eq in Hk. split; [|eauto].
  apply has_id_In. rewrite <- Hk. unfold package_ids. now apply in_map.
Qed.

Lemma no_payment_for_fresh d :
  schema_ok d ->
  existsb (fun p => Payment.booking_id p =? next_rowid (booking_ids d))
          (payments d) = false.
Proof.
  intros Hok. destruct (existsb _ _) eqn:E; [|reflexivity].
  apply existsb_exists in E. destruct E as [p [Hp Ek]].
  apply Z.eqb_eq in Ek. apply (ok_payment_fk d Hok) in Hp.
  rewrite Ek, next_rowid_fresh in Hp. discriminate.
Qed.

Lemma has_id_last (l : list Z) (i : Z) : has_id (l ++ [i]) i = true.
Proof. rewrite has_id_app. cbn. rewrite Z.eqb_refl. apply orb_true_r. Qed.

Lemma create_booking_tx_commits uid vid pid sc nt t1 t2 d price :
  schema_ok d ->
  has_id (user_ids d) uid = true ->
  has_id (vehicle_ids d) vid = true ->
  price_of d pid = Some price ->
  exists first,
    first_stage (service_stages d) = Some first
    /\ create_booking_tx uid vid pid sc nt t1 t2 d
       = inr (next_rowid (booking_ids d),
              booking_created d (next_rowid (booking_ids d)) uid vid pid sc nt
                              t1 t2 first price).
Proof.
  intros Hok Hu Hv Hp.
  destruct (first_stage_some (service_stages d)) as [first Hf].
  { rewrite (ok_stages d Hok), seeded_stages_eq. discriminate. }
  exists first. split; [exact Hf|].
  destruct (first_stage_least _ _ Hf) as [Hin _].
  assert (Hs : has_id (stage_ids d) (Stage.stage_id first) = true).
  { apply has_id_In. unfold stage_ids. now apply in_map. }
  destruct (price_of_In _ _ _ Hp) as [Hpk [p [Hpin Hpp]]].
  unfold create_booking_tx, insert_booking. rewrite Hf.
  cbn [fetchone0 bind ret fk_opt]. rewrite Hu, Hv, Hpk, Hs.
  cbn [check bind ret]. unfold insert_history.
  unfold booking_ids at 1, stage_ids at 1, user_ids at 1. db_simpl.
  rewrite map_app. cbn [map Booking.booking_id]. fold (booking_ids d).
  rewrite has_id_last. fold (stage_ids d) (user_ids d).
  rewrite Hs, (ok_admin d Hok). cbn [check bind ret].
  unfold price_of at 1. db_simpl. fold (price_of d pid). rewrite Hp.
  cbn [fetchone0 bind ret]. unfold insert_payment. db_simpl.
  rewrite (no_payment_for_fresh d Hok).
  rewrite <- Hpp, (ok_price d Hok p Hpin).
  unfold booking_ids at 1. db_simpl. rewrite map_app.
  cbn [map Booking.booking_id]. fold (booking_ids d). rewrite has_id_last.
  reflexivity.
Qed.

(** A request either commits all three inserts or leaves the store alone. *)
Lemma create_booking_all_or_nothing :
  forall d s vehicle_id package_id scheduled_raw notes t_booking t_history,
    let d' := snd (create_booking vehicle_id package_id scheduled_raw notes
                                  t_booking t_history s d) in
    d' = d
    \/ exists bid uid vid pid sc nt first price,
         d' = booking_created d bid uid vid pid sc nt t_booking t_history
                              first price.
Proof.
  intros d s v p sr nt t1 t2. unfold create_booking.
  destruct s as [u|]; [|now left]. destruct (negb _); [now left|].
  destruct v as [vid|]; [|now left]. destruct p as [pid|]; [|now left].
  cbn [int_field bind ret].
  destruct (create_booking_tx _ _ _ _ _ _ _ _) as [e|[bid d1]] eqn:E;
    [now left|].
  apply create_booking_tx_shape in E.
  destruct E as [first [price [_ [_ [_ ->]]]]]. right. cbn [snd].
  repeat eexists.
Qed.

(** The commit in terms of the price that the lookup of the package
    gives. *)
Lemma create_booking_at_price :
  forall d u vehicle_id package_id scheduled_raw notes t_booking t_history
         v price,
    reachable d ->
    Session.role u = Customer ->
    authentic d u = true ->
    In v (vehicles d) ->
    Vehicle.vehicle_id v = vehicle_id ->
    Vehicle.customer_id v = Session.user_id u ->
    price_of d package_id = Some price ->
    exists d' bid first sc hid pmid,
      create_booking (Some vehicle_id) (Some package_id) scheduled_raw notes
                     t_booking t_history (Some u) d
      = (Redirect customer_dashboard (Some (BookingCreated bid)), d')
      /\ has_id (booking_ids d) bid = false
      /\ In first (service_stages d)
      /\ (forall s, In s (service_stages d) ->
                    Stage.stage_order first <= Stage.stage_order s)
      /\ bookings d'
         = (bookings d
              ++ [Booking.mk bid (Session.user_id u) vehicle_id package_id
                             t_booking sc Booked (Some (Stage.stage_id first))
                             (or_None notes)])%list
      /\ booking_stage_history d'
         = (booking_stage_history d
              ++ [History.mk hid bid (Stage.stage_id first) t_history None 1])
           %list
      /\ payments d'
         = (payments d ++ [Payment.mk pmid bid price "Cash" "Unpaid" None])
           %list.
Proof.
  intros d u vid pid sr nt t1 t2 v price Hr Hrole Hauth Hv Hvid _ Hp.
  pose proof (reachable_by_schema_ok _ d Hr) as Hok.
  assert (Hhv : has_id (vehicle_ids d) vid = true).
  { apply has_id_In. rewrite <- Hvid. unfold vehicle_ids. now apply in_map. }
  destruct (create_booking_tx_commits (Session.user_id u) vid pid
              (if String.eqb sr "" then None else Some (replace_T sr))
              (or_None nt) t1 t2 d price Hok (authentic_has_id _ _ Hauth)
              Hhv Hp) as [first [Hf Htx]].
  unfold create_booking. rewrite Hrole. cbn [Role_eqb negb int_field bind ret].
  rewrite Htx. destruct (first_stage_least _ _ Hf) as [Hin Hle].
  do 6 eexists. split; [reflexivity|].
  split; [apply next_rowid_fresh|].
  split; [exact Hin|]. split; [exact Hle|].
  cbn [booking_created bookings booking_stage_history payments]. auto.
Qed.

(** ** The lifecycle of a booking *)

Lemma lifecycle_frame_refl d : lifecycle_frame d d.
Proof. repeat split. Qed.

Lemma lifecycle_frame_trans d1 d2 d3 :
  lifecycle_frame d1 d2 -> lifecycle_frame d2 d3 -> lifecycle_frame d1 d3.
Proof. unfold lifecycle_frame. intuition congruence. Qed.

Lemma insert_user_frame n p e h r t d d' :
  insert_user n p e h r t d = inr d' -> lifecycle_frame d d'.
Proof. intros H. apply insert_user_inr in H. subst. repeat split. Qed.

Lemma insert_vehicle_frame c p a b e f d d' :
  insert_vehicle c p a b e f d = inr d' -> lifecycle_frame d d'.
Proof. intros H. apply insert_vehicle_inr in H. subst. repeat split. Qed.

Lemma insert_package_frame row d d' :
  insert_package row d = inr d' -> lifecycle_frame d d'.
Proof.
  destruct row as [[[n p] m] a]. intros H. apply insert_package_inr in H.
  destruct H as [_ ->]. repeat split.
Qed.

Lemma update_payment_frame m s p b d d' :
  update_payment m s p b d = inr d' -> lifecycle_frame d d'.
Proof.
  unfold update_payment. intros H.
  destruct (payment_of d b); [|injection H as <-; apply lifecycle_frame_refl].
  destruct m as [m|]; [|discriminate]. destruct s as [s|]; [|discriminate].
  checks H. injection H as <-. repeat split.
Qed.

Lemma try_assign_lifecycle_frame b s t d :
  lifecycle_frame d (try_assign b s t d).
Proof.
  destruct (try_assign_frame b s t d) as [_ [_ [_ [Es [Eb [Eh _]]]]]].
  repeat split; assumption.
Qed.

Lemma init_db_frame now d d' :
  schema_ok d -> init_db now d = inr d' -> lifecycle_frame d d'.
Proof.
  intros Hok H. unfold init_db in H.
  destruct (service_stages d) eqn:Es.
  { pose proof (ok_stages d Hok) as E. rewrite Es, seeded_stages_eq in E.
    discriminate E. }
  cbn [bind ret] in H. apply bind_inr in H. destruct H as [d2 [H2 H]].
  assert (F2 : lifecycle_frame d d2).
  { destruct (packages d); [|injection H2 as <-; apply lifecycle_frame_refl].
    eapply (executemany_pres (lifecycle_frame d));
      [|apply lifecycle_frame_refl|exact H2].
    intros r x x' Hx Hr. eapply lifecycle_frame_trans; [exact Hx|].
    eapply insert_package_frame; eauto. }
  destruct (filter _ (users d2)); [|injection H as <-; exact F2].
  eapply lifecycle_frame_trans; [exact F2|]. eapply insert_user_frame; eauto.
Qed.

(** A property of the lifecycle tables that booking and advancing keep is
    kept by every reachable store. *)
Section Lifecycle.
Variable allowed : request -> Prop.
Variable P : db -> Prop.

Hypothesis P_frame : forall d d', lifecycle_frame d d' -> P d -> P d'.
Hypothesis P_empty : forall d, bookings d = [] -> P d.
Hypothesis P_booking :
  forall d uid vid pid sc nt t1 t2 bid d',
    schema_ok d -> P d ->
    create_booking_tx uid vid pid sc nt t1 t2 d = inr (bid, d') -> P d'.
Hypothesis P_stage :
  forall d bid new ep row t1 t2 u d',
    allowed (StaffUpdateStage bid (Some new) ep t1 t2 (Some u)) ->
    schema_ok d -> P d ->
    booking_of d bid = Some row ->
    staff_update_stage_tx bid new ep (Booking.current_stage_id row)
                          (Session.user_id u) t1 t2 d = inr d' ->
    P d'.

Lemma handle_keeps r d :
  allowed r -> schema_ok d -> P d -> P (snd (handle r d)).
Proof.
  intros Hr Hok HP. destruct r; cbn [handle].
  - unfold register. destruct (negb _); [exact HP|].
    destruct (insert_user _ _ _ _ _ _ _) as [[]|d'] eqn:E; cbn [snd]; auto.
    eapply P_frame; [eapply insert_user_frame|]; eauto.
  - unfold add_vehicle. destruct s as [u|]; [|exact HP].
    destruct (negb _); [exact HP|].
    destruct (insert_vehicle _ _ _ _ _ _ _) as [[]|d'] eqn:E; cbn [snd];
      auto.
    eapply P_frame; [eapply insert_vehicle_frame|]; eauto.
  - unfold create_booking. destruct s as [u|]; [|exact HP].
    destruct (negb _); [exact HP|].
    destruct vehicle_id as [vid|]; [|exact HP].
    destruct package_id as [pid|]; [|exact HP].
    cbn [int_field bind ret].
    destruct (create_booking_tx _ _ _ _ _ _ _ _) as [e|[bid d']] eqn:E;
      cbn [snd]; auto.
    eapply P_booking; eauto.
  - unfold staff_assign. destruct (negb _); [exact HP|].
    destruct booking_id as [bid|]; [|exact HP]. cbn [int_field bind ret].
    destruct (staff_assign_loop _ _ _ _ _) as [e|d'] eqn:E; cbn [snd]; auto.
    apply (P_frame d); [|exact HP].
    eapply (staff_assign_loop_pres (lifecycle_frame d));
      [|apply lifecycle_frame_refl|exact E].
    intros b s0 t x Hx. eapply lifecycle_frame_trans; [exact Hx|].
    apply try_assign_lifecycle_frame.
  - unfold create_package. destruct (negb _); [exact HP|].
    destruct price as [p|]; [|exact HP].
    destruct duration_minutes as [m|]; [|exact HP].
    destruct (insert_package _ _) as [[]|d'] eqn:E; cbn [snd]; auto.
    eapply P_frame; [eapply insert_package_frame|]; eauto.
  - unfold toggle_package. destruct (negb _); [exact HP|].
    apply (P_frame d); [repeat split | exact HP].
  - unfold create_staff_user. destruct (negb _); [exact HP|].
    destruct (if String.eqb role "Staff" then _ else _) as [r|]; [|exact HP].
    destruct (insert_user _ _ _ _ _ _ _) as [[]|d'] eqn:E; cbn [snd]; auto.
    eapply P_frame; [eapply insert_user_frame|]; eauto.
  - unfold staff_update_stage. destruct s as [u|]; [|exact HP].
    destruct (negb _); [exact HP|].
    destruct stage_id as [new|]; [|exact HP].
    destruct (booking_of d booking_id) as [row|] eqn:Erow; [|exact HP].
    destruct (staff_update_stage_tx _ _ _ _ _ _ _ _) as [e|d'] eqn:E;
      cbn [snd]; auto.
    eapply P_stage; eauto.
  - unfold staff_update_payment. destruct (negb _); [exact HP|].
    destruct (update_payment _ _ _ _ _) as [e|d'] eqn:E; cbn [snd]; auto.
    eapply P_frame; [eapply update_payment_frame|]; eauto.
Qed.

Lemma reachable_by_keeps d : reachable_by allowed d -> P d.
Proof.
  induction 1 as [now d H | now d d' Hd IH H | r d Hd IH Hr].
  - apply P_empty. apply init_db_fresh in H. now subst d.
  - eapply P_frame; [|exact IH].
    eapply init_db_frame; [|exact H].
    eapply reachable_by_schema_ok; eauto.
  - apply handle_keeps; auto. eapply reachable_by_schema_ok; eauto.
Qed.
End Lifecycle.

(** *** One open entry per booking *)

Lemma set_stage_id new st bid b :
  Booking.booking_id (set_stage new st bid b) = Booking.booking_id b.
Proof. unfold set_stage. now destruct (_ =? bid). Qed.

Lemma update_booking_inr cur st b d d' :
  update_booking cur st b d = inr d' ->
  d' = set_bookings (map (set_stage cur st b) (bookings d)) d.
Proof. unfold update_booking. intros H. checks H. now injection H as <-. Qed.

(** The store a committed [staff_update_stage] leaves. *)
Lemma staff_update_stage_tx_shape bid new ep cur actor t1 t2 d d' :
  staff_update_stage_tx bid new ep cur actor t1 t2 d = inr d' ->
  exists o st,
    stage_order_of d new = Some o
    /\ st = match max_stage_order (service_stages d) with
            | Some m => if o =? m then Completed else InProgress
            | None => InProgress
            end
    /\ service_stages d' = service_stages d
    /\ bookings d' = map (set_stage new st bid) (bookings d)
    /\ booking_stage_history d'
       = (booking_stage_history (previous_closed ep t1 bid cur d)
            ++ [History.mk
                  (next_rowid
                     (map History.history_id
                          (booking_stage_history
                             (previous_closed ep t1 bid cur d))))
                  bid new t2 None actor])%list.
Proof.
  intros H. apply staff_update_stage_tx_parts in H.
  destruct H as [o [st [d2 [Ho [Hst [H1 H2]]]]]].
  apply update_booking_inr in H1. apply insert_history_inr in H2.
  destruct H2 as [_ ->]. subst d2.
  destruct (previous_closed_frame ep t1 bid cur d) as [_ [Es Eb]].
  exists o, st. db_simpl. rewrite Es, Eb. auto.
Qed.

Lemma open_entries_close t bid c d b :
  open_entries (close_history t bid c d) b
  = if b =? bid
    then filter (fun h => negb (History.stage_id h =? c)) (open_entries d bid)
    else open_entries d b.
Proof.
  unfold open_entries, close_history. db_simpl.
  induction (booking_stage_history d) as [|h l IH]; cbn [map filter].
  - now destruct (b =? bid).
  - rewrite IH. clear IH.
    destruct (Z.eqb_spec (History.booking_id h) bid) as [Eb|Eb];
      destruct (Z.eqb_spec b bid) as [Eb'|Eb'];
      destruct (Z.eqb_spec (History.stage_id h) c) as [Es|Es];
      destruct (History.end_time h) eqn:Ee;
      unfold is_open; cbn [andb History.booking_id History.end_time];
      rewrite ?Ee; subst;
      rewrite ?Z.eqb_refl;
      cbn [andb negb filter History.booking_id History.end_time
           History.stage_id];
      rewrite ?Z.eqb_refl; cbn [negb andb];
      try reflexivity;
      repeat match goal with
        | H : ?x <> ?y |- context [?x =? ?y] =>
            rewrite (proj2 (Z.eqb_neq x y) H)
        | H : ?x <> ?y |- context [?y =? ?x] =>
            rewrite (Z.eqb_sym y x), (proj2 (Z.eqb_neq x y) H)
        end;
      cbn [negb andb]; try reflexivity.
Qed.

Lemma open_entries_app d b l :
  open_entries (set_history (booking_stage_history d ++ l) d) b
  = (open_entries d b
     ++ filter (fun h => (History.booking_id h =? b) && is_open h) l)%list.
Proof. unfold open_entries. db_simpl. apply filter_app. Qed.

Lemma open_entries_unknown d b :
  schema_ok d -> has_id (booking_ids d) b = false -> open_entries d b = [].
Proof.
  intros Hok Hb. unfold open_entries.
  induction (booking_stage_history d) as [|h l IH] eqn:El in Hok |- *;
    [reflexivity|].
  assert (Hall : forall x, In x (h :: l) ->
                           has_id (booking_ids d) (History.booking_id x) = true).
  { intros x Hx. apply (ok_history_fk d Hok). now rewrite El. }
  clear El Hok IH. induction (h :: l) as [|x xs IHx]; [reflexivity|].
  cbn [filter]. destruct (Z.eqb_spec (History.booking_id x) b) as [E|E].
  - rewrite <- E, (Hall x (or_introl eq_refl)) in Hb. discriminate.
  - cbn [andb]. apply IHx. intros y Hy. apply Hall. now right.
Qed.

Lemma booking_In_has_id d b :
  In b (bookings d) -> has_id (booking_ids d) (Booking.booking_id b) = true.
Proof. intros H. apply has_id_In. unfold booking_ids. now apply in_map. Qed.

Lemma one_open_entry_booking uid vid pid sc nt t1 t2 d bid d' :
  schema_ok d -> one_open_entry d ->
  create_booking_tx uid vid pid sc nt t1 t2 d = inr (bid, d') ->
  one_open_entry d'.
Proof.
  intros Hok Hinv H. apply create_booking_tx_shape in H.
  destruct H as [first [price [_ [_ [Hbid ->]]]]].
  assert (Hfresh : has_id (booking_ids d) bid = false)
    by (subst bid; apply next_rowid_fresh).
  intros b Hb. unfold booking_created in Hb. db_simpl.
  assert (Hopen : forall x,
    open_entries (booking_created d bid uid vid pid sc nt t1 t2 first price) x
    = (open_entries d x
       ++ if x =? bid
          then [History.mk
                  (next_rowid (map History.history_id (booking_stage_history d)))
                  bid (Stage.stage_id first) t2 None 1]
          else [])%list).
  { intros x. unfold open_entries, booking_created. db_simpl.
    rewrite filter_app. f_equal. cbn [filter History.booking_id is_open
                                     History.end_time andb].
    rewrite (Z.eqb_sym bid x). now destruct (x =? bid). }
  rewrite Hopen. apply in_app_or in Hb. destruct Hb as [Hb | [<- | []]].
  - destruct (Hinv b Hb) as [h [Hh Hcur]]. exists h.
    destruct (Z.eqb_spec (Booking.booking_id b) bid) as [E|E].
    + apply booking_In_has_id in Hb. rewrite E, Hfresh in Hb. discriminate.
    + rewrite app_nil_r. auto.
  - cbn [Booking.booking_id Booking.current_stage_id]. rewrite Z.eqb_refl.
    rewrite (open_entries_unknown d bid Hok Hfresh). eexists.
    split; reflexivity.
Qed.

Lemma booking_of_In d bid row :
  booking_of d bid = Some row ->
  In row (bookings d) /\ Booking.booking_id row = bid.
Proof.
  unfold booking_of. intros H. apply find_In in H. destruct H as [Hin E].
  apply Z.eqb_eq in E. auto.
Qed.

Lemma one_open_entry_stage bid new row t1 t2 actor d d' :
  one_open_entry d ->
  booking_of d bid = Some row ->
  staff_update_stage_tx bid new true (Booking.current_stage_id row) actor
                        t1 t2 d = inr d' ->
  one_open_entry d'.
Proof.
  intros Hinv Hrow H. apply staff_update_stage_tx_shape in H.
  destruct H as [o [st [_ [_ [_ [Hb Hh]]]]]].
  destruct (booking_of_In _ _ _ Hrow) as [Hin Hid].
  destruct (Hinv row Hin) as [h0 [Hh0 Hcur0]]. rewrite Hid in Hh0.
  rewrite Hcur0 in Hh. cbn [previous_closed] in Hh.
  assert (Hopen : forall x,
    open_entries d' x
    = if x =? bid
      then [History.mk
              (next_rowid
                 (map History.history_id
                      (booking_stage_history
                         (close_history t1 bid (History.stage_id h0) d))))
              bid new t2 None actor]
      else open_entries d x).
  { intros x. unfold open_entries at 1. rewrite Hh, filter_app.
    fold (open_entries (close_history t1 bid (History.stage_id h0) d) x).
    rewrite open_entries_close, Hh0.
    cbn [filter History.booking_id is_open History.end_time andb
         History.stage_id].
    rewrite Z.eqb_refl, (Z.eqb_sym bid x). cbn [negb].
    destruct (x =? bid); [reflexivity | apply app_nil_r]. }
  intros b Hb'. rewrite Hb in Hb'. apply in_map_iff in Hb'.
  destruct Hb' as [b0 [<- Hb0]]. rewrite set_stage_id, Hopen.
  unfold set_stage. destruct (Booking.booking_id b0 =? bid).
  - eexists. split; reflexivity.
  - apply Hinv, Hb0.
Qed.

Lemma one_open_entry_frame d d' :
  lifecycle_frame d d' -> one_open_entry d -> one_open_entry d'.
Proof.
  intros [Eb [Eh _]] Hinv b Hb. unfold open_entries. rewrite Eh.
  rewrite Eb in Hb. apply Hinv, Hb.
Qed.

Lemma one_open_entry_reachable d :
  reachable_by closes_previous d -> one_open_entry d.
Proof.
  apply (reachable_by_keeps closes_previous one_open_entry).
  - apply one_open_entry_frame.
  - intros x E b Hb. rewrite E in Hb. contradiction.
  - intros; eapply one_open_entry_booking; eauto.
  - intros x bid new ep row t1 t2 u x' Hep _ Hinv Hrow Htx.
    cbn in Hep. subst ep. eapply one_open_entry_stage; eauto.
Qed.

(** C1, as the code has it.  In every store reached by requests that are
    handled one after another and whose stage updates all close the
    previous entry ([end_prev] on), each booking has at most one open
    history entry, and unless it is cancelled exactly one, which is for its
    current stage. *)
Theorem open_entry_invariant_when_closing :
  forall d, reachable_by closes_previous d -> open_entry_invariant d.
Proof.
  intros d Hr b Hb.
  destruct (one_open_entry_reachable d Hr b Hb) as [h [Hh Hcur]].
  rewrite Hh. split; [cbn; lia | eauto].
Qed.

(** *** Completed exactly at the last stage *)

Lemma at_last_stage_frame d d' b :
  service_stages d' = service_stages d ->
  at_last_stage d' b <-> at_last_stage d b.
Proof.
  intros Es. unfold at_last_stage, stage_order_of. rewrite Es. tauto.
Qed.

Lemma completed_iff_last_frame d d' :
  lifecycle_frame d d' -> completed_iff_last d -> completed_iff_last d'.
Proof.
  intros [Eb [_ Es]] Hinv b Hb. rewrite Eb in Hb.
  rewrite (at_last_stage_frame d d' b Es). apply Hinv, Hb.
Qed.

Lemma completed_iff_last_booking uid vid pid sc nt t1 t2 d bid d' :
  schema_ok d -> completed_iff_last d ->
  create_booking_tx uid vid pid sc nt t1 t2 d = inr (bid, d') ->
  completed_iff_last d'.
Proof.
  intros Hok Hinv H. apply create_booking_tx_shape in H.
  destruct H as [first [price [Hf [_ [_ ->]]]]].
  intros b Hb.
  rewrite (at_last_stage_frame d _ b) by reflexivity.
  unfold booking_created in Hb. db_simpl.
  apply in_app_or in Hb. destruct Hb as [Hb | [<- | []]]; [now apply Hinv|].
  pose proof (ok_stages d Hok) as Es. rewrite seeded_stages_eq in Es.
  rewrite Es in Hf. cbn in Hf. injection Hf as <-.
  cbn [Booking.status]. split; [discriminate|].
  intros [cur [o [Hcur [Ho Hm]]]]. cbn in Hcur. injection Hcur as <-.
  unfold stage_order_of in Ho. rewrite Es in *. cbn in Ho, Hm. congruence.
Qed.

Lemma completed_iff_last_stage bid new ep cur actor t1 t2 d d' :
  completed_iff_last d ->
  staff_update_stage_tx bid new ep cur actor t1 t2 d = inr d' ->
  completed_iff_last d'.
Proof.
  intros Hinv H. apply staff_update_stage_tx_shape in H.
  destruct H as [o [st [Ho [Hst [Es [Hb _]]]]]].
  intros b Hb'. rewrite (at_last_stage_frame d d' b Es).
  rewrite Hb in Hb'. apply in_map_iff in Hb'. destruct Hb' as [b0 [<- Hb0]].
  unfold set_stage. destruct (Booking.booking_id b0 =? bid);
    [|now apply Hinv].
  cbn [Booking.status]. unfold at_last_stage. cbn [Booking.current_stage_id].
  destruct (max_stage_order (service_stages d)) as [m|] eqn:Em.
  - destruct (Z.eqb_spec o m) as [E|E]; subst st.
    + subst m. split; [eauto|reflexivity].
    + split; [discriminate|]. intros [c [o' [Hc [Ho' Hm']]]].
      injection Hc as <-. congruence.
  - subst st. split; [discriminate|]. intros [c [o' [_ [_ Hm']]]].
    discriminate.
Qed.

(** C4, as the code has it.  In every reachable store a booking has status
    Completed exactly when its current stage has the greatest order of all
    stages: each stage update derives the status again from the new stage
    alone, whatever the status was. *)
Theorem completed_iff_last_reachable :
  forall d, reachable d -> completed_iff_last d.
Proof.
  apply (reachable_by_keeps (fun _ => True) completed_iff_last).
  - apply completed_iff_last_frame.
  - intros x E b Hb. rewrite E in Hb. contradiction.
  - intros; eapply completed_iff_last_booking; eauto.
  - intros; eapply completed_iff_last_stage; eauto.
Qed.

(** ** Assigning the same member twice *)

Lemma staff_assign_one b sid now s d :
  require_staff s = true ->
  staff_assign (Some b) [Some sid] now s d
  = (Redirect staff_dashboard (Some StaffAssigned),
     try_assign b sid (now 0%nat) d).
Proof.
  intros Hs. unfold staff_assign. rewrite Hs. cbn [negb int_field bind ret].
  now rewrite staff_assign_loop_cons.
Qed.

Lemma try_assign_again b sid t t' d :
  try_assign b sid t' (try_assign b sid t d) = try_assign b sid t d.
Proof.
  unfold try_assign at 1.
  destruct (assignable (try_assign b sid t d) b sid) eqn:E; [|reflexivity].
  exfalso. unfold assignable in E. apply andb_prop in E. destruct E as [E Hu].
  apply andb_prop in E. destruct E as [E Hb].
  destruct (try_assign_frame b sid t d) as [Eu [_ [_ [_ [Eb _]]]]].
  unfold booking_ids, user_ids in Hb, Hu. rewrite Eb in Hb. rewrite Eu in Hu.
  destruct (try_assign_assigned b sid t d Hb Hu) as [a Ha].
  destruct (assigned (try_assign b sid t d) b sid); [contradiction|].
  discriminate.
Qed.

(** C8.  In a reachable store, for an existing booking and an existing
    user, two requests that each assign that one user to the booking both
    succeed; the second leaves the store as the first left it, and exactly
    one assignment row for the pair is there. *)
Theorem staff_assign_twice :
  forall d s1 s2 booking_id staff_id now1 now2,
    reachable d ->
    require_staff s1 = true ->
    require_staff s2 = true ->
    has_id (booking_ids d) booking_id = true ->
    has_id (user_ids d) staff_id = true ->
    let r1 := staff_assign (Some booking_id) [Some staff_id] now1 s1 d in
    let r2 := staff_assign (Some booking_id) [Some staff_id] now2 s2 (snd r1) in
    fst r1 = Redirect staff_dashboard (Some StaffAssigned)
    /\ fst r2 = Redirect staff_dashboard (Some StaffAssigned)
    /\ snd r2 = snd r1
    /\ List.length (assigned (snd r2) booking_id staff_id) = 1%nat.
Proof.
  intros d s1 s2 b sid now1 now2 Hr Hs1 Hs2 Hb Hu. cbv zeta.
  rewrite (staff_assign_one b sid now1 s1 d Hs1). cbn [fst snd].
  rewrite (staff_assign_one b sid now2 s2 _ Hs2). cbn [fst snd].
  rewrite try_assign_again. repeat split.
  pose proof (reachable_by_schema_ok _ d Hr) as Hok.
  pose proof (ok_assignment_pk _ (try_assign_ok b sid (now1 0%nat) d Hok) b sid)
    as Hle.
  destruct (try_assign_assigned b sid (now1 0%nat) d Hb Hu) as [a Ha].
  destruct (assigned (try_assign b sid (now1 0%nat) d) b sid) as [|x [|y l]];
    [contradiction | reflexivity | cbn in Hle; lia].
Qed.

(** ** Runs *)

Lemma seeded_eq now : init_db now empty_db = inr (seeded now).
Proof. reflexivity. Qed.

Lemma seeded_reachable allowed now : reachable_by allowed (seeded now).
Proof. apply (reach_fresh allowed now). apply seeded_eq. Qed.

Lemma run_reachable allowed rs :
  Forall allowed rs ->
  forall d, reachable_by allowed d -> reachable_by allowed (run rs d).
Proof.
  induction 1 as [|r rs Hr _ IH]; intros d Hd; [exact Hd|].
  cbn [run fold_left]. apply IH. now apply reach_request.
Qed.

(** ** A day at the car wash *)

Lemma open_shop_reachable allowed :
  Forall allowed opening -> reachable_by allowed open_shop.
Proof. intros H. apply run_reachable; [exact H | apply seeded_reachable]. Qed.

Lemma booked_reachable : reachable_by closes_previous booked.
Proof.
  apply run_reachable; [repeat constructor|].
  apply open_shop_reachable. repeat constructor.
Qed.

Lemma reachable_by_weaken (allowed : request -> Prop) d :
  reachable_by allowed d -> reachable d.
Proof.
  induction 1 as [now d H | now d d' _ IH H | r d _ IH _].
  - eapply reach_fresh; eauto.
  - eapply reach_restart; eauto.
  - now apply reach_request.
Qed.

Lemma sessions_authentic :
  login "0300-0000000" "admin123" None open_shop
  = (Redirect home (Some (Welcome "Admin" Admin)), Some admin_user)
  /\ login "0311-1111111" "pw1" None open_shop
     = (Redirect home (Some (Welcome "Ali" Customer)), Some ali)
  /\ login "0322-2222222" "pw2" None open_shop
     = (Redirect home (Some (Welcome "Omar" Customer)), Some omar)
  /\ login "0333-3333333" "pw3" None open_shop
     = (Redirect home (Some (Welcome "Sara" Staff)), Some sara).
Proof. repeat split. Qed.

(** ** The properties on that day *)

Ltac by_computation := vm_compute; reflexivity.

(** C1 as stated fails: a stage update with [end_prev] off leaves the
    Washing entry open and opens a Drying entry beside it. *)
Lemma two_open_entries : reachable two_open /\ ~ open_entry_invariant two_open.
Proof.
  split.
  - apply run_reachable; [repeat constructor|].
    apply (reachable_by_weaken closes_previous), booked_reachable.
  - intros H.
    assert (Hb : exists b, In b (bookings two_open)
                           /\ Booking.booking_id b = 1).
    { vm_compute. eexists. split; [left; reflexivity | reflexivity]. }
    destruct Hb as [b [Hin Hid]]. destruct (H b Hin) as [Hlen _].
    rewrite Hid in Hlen. vm_compute in Hlen. lia.
Qed.

(** Stage updates that overlap are another matter.  Sara and the admin
    both ask for Drying with [end_prev] on, and both handlers read the
    booking while it is at Washing.  Sara's update commits first.  The
    admin's then closes nothing, the Washing entry being closed already,
    and opens a second Drying entry beside Sara's. *)
Lemma staff_update_stage_not_overlapped b st ep t1 t2 s d :
  staff_update_stage_overlapped b st ep t1 t2 s d d
  = staff_update_stage b st ep t1 t2 s d.
Proof. reflexivity. Qed.

Lemma overlapping_updates_leave_two_open :
  let after_sara :=
    snd (staff_update_stage 1 (Some 2) true at_0940 at_0940 (Some sara) booked)
  in
  let after_both :=
    snd (staff_update_stage_overlapped 1 (Some 2) true at_1005 at_1005
                                       (Some admin_user) booked after_sara) in
  map (fun h => (History.stage_id h, History.end_time h))
      (booking_stage_history after_both)
  = [(1, Some at_0940); (2, None); (2, None)]
  /\ List.length (open_entries after_both 1) = 2%nat.
Proof. split; by_computation. Qed.

Lemma open_entry_invariant_when_closing_witness :
  reachable_by closes_previous finished /\ open_entry_invariant finished.
Proof.
  assert (Hr : reachable_by closes_previous finished).
  { apply run_reachable; [repeat constructor | apply booked_reachable]. }
  split; [exact Hr | exact (open_entry_invariant_when_closing finished Hr)].
Defined.

(** C2 on the day: Omar books the car that belongs to Ali.  The request
    succeeds and commits a booking for customer 3 on vehicle 1, with its
    history entry and its payment, where the claim has it fail and create
    nothing.  The page of a booking does check the owner: Omar is refused
    the page of Ali's booking. *)
Theorem booking_with_anothers_vehicle :
  (exists v d',
     In v (vehicles open_shop)
     /\ Vehicle.vehicle_id v = 1
     /\ Vehicle.customer_id v <> Session.user_id omar
     /\ bookings open_shop = []
     /\ create_booking (Some 1) (Some 1) "" "" at_0915 at_0915 (Some omar)
                       open_shop
        = (Redirect customer_dashboard (Some (BookingCreated 1)), d')
     /\ map (fun b => (Booking.customer_id b, Booking.vehicle_id b))
            (bookings d') = [(3, 1)]
     /\ List.length (booking_stage_history d') = 1%nat
     /\ List.length (payments d') = 1%nat)
  /\ booking_detail 1 (Some omar) booked = inr detail_not_allowed.
Proof.
  split; [|by_computation].
  vm_compute. do 2 eexists. split; [left; reflexivity|].
  split; [reflexivity|]. split; [discriminate|]. split; [reflexivity|].
  split; [reflexivity|]. split; [reflexivity|]. split; reflexivity.
Qed.

Lemma unknown_vehicle_on_the_day :
  has_id (vehicle_ids open_shop) 9 = false
  /\ snd (create_booking (Some 9) (Some 1) "" "" at_0915 at_0915 (Some omar) open_shop)
     = open_shop
  /\ (require_customer (Some omar) = true ->
      exists e,
        fst (create_booking (Some 9) (Some 1) "" "" at_0915 at_0915 (Some omar) open_shop)
        = Abort e).
Proof.
  assert (H : has_id (vehicle_ids open_shop) 9 = false) by by_computation.
  split; [exact H|].
  exact (create_booking_unknown_vehicle open_shop (Some omar) 9 (Some 1) "" ""
                                        at_0915 at_0915 H).
Defined.

(** C3 on the day: Sara moves Ali's booking from Washing to Drying, which
    is not the last stage, and to Completed, which is. *)
Lemma staff_update_stage_effect_witness :
  require_staff (Some sara) = true
  /\ authentic booked sara = true
  /\ booking_of booked 1
     = Some (Booking.mk 1 2 1 2 at_0915 (Some "2026-01-06 10:30") Booked (Some 1)
                        None)
  /\ NoDup (stage_ids booked)
  /\ In (Stage.mk 2 "Drying" 2) (service_stages booked)
  /\ exists d' row' h,
       staff_update_stage 1 (Some 2) true at_0940 at_1005 (Some sara) booked
       = (Redirect staff_dashboard (Some StageUpdated), d')
       /\ booking_of d' 1 = Some row'
       /\ Booking.current_stage_id row' = Some 2
       /\ ((forall s, In s (service_stages booked) -> Stage.stage_order s <= 2)
           -> Booking.status row' = Completed)
       /\ (~ (forall s, In s (service_stages booked) ->
                        Stage.stage_order s <= 2) ->
           Booking.status row' = InProgress)
       /\ booking_stage_history d'
          = (booking_stage_history
               (previous_closed true at_0940 1 (Some 1) booked) ++ [h])%list
       /\ History.booking_id h = 1
       /\ History.stage_id h = 2
       /\ History.start_time h = at_1005
       /\ History.end_time h = None
       /\ History.updated_by_staff_id h = Session.user_id sara.
Proof.
  assert (H1 : require_staff (Some sara) = true) by by_computation.
  assert (H2 : authentic booked sara = true) by by_computation.
  assert (H3 : booking_of booked 1
               = Some (Booking.mk 1 2 1 2 at_0915 (Some "2026-01-06 10:30") Booked
                                  (Some 1) None)) by by_computation.
  assert (H4 : NoDup (stage_ids booked)).
  { vm_compute. repeat constructor; cbn; intuition discriminate. }
  assert (H5 : In (Stage.mk 2 "Drying" 2) (service_stages booked)).
  { vm_compute. right. left. reflexivity. }
  split; [exact H1|]. split; [exact H2|]. split; [exact H3|].
  split; [exact H4|]. split; [exact H5|].
  exact (staff_update_stage_effect booked sara 1 (Stage.mk 2 "Drying" 2) true
           at_0940 at_1005 _ H1 H2 H3 H4 H5).
Defined.

Example drying_in_progress_last_stage_completed :
  option_map (fun b => (Booking.current_stage_id b, Booking.status b))
    (booking_of
       (snd (staff_update_stage 1 (Some 2) true at_0940 at_1005 (Some sara) booked))
       1)
  = Some (Some 2, InProgress)
  /\ option_map (fun b => (Booking.current_stage_id b, Booking.status b))
       (booking_of
          (snd (staff_update_stage 1 (Some 4) true at_0940 at_1005 (Some sara)
                                   booked))
          1)
     = Some (Some 4, Completed).
Proof. split; by_computation. Qed.

(** C4 as stated fails: a Completed booking moved back to Washing is
    InProgress again. *)
Lemma completed_back_to_in_progress :
  reachable finished
  /\ option_map Booking.status (booking_of finished 1) = Some Completed
  /\ option_map Booking.status
       (booking_of
          (snd (staff_update_stage 1 (Some 1) true at_1005 at_1005 (Some sara) finished))
          1)
     = Some InProgress.
Proof.
  split; [|split; by_computation].
  apply run_reachable; [repeat constructor|].
  apply (reachable_by_weaken closes_previous), booked_reachable.
Qed.

Lemma completed_iff_last_reachable_witness :
  reachable finished /\ completed_iff_last finished.
Proof.
  assert (Hr : reachable finished).
  { apply run_reachable; [repeat constructor|].
    apply (reachable_by_weaken closes_previous), booked_reachable. }
  split; [exact Hr | exact (completed_iff_last_reachable finished Hr)].
Defined.

(** The Standard Wash costs 800, and so does the payment of Ali's booking. *)
Example booking_at_800 :
  payments booked = [Payment.mk 1 1 (inject_Z 800) "Cash" "Unpaid" None].
Proof. by_computation. Qed.

(** C6 on the day: stage 99 does not exist.  The lookup of its order finds
    no row, subscripting the [None] raises [TypeError], and the request
    dies with the store as it was; the lookup of a missing booking, a few
    lines above in the same handler, is answered with a flashed
    "Booking not found." instead. *)
Theorem unknown_stage_raises :
  stage_order_of booked 99 = None
  /\ staff_update_stage 1 (Some 99) true at_0940 at_0940 (Some sara) booked
     = (Abort TypeError, booked)
  /\ staff_update_stage 7 (Some 2) true at_0940 at_0940 (Some sara) booked
     = (Redirect staff_dashboard (Some BookingNotFound), booked).
Proof. split; [|split]; by_computation. Qed.



Lemma staff_assign_twice_witness :
  reachable booked
  /\ require_staff (Some admin_user) = true
  /\ require_staff (Some sara) = true
  /\ has_id (booking_ids booked) 1 = true
  /\ has_id (user_ids booked) 4 = true
  /\ let r1 := staff_assign (Some 1) [Some 4] (fun _ => at_0940) (Some admin_user)
                            booked in
     let r2 := staff_assign (Some 1) [Some 4] (fun _ => at_1005) (Some sara)
                            (snd r1) in
     fst r1 = Redirect staff_dashboard (Some StaffAssigned)
     /\ fst r2 = Redirect staff_dashboard (Some StaffAssigned)
     /\ snd r2 = snd r1
     /\ List.length (assigned (snd r2) 1 4) = 1%nat.
Proof.
  assert (Hr : reachable booked)
    by apply (reachable_by_weaken closes_previous), booked_reachable.
  assert (H1 : require_staff (Some admin_user) = true) by reflexivity.
  assert (H2 : require_staff (Some sara) = true) by reflexivity.
  assert (H3 : has_id (booking_ids booked) 1 = true) by by_computation.
  assert (H4 : has_id (user_ids booked) 4 = true) by by_computation.
  split; [exact Hr|]. split; [exact H1|]. split; [exact H2|].
  split; [exact H3|]. split; [exact H4|].
  exact (staff_assign_twice booked (Some admin_user) (Some sara) 1 4
           (fun _ => at_0940) (fun _ => at_1005) Hr H1 H2 H3 H4).
Defined.

Lemma staff_update_payment_effect_witness :
  require_staff (Some sara) = true
  /\ payment_of booked 1
     = Some (Payment.mk 1 1 (inject_Z 800) "Cash" "Unpaid" None)
  /\ valid_method "Card" = true
  /\ valid_payment_status "Paid" = true
  /\ exists d' p',
       staff_update_payment 1 (Some "Card") (Some "Paid") at_1005 (Some sara) booked
       = (Redirect staff_dashboard (Some PaymentUpdated), d')
       /\ payment_of d' 1 = Some p'
       /\ Payment.method p' = "Card"
       /\ Payment.payment_status p' = "Paid"
       /\ ("Paid" = "Paid" -> Payment.paid_at p' = Some at_1005)
       /\ ("Paid" <> "Paid" -> Payment.paid_at p' = None)
       /\ Payment.amount p' = inject_Z 800
       /\ Payment.payment_id p' = 1
       /\ Payment.booking_id p' = 1
       /\ (forall b, b <> 1 -> payment_of d' b = payment_of booked b).
Proof.
  assert (H1 : require_staff (Some sara) = true) by reflexivity.
  assert (H2 : payment_of booked 1
               = Some (Payment.mk 1 1 (inject_Z 800) "Cash" "Unpaid" None))
    by by_computation.
  assert (H3 : valid_method "Card" = true) by by_computation.
  assert (H4 : valid_payment_status "Paid" = true) by by_computation.
  split; [exact H1|]. split; [exact H2|]. split; [exact H3|].
  split; [exact H4|].
  exact (staff_update_payment_effect booked (Some sara) 1 "Card" "Paid" at_1005 _
           H1 H2 H3 H4).
Defined.

(** Paid, then refunded: [paid_at] is set, then cleared; the amount stays. *)
Example paid_then_refunded :
  let d1 := snd (staff_update_payment 1 (Some "Card") (Some "Paid") at_0940
                                      (Some sara) booked) in
  let d2 := snd (staff_update_payment 1 (Some "Card") (Some "Refunded") at_1005
                                      (Some sara) d1) in
  payment_of d1 1 = Some (Payment.mk 1 1 (inject_Z 800) "Card" "Paid" (Some at_0940))
  /\ payment_of d2 1
     = Some (Payment.mk 1 1 (inject_Z 800) "Card" "Refunded" None).
Proof. split; by_computation. Qed.

(** C10 as stated fails: Sara, whose role is Staff, creates an Admin. *)
Lemma staff_creates_admin :
  Session.role sara = Staff
  /\ exists d',
       create_staff_user "Eve" "0344-4444444" "" "Admin" "pw5" at_0915 (Some sara)
                         open_shop
       = (Redirect staff_dashboard (Some StaffUserCreated), d')
       /\ users d'
          = (users open_shop
               ++ [User.mk 5 "Eve" "0344-4444444" None (sha256_hex "pw5") Admin
                           at_0915])%list.
Proof.
  split; [reflexivity|]. vm_compute. eexists. split; reflexivity.
Qed.

Lemma create_staff_user_guard_witness :
  require_staff (Some ali) = false
  /\ create_staff_user "Eve" "0344-4444444" "" "Admin" "pw5" at_0915 (Some ali)
                       open_shop
     = (Redirect login_page None, open_shop).
Proof.
  assert (H : require_staff (Some ali) = false) by reflexivity.
  split; [exact H|].
  exact (create_staff_user_guard open_shop (Some ali) "Eve" "0344-4444444" ""
           "Admin" "pw5" at_0915 H).
Defined.


(** * Further properties of the handlers *)

(** ** Every commit is a sequence of changes *)

Lemma changes_one d d' : change d d' -> changes d d'.
Proof. intros H. eapply changes_more; [apply changes_none | exact H]. Qed.

Lemma changes_trans d1 d2 d3 : changes d1 d2 -> changes d2 d3 -> changes d1 d3.
Proof.
  intros H12 H23. induction H23 as [|d d' _ IH Hc]; [exact H12|].
  eapply changes_more; eauto.
Qed.

Lemma handle_changes r d : changes d (snd (handle r d)).
Proof.
  destruct r; cbn [handle].
  - unfold register. destruct (negb _); [apply changes_none|].
    destruct (insert_user _ _ _ _ _ _ _) as [[]|d'] eqn:E; cbn [snd];
      try apply changes_none.
    eapply changes_one, change_user, E.
  - unfold add_vehicle. destruct s as [u|]; [|apply changes_none].
    destruct (negb _); [apply changes_none|].
    destruct (insert_vehicle _ _ _ _ _ _ _) as [[]|d'] eqn:E; cbn [snd];
      try apply changes_none.
    eapply changes_one, change_vehicle, E.
  - unfold create_booking. destruct s as [u|]; [|apply changes_none].
    destruct (negb _); [apply changes_none|].
    destruct vehicle_id as [vid|]; [|apply changes_none].
    destruct package_id as [pid|]; [|apply changes_none].
    cbn [int_field bind ret].
    destruct (create_booking_tx _ _ _ _ _ _ _ _) as [e|[bid d']] eqn:E;
      cbn [snd]; [apply changes_none|].
    eapply changes_one, change_booking, E.
  - unfold staff_assign. destruct (negb _); [apply changes_none|].
    destruct booking_id as [bid|]; [|apply changes_none].
    cbn [int_field bind ret].
    destruct (staff_assign_loop _ _ _ _ _) as [e|d'] eqn:E; cbn [snd];
      [apply changes_none|].
    eapply (staff_assign_loop_pres (changes d));
      [|apply changes_none|exact E].
    intros b s0 t x Hx. eapply changes_more; [exact Hx | apply change_assign].
  - unfold create_package. destruct (negb _); [apply changes_none|].
    destruct price as [p|]; [|apply changes_none].
    destruct duration_minutes as [m|]; [|apply changes_none].
    destruct (insert_package _ _) as [[]|d'] eqn:E; cbn [snd];
      try apply changes_none.
    eapply changes_one, change_package, E.
  - unfold toggle_package. destruct (negb _); [apply changes_none|].
    apply changes_one, change_toggle.
  - unfold create_staff_user. destruct (negb _); [apply changes_none|].
    destruct (if String.eqb role "Staff" then _ else _) as [r|];
      [|apply changes_none].
    destruct (insert_user _ _ _ _ _ _ _) as [[]|d'] eqn:E; cbn [snd];
      try apply changes_none.
    eapply changes_one, change_user, E.
  - unfold staff_update_stage. destruct s as [u|]; [|apply changes_none].
    destruct (negb _); [apply changes_none|].
    destruct stage_id as [new|]; [|apply changes_none].
    destruct (booking_of d booking_id) as [row|] eqn:Erow;
      [|apply changes_none].
    destruct (staff_update_stage_tx _ _ _ _ _ _ _ _) as [e|d'] eqn:E;
      cbn [snd]; [apply changes_none|].
    eapply changes_one, change_stage; eauto.
  - unfold staff_update_payment. destruct (negb _); [apply changes_none|].
    destruct (update_payment _ _ _ _ _) as [e|d'] eqn:E; cbn [snd];
      [apply changes_none|].
    eapply changes_one, change_payment, E.
Qed.

Lemma init_db_changes now d d' :
  schema_ok d -> init_db now d = inr d' -> changes d d'.
Proof.
  intros Hok H. unfold init_db in H.
  destruct (service_stages d) eqn:Es.
  { pose proof (ok_stages d Hok) as E. rewrite Es, seeded_stages_eq in E.
    discriminate E. }
  cbn [bind ret] in H. apply bind_inr in H. destruct H as [d2 [H2 H]].
  assert (C2 : changes d d2).
  { destruct (packages d); [|injection H2 as <-; apply changes_none].
    eapply (executemany_pres (changes d)); [|apply changes_none|exact H2].
    intros r x x' Hx Hr. eapply changes_more; [exact Hx|].
    eapply change_package, Hr. }
  destruct (filter _ (users d2)); [|injection H as <-; exact C2].
  eapply changes_more; [exact C2|]. eapply change_user, H.
Qed.

Lemma change_schema_ok d d' : schema_ok d -> change d d' -> schema_ok d'.
Proof.
  intros Hok [n p e h r t x H | c p a b e f x H | row x H | pid
              | uid vid pid sc nt t1 t2 bid x H | b s t
              | bid new ep row actor t1 t2 x Hrow H | m s now b x H].
  - eapply insert_user_ok; eauto.
  - eapply insert_vehicle_ok; eauto.
  - eapply insert_package_ok; eauto.
  - now apply toggle_active_ok.
  - eapply create_booking_tx_ok; eauto.
  - now apply try_assign_ok.
  - eapply staff_update_stage_tx_ok; eauto.
  - eapply update_payment_ok; eauto.
Qed.

(** What every change keeps, every reachable store has. *)
Lemma reachable_by_changes (P : db -> Prop) :
  (forall now, P (seeded now)) ->
  (forall d d', schema_ok d -> P d -> change d d' -> P d') ->
  forall allowed d, reachable_by allowed d -> P d.
Proof.
  intros Hseed Hstep allowed.
  assert (Hmany : forall d d', changes d d' -> schema_ok d -> P d ->
                               schema_ok d' /\ P d').
  { induction 1 as [|d1 d2 _ IH Hc]; intros Hok HP; [auto|].
    destruct (IH Hok HP) as [Hok1 HP1]. split.
    - eapply change_schema_ok; eauto.
    - eapply Hstep; eauto. }
  induction 1 as [now d H | now d d' Hd IH H | r d Hd IH Hr].
  - rewrite seeded_eq in H. injection H as <-. apply Hseed.
  - pose proof (reachable_by_schema_ok _ _ Hd) as Hok.
    eapply Hmany; eauto. eapply init_db_changes; eauto.
  - pose proof (reachable_by_schema_ok _ _ Hd) as Hok.
    eapply Hmany; eauto. apply handle_changes.
Qed.

(** ** Every change, written out *)

Lemma existsb_key_false {A} (key : A -> string) (k : string) (l : list A) :
  existsb (fun a => String.eqb (key a) k) l = false -> ~ In k (map key l).
Proof.
  intros H Hin. apply in_map_iff in Hin. destruct Hin as [a [<- Ha]].
  assert (E : existsb (fun x => String.eqb (key x) (key a)) l = true).
  { apply existsb_exists. exists a. split; [exact Ha | apply String.eqb_refl]. }
  congruence.
Qed.

Lemma negb_true_false (b : bool) : negb b = true -> b = false.
Proof. now destruct b. Qed.

Lemma email_free_emails e d :
  email_free e (users d) = true -> forall a, e = Some a -> ~ In a (emails d).
Proof.
  intros H a -> Hin. unfold email_free in H. apply negb_true_false in H.
  unfold emails in Hin. apply in_flat_map in Hin.
  destruct Hin as [u [Hu Ha]].
  assert (E : existsb (fun u => match User.email u with
                                | Some b => String.eqb a b
                                | None => false
                                end) (users d) = true).
  { apply existsb_exists. exists u. split; [exact Hu|].
    destruct (User.email u) as [b|]; [|contradiction].
    destruct Ha as [<- | []]. apply String.eqb_refl. }
  congruence.
Qed.

Lemma insert_user_effect n p e h r t d d' :
  insert_user n p e h r t d = inr d' -> effect d d'.
Proof.
  intros H. pose proof (insert_user_inr _ _ _ _ _ _ _ _ H) as ->.
  unfold insert_user in H. checks H.
  apply eff_user.
  - apply existsb_key_false with (key := User.phone).
    now apply negb_true_false.
  - now apply email_free_emails.
Qed.

Lemma insert_vehicle_effect c p a b e f d d' :
  insert_vehicle c p a b e f d = inr d' -> effect d d'.
Proof.
  intros H. pose proof (insert_vehicle_inr _ _ _ _ _ _ _ _ H) as ->.
  unfold insert_vehicle in H. checks H.
  apply eff_vehicle.
  - apply existsb_key_false with (key := Vehicle.plate_no).
    now apply negb_true_false.
  - now apply has_id_In.
Qed.

Lemma insert_package_effect row d d' :
  insert_package row d = inr d' -> effect d d'.
Proof.
  destruct row as [[[n p] m] a]. intros H.
  pose proof (insert_package_inr _ _ _ _ _ _ H) as [_ ->].
  unfold insert_package in H. checks H.
  apply eff_package; auto.
  - apply existsb_key_false with (key := Package.package_name).
    now apply negb_true_false.
  - now apply Z.ltb_lt.
  - apply orb_prop in Chk2. rewrite !Z.eqb_eq in Chk2. exact Chk2.
Qed.

Lemma try_assign_effect b s t d : effect d (try_assign b s t d).
Proof.
  unfold try_assign. destruct (assignable d b s) eqn:E; [|apply eff_none].
  unfold assignable in E. apply andb_prop in E. destruct E as [E Hs].
  apply andb_prop in E. destruct E as [E Hb].
  apply eff_assign; try now apply has_id_In.
  now destruct (assigned d b s).
Qed.

Lemma create_booking_tx_effect uid vid pid sc nt t1 t2 d bid d' :
  create_booking_tx uid vid pid sc nt t1 t2 d = inr (bid, d') -> effect d d'.
Proof.
  intros H. pose proof (create_booking_tx_shape _ _ _ _ _ _ _ _ _ _ H)
    as [first [price [Hf [Hp [-> ->]]]]].
  apply create_booking_tx_inr in H.
  destruct H as [first' [d1 [d2 [price' [Hf' [H1 [H2 [Hp' H4]]]]]]]].
  assert (first' = first) by congruence. subst first'.
  pose proof (insert_booking_inr _ _ _ _ _ _ _ _ _ _ H1) as E1.
  injection E1 as ->.
  pose proof (insert_history_inr _ _ _ _ _ _ _ H2) as [_ ->].
  assert (price' = price).
  { unfold price_of in Hp'. db_simpl. fold (price_of d pid) in Hp'.
    congruence. }
  subst price'. clear Hf'.
  unfold insert_booking in H1. checks H1.
  unfold insert_history in H2. checks H2.
  unfold insert_payment in H4. checks H4.
  unfold user_ids in Chk5. db_simpl. fold (user_ids d) in Chk5.
  apply eff_booking; auto; try now apply has_id_In.
  apply negb_true_false in Chk6. intros Hin.
  apply in_map_iff in Hin. destruct Hin as [q [Eq Hq]].
  assert (E : existsb (fun p => Payment.booking_id p
                                =? next_rowid (booking_ids d))
                      (payments d) = true).
  { apply existsb_exists. exists q. split; [exact Hq | now apply Z.eqb_eq]. }
  congruence.
Qed.

Lemma staff_update_stage_tx_effect bid new ep row actor t1 t2 d d' :
  booking_of d bid = Some row ->
  staff_update_stage_tx bid new ep (Booking.current_stage_id row) actor t1 t2 d
  = inr d' ->
  effect d d'.
Proof.
  intros Hrow H. apply staff_update_stage_tx_parts in H.
  destruct H as [o [st [d2 [Ho [Hst [H1 H2]]]]]].
  pose proof (update_booking_inr _ _ _ _ _ H1) as ->.
  pose proof (insert_history_inr _ _ _ _ _ _ _ H2) as [_ ->].
  unfold insert_history in H2. checks H2.
  destruct (previous_closed_frame ep t1 bid (Booking.current_stage_id row) d)
    as [Eu [_ _]].
  unfold user_ids in Chk1. db_simpl. rewrite Eu in Chk1.
  fold (user_ids d) in Chk1.
  apply (eff_stage d bid new ep row actor t1 t2 st Hrow).
  - apply has_id_In. eapply stage_order_of_In; eauto.
  - now apply has_id_In.
  - subst st. destruct (max_stage_order _); [destruct (_ =? _)|]; auto.
Qed.

Lemma update_payment_effect m s now b d d' :
  update_payment m s
                 match s with
                 | Some st => if String.eqb st "Paid" then Some now else None
                 | None => None
                 end b d = inr d' ->
  effect d d'.
Proof.
  unfold update_payment. destruct (payment_of d b);
    [|intros [= <-]; apply eff_none].
  destruct m as [m|]; [|discriminate]. destruct s as [s|]; [|discriminate].
  intros H. checks H. injection H as <-. now apply eff_payment.
Qed.

Lemma change_effect d d' : change d d' -> effect d d'.
Proof.
  intros [n p e h r t x H | c p a b e f x H | row x H | pid
         | uid vid pid sc nt t1 t2 bid x H | b s t
         | bid new ep row actor t1 t2 x Hrow H | m s now b x H].
  - eapply insert_user_effect; eauto.
  - eapply insert_vehicle_effect; eauto.
  - eapply insert_package_effect; eauto.
  - apply eff_toggle.
  - eapply create_booking_tx_effect; eauto.
  - apply try_assign_effect.
  - eapply staff_update_stage_tx_effect; eauto.
  - eapply update_payment_effect; eauto.
Qed.

(** ** The schema's constraints hold in every reachable store *)

Lemma NoDup_snoc {A} (l : list A) (x : A) :
  NoDup l -> ~ In x l -> NoDup (l ++ [x]).
Proof.
  intros Hl Hx. apply NoDup_app; [exact Hl | repeat constructor; intros [] |].
  intros a Ha [<- | []]. contradiction.
Qed.

Lemma next_rowid_not_In (ids : list Z) : ~ In (next_rowid ids) ids.
Proof.
  intros H. apply has_id_In in H. rewrite next_rowid_fresh in H. discriminate.
Qed.

Lemma map_set_stage_ids new st bid l :
  map Booking.booking_id (map (set_stage new st bid) l)
  = map Booking.booking_id l.
Proof. rewrite map_map. apply map_ext. intros b. apply set_stage_id. Qed.

Lemma previous_closed_history_ids ep t b cur d :
  map History.history_id (booking_stage_history (previous_closed ep t b cur d))
  = map History.history_id (booking_stage_history d).
Proof.
  unfold previous_closed. destruct cur as [c|], ep; try reflexivity.
  unfold close_history. db_simpl. rewrite map_map. apply map_ext.
  intros h. now destruct (_ && _).
Qed.

Lemma previous_closed_tables ep t b cur d :
  let d1 := previous_closed ep t b cur d in
  users d1 = users d /\ vehicles d1 = vehicles d /\ packages d1 = packages d
  /\ service_stages d1 = service_stages d /\ bookings d1 = bookings d
  /\ booking_staff_assignment d1 = booking_staff_assignment d
  /\ payments d1 = payments d.
Proof. unfold previous_closed. destruct cur, ep; cbn; repeat split. Qed.

Lemma toggle_package_ids pid l :
  map Package.package_id
      (map (fun p =>
              if Package.package_id p =? pid
              then Package.mk (Package.package_id p) (Package.package_name p)
                              (Package.price p) (Package.duration_minutes p)
                              (if Package.is_active p =? 1 then 0 else 1)
              else p) l)
  = map Package.package_id l.
Proof. rewrite map_map. apply map_ext. intros p. now destruct (_ =? pid). Qed.

Lemma toggle_package_names pid l :
  map Package.package_name
      (map (fun p =>
              if Package.package_id p =? pid
              then Package.mk (Package.package_id p) (Package.package_name p)
                              (Package.price p) (Package.duration_minutes p)
                              (if Package.is_active p =? 1 then 0 else 1)
              else p) l)
  = map Package.package_name l.
Proof. rewrite map_map. apply map_ext. intros p. now destruct (_ =? pid). Qed.

Lemma map_set_payment_ids m s t b l :
  map Payment.payment_id (map (set_payment m s t b) l)
  = map Payment.payment_id l.
Proof.
  rewrite map_map. apply map_ext. intros p. unfold set_payment.
  now destruct (_ =? b).
Qed.

Lemma map_set_payment_bookings m s t b l :
  map Payment.booking_id (map (set_payment m s t b) l)
  = map Payment.booking_id l.
Proof.
  rewrite map_map. apply map_ext. intros p. unfold set_payment.
  now destruct (_ =? b).
Qed.

Ltac keys_frame :=
  unfold user_ids, vehicle_ids, package_ids, booking_ids, stage_ids, emails,
         booking_created, stage_advanced in *;
  db_simpl;
  rewrite ?map_set_stage_ids, ?toggle_package_ids, ?toggle_package_names,
          ?map_set_payment_ids, ?map_set_payment_bookings,
          ?previous_closed_history_ids;
  auto.

Lemma effect_keys_ok d d' : keys_ok d -> effect d d' -> keys_ok d'.
Proof.
  intros [K1 K2 K3 K4 K5 K6 K7 K8 K9 K10 K11] H.
  destruct H as [| n p e h r t Hp He | c p a b e f Hp Hc | n p m a Hn Hp Hm Ha
                 | pid | uid vid pid sc nt t1 t2 first price _ _ _ _ _ _ _ Hpay
                 | b s t _ _ _ | bid new ep row actor t1 t2 st Hrow _ _ _
                 | m s now b _ _].
  - constructor; assumption.
  - constructor; keys_frame.
    + rewrite map_app. apply NoDup_snoc; [exact K1 | apply next_rowid_not_In].
    + rewrite map_app. now apply NoDup_snoc.
    + rewrite flat_map_app. cbn. destruct e as [a|]; cbn.
      * apply NoDup_snoc; [exact K3 | now apply He].
      * now rewrite app_nil_r.
  - constructor; keys_frame.
    + rewrite map_app. apply NoDup_snoc; [exact K4 | apply next_rowid_not_In].
    + rewrite map_app. now apply NoDup_snoc.
  - constructor; keys_frame.
    + rewrite map_app. apply NoDup_snoc; [exact K6 | apply next_rowid_not_In].
    + rewrite map_app. now apply NoDup_snoc.
  - constructor; keys_frame.
  - constructor; keys_frame.
    + rewrite map_app. apply NoDup_snoc; [exact K8 | apply next_rowid_not_In].
    + rewrite map_app. apply NoDup_snoc; [exact K9 | apply next_rowid_not_In].
    + rewrite map_app. apply NoDup_snoc; [exact K10 | apply next_rowid_not_In].
    + rewrite map_app. now apply NoDup_snoc.
  - constructor; keys_frame.
  - destruct (previous_closed_tables ep t1 bid (Booking.current_stage_id row) d)
      as [Eu [Ev [Ep [Es [Eb [Ea Epay]]]]]].
    constructor; keys_frame; rewrite ?Eu, ?Ev, ?Ep, ?Es, ?Eb, ?Ea, ?Epay; auto.
    rewrite map_app, previous_closed_history_ids. cbn [map History.history_id].
    apply NoDup_snoc; [exact K9 | apply next_rowid_not_In].
  - constructor; keys_frame.
Qed.

Lemma seeded_keys_ok now : keys_ok (seeded now).
Proof.
  constructor; vm_compute; repeat constructor; cbn; intuition discriminate.
Qed.

Lemma reachable_by_keys_ok :
  forall allowed d, reachable_by allowed d -> keys_ok d.
Proof.
  apply (reachable_by_changes keys_ok seeded_keys_ok).
  intros d d' _ Hk Hc. eapply effect_keys_ok; [exact Hk|].
  now apply change_effect.
Qed.

Lemma In_map_app_l {A B} (f : A -> B) (l l' : list A) (x : B) :
  In x (map f l) -> In x (map f (l ++ l')).
Proof. intros H. rewrite map_app. apply in_or_app. now left. Qed.

Lemma In_map_last {A B} (f : A -> B) (l : list A) (a : A) (x : B) :
  f a = x -> In x (map f (l ++ [a])).
Proof. intros <-. rewrite map_app. apply in_or_app. right. now left. Qed.

Lemma previous_closed_entry ep t b cur d h :
  In h (booking_stage_history (previous_closed ep t b cur d)) ->
  exists h0,
    In h0 (booking_stage_history d)
    /\ History.history_id h = History.history_id h0
    /\ History.booking_id h = History.booking_id h0
    /\ History.stage_id h = History.stage_id h0
    /\ History.start_time h = History.start_time h0
    /\ History.updated_by_staff_id h = History.updated_by_staff_id h0
    /\ (h = h0 \/ (History.end_time h0 = None /\ History.end_time h = Some t)).
Proof.
  unfold previous_closed. destruct cur as [c|], ep;
    try (intros H; exists h; repeat split; auto; fail).
  unfold close_history. db_simpl. intros H. apply in_map_iff in H.
  destruct H as [h0 [<- H0]]. exists h0. split; [exact H0|].
  destruct ((History.booking_id h0 =? b) && (History.stage_id h0 =? c)
            && is_open h0) eqn:E; cbn; repeat split; auto.
  right. apply andb_prop in E. destruct E as [_ E]. unfold is_open in E.
  destruct (History.end_time h0); [discriminate | auto].
Qed.

Ltac row_simpl :=
  cbn [Vehicle.customer_id Booking.booking_id Booking.customer_id
       Booking.vehicle_id Booking.package_id Booking.current_stage_id
       Booking.status History.history_id History.booking_id History.stage_id
       History.start_time History.end_time History.updated_by_staff_id
       Assignment.booking_id Assignment.staff_id Payment.payment_id
       Payment.booking_id Payment.amount Payment.method Payment.payment_status
       Payment.paid_at Package.package_id Package.package_name Package.price
       Package.duration_minutes Package.is_active User.user_id User.role
       User.phone User.email] in *.

Lemma effect_refs_ok d d' : refs_ok d -> effect d d' -> refs_ok d'.
Proof.
  intros [R1 R2 R3 R4 R5] H.
  destruct H as [| n p e h r t _ _ | c p a b e f _ Hc | n p m a _ _ _ _
                 | pid
                 | uid vid pid sc nt t1 t2 first price Hu Hv Hp Hf Had _ _ _
                 | b s t _ Hb Hs | bid new ep row actor t1 t2 st Hrow Hn Ha _
                 | m s now b _ _].
  - constructor; assumption.
  - constructor; keys_frame; intros x Hx.
    + now apply In_map_app_l, R1.
    + destruct (R2 x Hx) as [A [B [C D]]]. repeat split; auto.
      now apply In_map_app_l.
    + destruct (R3 x Hx) as [A [B C]]. repeat split; auto.
      now apply In_map_app_l.
    + destruct (R4 x Hx) as [A B]. split; auto. now apply In_map_app_l.
  - constructor; keys_frame; intros x Hx.
    + apply in_app_or in Hx. destruct Hx as [Hx | [<- | []]]; row_simpl; auto.
    + destruct (R2 x Hx) as [A [B [C D]]]. repeat split; auto.
      now apply In_map_app_l.
  - constructor; keys_frame; intros x Hx.
    destruct (R2 x Hx) as [A [B [C D]]]. repeat split; auto.
    now apply In_map_app_l.
  - constructor; keys_frame.
  - destruct (first_stage_least _ _ Hf) as [Hfin _].
    constructor; keys_frame; intros x Hx.
    + apply in_app_or in Hx. destruct Hx as [Hx | [<- | []]]; row_simpl.
      * now apply R2.
      * repeat split; auto. intros c [= <-]. now apply in_map.
    + apply in_app_or in Hx. destruct Hx as [Hx | [<- | []]]; row_simpl.
      * destruct (R3 x Hx) as [A [B C]]. repeat split; auto.
        now apply In_map_app_l.
      * repeat split; auto.
        -- apply In_map_last; reflexivity.
        -- now apply in_map.
    + destruct (R4 x Hx) as [A B]. split; auto. now apply In_map_app_l.
    + apply in_app_or in Hx. destruct Hx as [Hx | [<- | []]]; row_simpl.
      * now apply In_map_app_l, R5.
      * apply In_map_last; reflexivity.
  - constructor; keys_frame; intros x Hx.
    apply in_app_or in Hx. destruct Hx as [Hx | [<- | []]]; row_simpl; auto.
  - destruct (previous_closed_tables ep t1 bid (Booking.current_stage_id row) d)
      as [Eu [Ev [Ep [Es [Eb [Easg Epay]]]]]].
    constructor; keys_frame;
      rewrite ?Eu, ?Ev, ?Ep, ?Es, ?Eb, ?Easg, ?Epay; auto; intros x Hx.
    + apply in_map_iff in Hx. destruct Hx as [b0 [<- Hb0]].
      destruct (R2 b0 Hb0) as [A [B [C D]]]. unfold set_stage.
      destruct (_ =? bid); row_simpl; repeat split; auto.
      intros c [= <-]. exact Hn.
    + apply in_app_or in Hx. destruct Hx as [Hx | [<- | []]]; row_simpl.
      * apply previous_closed_entry in Hx.
        destruct Hx as [h0 [H0 [_ [-> [-> [_ [-> _]]]]]]]. now apply R3.
      * repeat split; auto. apply has_id_In.
        eapply booking_of_has_id, Hrow.
  - constructor; keys_frame. intros x Hx.
    apply in_map_iff in Hx. destruct Hx as [q [<- Hq]]. unfold set_payment.
    destruct (_ =? b); row_simpl; now apply R5.
Qed.

Lemma seeded_refs_ok now : refs_ok (seeded now).
Proof. constructor; cbn; intros x []. Qed.

Lemma reachable_by_refs_ok :
  forall allowed d, reachable_by allowed d -> refs_ok d.
Proof.
  apply (reachable_by_changes refs_ok seeded_refs_ok).
  intros d d' _ Hk Hc. eapply effect_refs_ok; [exact Hk|].
  now apply change_effect.
Qed.

Lemma paid_at_iff_paid (s : string) (now : timestamp) :
  (if String.eqb s "Paid" then Some now else None) <> None <-> s = "Paid".
Proof.
  destruct (String.eqb_spec s "Paid") as [E|E]; split; intros H;
    congruence.
Qed.

Lemma effect_checks_ok d d' : checks_ok d -> effect d d' -> checks_ok d'.
Proof.
  intros [C1 C2 C3 C4 C5] H.
  destruct H as [| n p e h r t _ _ | c p a b e f _ _ | n p m a _ Hp Hm Ha
                 | pid
                 | uid vid pid sc nt t1 t2 first price _ _ _ _ _ _ Hprice _
                 | b s t _ _ _ | bid new ep row actor t1 t2 st _ _ _ _
                 | m s now b Hm Hs].
  - constructor; assumption.
  - constructor; keys_frame.
    destruct C4 as [u [Hu Hr]]. exists u. split; [|exact Hr].
    apply in_or_app. now left.
  - constructor; keys_frame.
  - constructor; keys_frame.
    + intros x Hx. apply in_app_or in Hx.
      destruct Hx as [Hx | [<- | []]]; row_simpl; auto.
    + intros E. apply app_eq_nil in E. destruct E as [_ E]. discriminate.
  - constructor; keys_frame.
    + intros x Hx. apply in_map_iff in Hx. destruct Hx as [q [<- Hq]].
      destruct (C1 q Hq) as [A [B C]].
      destruct (Package.package_id q =? pid); row_simpl; auto.
      repeat split; auto. destruct (Package.is_active q =? 1); auto.
    + intros E. apply map_eq_nil in E. contradiction.
  - constructor; keys_frame.
    + intros x Hx. apply in_app_or in Hx.
      destruct Hx as [Hx | [<- | []]]; row_simpl; auto.
      repeat split; auto; intros E; [congruence | discriminate E].
    + intros x Hx. apply in_app_or in Hx.
      destruct Hx as [Hx | [<- | []]]; row_simpl.
      * now apply In_map_app_l, C5.
      * apply In_map_last; reflexivity.
  - constructor; keys_frame.
  - destruct (previous_closed_tables ep t1 bid (Booking.current_stage_id row) d)
      as [Eu [Ev [Ep [Es [Eb [Easg Epay]]]]]].
    constructor; keys_frame;
      rewrite ?Eu, ?Ev, ?Ep, ?Es, ?Eb, ?Easg, ?Epay; auto.
    intros x Hx. apply in_map_iff in Hx. destruct Hx as [b0 [<- Hb0]].
    rewrite set_stage_id. now apply C5.
  - constructor; keys_frame.
    intros x Hx. apply in_map_iff in Hx. destruct Hx as [q [<- Hq]].
    destruct (C2 q Hq) as [A [B [C D]]]. unfold set_payment.
    destruct (Payment.booking_id q =? b); row_simpl; auto.
    repeat split; auto; apply paid_at_iff_paid.
Qed.

Lemma seeded_checks_ok now : checks_ok (seeded now).
Proof.
  constructor.
  - intros p [<- | [<- | [<- | []]]]; repeat split; cbn; auto; lia.
  - intros p [].
  - discriminate.
  - eexists. split; [left; reflexivity | reflexivity].
  - intros b [].
Qed.

Lemma reachable_by_checks_ok :
  forall allowed d, reachable_by allowed d -> checks_ok d.
Proof.
  apply (reachable_by_changes checks_ok seeded_checks_ok).
  intros d d' _ Hk Hc. eapply effect_checks_ok; [exact Hk|].
  now apply change_effect.
Qed.

(** ** Nothing is deleted, little is rewritten *)

Lemma prefix_refl {A} (l : list A) : prefix l l.
Proof. exists []. now rewrite app_nil_r. Qed.

Lemma prefix_app {A} (l t : list A) : prefix l (l ++ t).
Proof. now exists t. Qed.

Lemma prefix_trans {A} (l1 l2 l3 : list A) :
  prefix l1 l2 -> prefix l2 l3 -> prefix l1 l3.
Proof.
  intros [t1 ->] [t2 ->]. exists (t1 ++ t2)%list. now rewrite app_assoc.
Qed.

Lemma prefix_map_app {A B} (f : A -> B) (l t : list A) :
  prefix (map f l) (map f (l ++ t)).
Proof. rewrite map_app. apply prefix_app. Qed.

Lemma prefix_eq {A} (l l' : list A) : l' = l -> prefix l l'.
Proof. intros ->. apply prefix_refl. Qed.

Lemma grows_refl d : grows d d.
Proof. constructor; auto using prefix_refl. Qed.

Lemma grows_trans d1 d2 d3 : grows d1 d2 -> grows d2 d3 -> grows d1 d3.
Proof.
  intros [A1 A2 A3 A4 A5 A6 A7 A8 A9] [B1 B2 B3 B4 B5 B6 B7 B8 B9].
  constructor; eauto using prefix_trans; congruence.
Qed.

Lemma close_history_columns t b c l :
  map history_columns
      (map (fun h =>
              if (History.booking_id h =? b) && (History.stage_id h =? c)
                 && is_open h
              then History.mk (History.history_id h) (History.booking_id h)
                              (History.stage_id h) (History.start_time h)
                              (Some t) (History.updated_by_staff_id h)
              else h) l)
  = map history_columns l.
Proof.
  rewrite map_map. apply map_ext. intros h. now destruct (_ && _).
Qed.

Lemma previous_closed_columns ep t b cur d :
  map history_columns (booking_stage_history (previous_closed ep t b cur d))
  = map history_columns (booking_stage_history d).
Proof.
  unfold previous_closed. destruct cur as [c|], ep; try reflexivity.
  apply close_history_columns.
Qed.

Lemma previous_closed_keeps_closed ep t b cur d h :
  In h (booking_stage_history d) -> History.end_time h <> None ->
  In h (booking_stage_history (previous_closed ep t b cur d)).
Proof.
  unfold previous_closed. destruct cur as [c|], ep; auto.
  intros Hin Hclosed. unfold close_history. db_simpl. apply in_map_iff.
  exists h. split; [|exact Hin]. unfold is_open.
  destruct (History.end_time h); [|congruence].
  now rewrite andb_false_r.
Qed.

Lemma effect_grows d d' : effect d d' -> grows d d'.
Proof.
  intros H.
  destruct H as [| n p e h r t _ _ | c p a b e f _ _ | n p m a _ _ _ _
                 | pid | uid vid pid sc nt t1 t2 first price _ _ _ _ _ _ _ _
                 | b s t _ _ _ | bid new ep row actor t1 t2 st _ _ _ _
                 | m s now b _ _].
  - apply grows_refl.
  - constructor; db_simpl; auto using prefix_refl, prefix_app.
  - constructor; db_simpl; auto using prefix_refl, prefix_app.
  - constructor; db_simpl; auto using prefix_refl, prefix_map_app.
  - constructor; db_simpl; auto using prefix_refl.
    apply prefix_eq. rewrite map_map. apply map_ext. intros q.
    now destruct (_ =? pid).
  - constructor; unfold booking_created; db_simpl;
      auto using prefix_refl, prefix_map_app.
    intros h Hh _. apply in_or_app. now left.
  - constructor; db_simpl; auto using prefix_refl, prefix_app.
  - destruct (previous_closed_tables ep t1 bid (Booking.current_stage_id row) d)
      as [Eu [Ev [Ep [Es [Eb [Easg Epay]]]]]].
    constructor; unfold stage_advanced; db_simpl;
      rewrite ?Eu, ?Ev, ?Ep, ?Es, ?Eb, ?Easg, ?Epay; auto using prefix_refl.
    + apply prefix_eq. rewrite map_map. apply map_ext. intros b0.
      unfold set_stage. now destruct (_ =? bid).
    + rewrite map_app, previous_closed_columns. apply prefix_app.
    + intros h Hh Hc. apply in_or_app. left.
      now apply previous_closed_keeps_closed.
  - constructor; db_simpl; auto using prefix_refl.
    apply prefix_eq. rewrite map_map. apply map_ext. intros q.
    unfold set_payment. now destruct (_ =? b).
Qed.

Lemma changes_grows d d' : changes d d' -> grows d d'.
Proof.
  induction 1 as [|d1 d2 _ IH Hc]; [apply grows_refl|].
  eapply grows_trans; [exact IH|]. now apply effect_grows, change_effect.
Qed.

(** X7.  Whatever the request, no row is removed; user, vehicle and
    assignment rows stay as they are; of a package only [is_active] can
    change, of a booking only the stage and the status, of a payment only
    method, status and [paid_at], of a history entry only [end_time], and
    that only while it is open. *)
Theorem handle_grows : forall r d, grows d (snd (handle r d)).
Proof. intros r d. apply changes_grows, handle_changes. Qed.

(** ** Registering and logging in *)

Lemma find_app_none {A} (f : A -> bool) (l l' : list A) :
  find f l = None -> find f (l ++ l') = find f l'.
Proof.
  induction l as [|a l IH]; cbn; [reflexivity|].
  destruct (f a); [discriminate | exact IH].
Qed.

Lemma find_none_when {A} (f g : A -> bool) (l : list A) :
  existsb g l = false -> (forall a, f a = true -> g a = true) ->
  find f l = None.
Proof.
  intros Hg Himp. induction l as [|a l IH]; cbn in *; [reflexivity|].
  apply orb_false_elim in Hg. destruct Hg as [Ha Hl].
  destruct (f a) eqn:E; [|now apply IH].
  apply Himp in E. congruence.
Qed.

(** X1.  Who has just registered can log in with the same phone and
    password, and gets a Customer session for the new row. *)
Theorem register_then_login :
  forall d full_name phone email password now s d',
    register full_name phone email password password now d
    = (Redirect login_page (Some Registered), d') ->
    login phone password s d'
    = (Redirect home (Some (Welcome full_name Customer)),
       Some (Session.mk (next_rowid (user_ids d)) full_name Customer)).
Proof.
  intros d n p e pw now s d' H. unfold register in H.
  rewrite String.eqb_refl in H. cbn [negb] in H.
  destruct (insert_user n p (or_None e) (hash_password pw) Customer now d)
    as [[]|x] eqn:E; try discriminate H.
  injection H as <-.
  pose proof (insert_user_inr _ _ _ _ _ _ _ _ E) as ->.
  unfold insert_user in E. checks E. apply negb_true_false in Chk.
  unfold login. db_simpl. rewrite find_app_none.
  - cbn. rewrite !String.eqb_refl. reflexivity.
  - apply find_none_when
      with (g := fun u => String.eqb (User.phone u) p); [exact Chk|].
    intros a Ha. now apply andb_prop in Ha.
Qed.

Lemma prefix_existsb {A} (f : A -> bool) (l l' : list A) :
  prefix l l' -> existsb f l = true -> existsb f l' = true.
Proof. intros [t ->] H. rewrite existsb_app, H. reflexivity. Qed.

(** X3.  A session that names a user row names one after every request. *)
Theorem authentic_kept :
  forall r d u, authentic d u = true -> authentic (snd (handle r d)) u = true.
Proof.
  intros r d u H. unfold authentic in *.
  eapply prefix_existsb; [|exact H].
  apply (grow_users _ _ (changes_grows _ _ (handle_changes r d))).
Qed.

(** ** Starting again *)

(** X8.  On a reachable store [init_db] seeds nothing and raises nothing. *)
Theorem init_db_again :
  forall allowed d now, reachable_by allowed d -> init_db now d = inr d.
Proof.
  intros allowed d now Hr.
  pose proof (reachable_by_schema_ok _ _ Hr) as Hok.
  pose proof (reachable_by_checks_ok _ _ Hr) as Hck.
  unfold init_db. rewrite (ok_stages d Hok), seeded_stages_eq.
  cbn [bind ret]. destruct (packages d) eqn:Ep.
  { now destruct (chk_packages d Hck). }
  cbn [bind ret]. destruct (chk_admin d Hck) as [u [Hu Hrole]].
  destruct (filter (fun u => Role_eqb (User.role u) Admin) (users d)) eqn:Ef;
    [|reflexivity].
  assert (Hin : In u (filter (fun u => Role_eqb (User.role u) Admin) (users d))).
  { apply filter_In. split; [exact Hu|]. now rewrite Hrole. }
  rewrite Ef in Hin. contradiction.
Qed.

(** ** Packages *)

Lemma toggle_twice pid (l : list Package.t) :
  (forall p, In p l -> Package.is_active p = 0 \/ Package.is_active p = 1) ->
  let f := fun p =>
             if Package.package_id p =? pid
             then Package.mk (Package.package_id p) (Package.package_name p)
                             (Package.price p) (Package.duration_minutes p)
                             (if Package.is_active p =? 1 then 0 else 1)
             else p in
  map f (map f l) = l.
Proof.
  intros H f. rewrite map_map. rewrite <- (map_id l) at 2.
  apply map_ext_in. intros p Hp. unfold f.
  destruct (Package.package_id p =? pid) eqn:E; cbn; [|now rewrite E].
  rewrite E. destruct p as [i n pr du a]. cbn in *.
  destruct (H _ Hp) as [Ha | Ha]; cbn in Ha; subst a; reflexivity.
Qed.

(** X9.  Toggling a package twice leaves a reachable store as it was. *)
Theorem toggle_package_twice :
  forall allowed d package_id s,
    reachable_by allowed d ->
    snd (toggle_package package_id s (snd (toggle_package package_id s d))) = d.
Proof.
  intros allowed d pid s Hr. unfold toggle_package.
  destruct (negb (require_staff s)); [reflexivity|]. cbn [snd].
  pose proof (reachable_by_checks_ok _ _ Hr) as Hck.
  unfold toggle_active. db_simpl. rewrite toggle_twice.
  - now destruct d.
  - intros p Hp. apply (chk_package d Hck p Hp).
Qed.

(** ** One payment for each booking *)

Lemma filter_key_singleton {A} (key : A -> Z) (k : Z) (l : list A) :
  NoDup (map key l) -> In k (map key l) ->
  exists a, filter (fun x => key x =? k) l = [a] /\ In a l /\ key a = k.
Proof.
  induction l as [|x l IH]; cbn; [contradiction|].
  intros Hnd Hin. inversion Hnd as [|? ? Hx Hl]; subst.
  destruct (Z.eqb_spec (key x) k) as [E|E].
  - exists x. repeat split; auto. f_equal.
    rewrite <- E in *. clear IH Hin Hnd Hl.
    induction l as [|y l IHl]; [reflexivity|]. cbn in *.
    destruct (Z.eqb_spec (key y) (key x)) as [E'|E']; [tauto|].
    apply IHl. tauto.
  - destruct Hin as [Hin | Hin]; [contradiction|].
    destruct (IH Hl Hin) as [a [Ha [Hal Hk]]]. exists a. auto.
Qed.

(** X10.  In a reachable store every booking has exactly one payment row. *)
Theorem one_payment_per_booking :
  forall allowed d b,
    reachable_by allowed d -> In b (bookings d) ->
    exists p,
      filter (fun p => Payment.booking_id p =? Booking.booking_id b)
             (payments d) = [p]
      /\ payment_of d (Booking.booking_id b) = Some p.
Proof.
  intros allowed d b Hr Hb.
  pose proof (reachable_by_keys_ok _ _ Hr) as Hk.
  pose proof (reachable_by_checks_ok _ _ Hr) as Hck.
  destruct (filter_key_singleton Payment.booking_id (Booking.booking_id b)
              (payments d) (key_payment_booking d Hk) (chk_paid d Hck b Hb))
    as [p [Hf _]].
  exists p. split; [exact Hf|]. unfold payment_of.
  clear -Hf. induction (payments d) as [|x l IH]; cbn in *; [discriminate|].
  destruct (Payment.booking_id x =? Booking.booking_id b).
  - now injection Hf as ->.
  - now apply IH.
Qed.

(** ** What a caller without the Staff or Admin role cannot do *)

(** X11.  A request whose session is not Staff or Admin changes no package, no
    stage, no assignment and no row that was there; it adds rows at the
    end of [bookings], [booking_stage_history] and [payments] at most, and
    any user it adds is a Customer. *)
Theorem without_staff_role :
  forall r d,
    require_staff (caller r) = false ->
    let d' := snd (handle r d) in
    packages d' = packages d
    /\ service_stages d' = service_stages d
    /\ booking_staff_assignment d' = booking_staff_assignment d
    /\ prefix (vehicles d) (vehicles d')
    /\ prefix (bookings d) (bookings d')
    /\ prefix (booking_stage_history d) (booking_stage_history d')
    /\ prefix (payments d) (payments d')
    /\ exists t, users d' = (users d ++ t)%list
                 /\ Forall (fun u => User.role u = Customer) t.
Proof.
  intros r d Hs.
  assert (Hsame : packages d = packages d
                  /\ service_stages d = service_stages d
                  /\ booking_staff_assignment d = booking_staff_assignment d
                  /\ prefix (vehicles d) (vehicles d)
                  /\ prefix (bookings d) (bookings d)
                  /\ prefix (booking_stage_history d) (booking_stage_history d)
                  /\ prefix (payments d) (payments d)
                  /\ exists t, users d = (users d ++ t)%list
                               /\ Forall (fun u => User.role u = Customer) t).
  { repeat split; try apply prefix_refl. exists []. split; [|constructor].
    now rewrite app_nil_r. }
  destruct r; cbn [handle caller] in *; cbv zeta.
  - unfold register. destruct (negb _); [exact Hsame|].
    destruct (insert_user _ _ _ _ _ _ _) as [[]|d'] eqn:E; cbn [snd];
      try exact Hsame.
    apply insert_user_inr in E. subst d'. db_simpl.
    repeat split; try apply prefix_refl. eexists. split; [reflexivity|].
    repeat constructor.
  - unfold add_vehicle. destruct s as [u|]; [|exact Hsame].
    destruct (negb _); [exact Hsame|].
    destruct (insert_vehicle _ _ _ _ _ _ _) as [[]|d'] eqn:E; cbn [snd];
      try exact Hsame.
    apply insert_vehicle_inr in E. subst d'. db_simpl.
    repeat split; try apply prefix_refl; try apply prefix_app.
    exists []. split; [now rewrite app_nil_r | constructor].
  - unfold create_booking. destruct s as [u|]; [|exact Hsame].
    destruct (negb _); [exact Hsame|].
    destruct vehicle_id as [vid|]; [|exact Hsame].
    destruct package_id as [pid|]; [|exact Hsame].
    cbn [int_field bind ret].
    destruct (create_booking_tx _ _ _ _ _ _ _ _) as [e|[bid d']] eqn:E;
      cbn [snd]; [exact Hsame|].
    apply create_booking_tx_shape in E.
    destruct E as [first [price [_ [_ [_ ->]]]]]. unfold booking_created.
    db_simpl. repeat split; try apply prefix_refl; try apply prefix_app.
    exists []. split; [now rewrite app_nil_r | constructor].
  - unfold staff_assign. now rewrite Hs.
  - unfold create_package. now rewrite Hs.
  - unfold toggle_package. now rewrite Hs.
  - unfold create_staff_user. now rewrite Hs.
  - unfold staff_update_stage. destruct s as [u|]; [|exact Hsame].
    now rewrite Hs.
  - unfold staff_update_payment. now rewrite Hs.
Qed.

(** ** Batches of assignments *)

Lemma staff_assign_loop_bad_id b ids :
  In None ids ->
  forall now i d, staff_assign_loop b ids now i d = inl ValueError.
Proof.
  induction ids as [|[s|] ids IH]; intros Hin now i d.
  - contradiction.
  - rewrite staff_assign_loop_cons. apply IH.
    destruct Hin as [Hin | Hin]; [discriminate | exact Hin].
  - reflexivity.
Qed.

(** X12.  One id of the batch that is not a number makes the whole request
    end in an exception, whatever the other ids are, and nothing of the
    batch is kept. *)
Theorem staff_assign_bad_id_aborts :
  forall d s booking_id staff_ids now,
    require_staff s = true ->
    In None staff_ids ->
    snd (staff_assign booking_id staff_ids now s d) = d
    /\ exists e, fst (staff_assign booking_id staff_ids now s d) = Abort e.
Proof.
  intros d s b ids now Hs Hin. unfold staff_assign. rewrite Hs. cbn [negb].
  destruct b as [b|]; cbn [int_field bind ret raise];
    [|split; [reflexivity | now exists ValueError]].
  rewrite staff_assign_loop_bad_id by exact Hin.
  split; [reflexivity | now exists ValueError].
Qed.

Lemma staff_assign_loop_nothing_new b ids d :
  (forall s, In s ids -> assignable d b s = false) ->
  forall now i, staff_assign_loop b (map Some ids) now i d = inr d.
Proof.
  induction ids as [|s ids IH]; intros Hall now i; [reflexivity|].
  cbn [map]. rewrite staff_assign_loop_cons. unfold try_assign.
  rewrite (Hall s (or_introl eq_refl)). apply IH.
  intros s' Hs'. apply Hall. now right.
Qed.

(** X13.  Sending the same batch again changes nothing, for a booking id
    and staff ids that are integers of the 64-bit range. *)
Theorem staff_assign_batch_twice :
  forall d s1 s2 booking_id staff_ids now1 now2,
    require_staff s1 = true ->
    require_staff s2 = true ->
    int64 booking_id ->
    Forall int64 staff_ids ->
    let r1 := staff_assign (Some booking_id) (map Some staff_ids) now1 s1 d in
    staff_assign (Some booking_id) (map Some staff_ids) now2 s2 (snd r1)
    = (Redirect staff_dashboard (Some StaffAssigned), snd r1).
Proof.
  intros d s1 s2 b ids now1 now2 Hs1 Hs2 _ _. cbv zeta. unfold staff_assign.
  rewrite Hs1, Hs2. cbn [negb int_field bind ret].
  destruct (staff_assign_loop_spec ids b now1 0%nat d)
    as [d' [-> [Hfr [_ [Hnew _]]]]].
  cbn [snd]. rewrite staff_assign_loop_nothing_new; [reflexivity|].
  intros s Hs. unfold assignable.
  destruct Hfr as [Eu [_ [_ [_ [Eb _]]]]].
  unfold booking_ids, user_ids. rewrite Eu, Eb.
  fold (booking_ids d) (user_ids d).
  destruct (has_id (booking_ids d) b) eqn:Hb;
    [|now rewrite andb_false_r].
  destruct (has_id (user_ids d) s) eqn:Hu; [|now rewrite andb_false_r].
  destruct (Hnew s Hs eq_refl Hu) as [a Ha].
  now destruct (assigned d' b s).
Qed.

(** ** Vehicles *)

(** X14.  A plate that is already registered, to anyone, is refused: the
    customer is told so and no row is added. *)
Theorem add_vehicle_duplicate_plate :
  forall d s plate_no make model color vehicle_type,
    require_customer s = true ->
    In plate_no (map Vehicle.plate_no (vehicles d)) ->
    add_vehicle plate_no make model color vehicle_type s d
    = (Redirect customer_dashboard (Some VehicleAddFailed), d).
Proof.
  intros d s pl mk mo co vt Hs Hin. unfold add_vehicle.
  destruct s as [u|]; [|discriminate]. cbn in Hs. rewrite Hs. cbn [negb].
  unfold insert_vehicle.
  assert (E : existsb (fun v => String.eqb (Vehicle.plate_no v) pl)
                      (vehicles d) = true).
  { apply in_map_iff in Hin. destruct Hin as [v [<- Hv]].
    apply existsb_exists. exists v. split; [exact Hv | apply String.eqb_refl]. }
  rewrite E. reflexivity.
Qed.

(** X15.  A vehicle that is added is registered to the caller, who is a
    Customer, under a plate no other vehicle has. *)
Theorem add_vehicle_owner :
  forall d u plate_no make model color vehicle_type d',
    add_vehicle plate_no make model color vehicle_type (Some u) d
    = (Redirect customer_dashboard (Some VehicleAdded), d') ->
    Session.role u = Customer
    /\ ~ In plate_no (map Vehicle.plate_no (vehicles d))
    /\ vehicles d'
       = (vehicles d
            ++ [Vehicle.mk (next_rowid (vehicle_ids d)) (Session.user_id u)
                           plate_no (or_None make) (or_None model)
                           (or_None color) (or_None vehicle_type)])%list.
Proof.
  intros d u pl mk mo co vt d' H. unfold add_vehicle in H.
  destruct (Role_eqb (Session.role u) Customer) eqn:Er; cbn [negb] in H;
    [|discriminate].
  destruct (insert_vehicle _ _ _ _ _ _ _) as [[]|x] eqn:E; try discriminate.
  injection H as <-. split; [now destruct (Session.role u)|].
  pose proof (insert_vehicle_inr _ _ _ _ _ _ _ _ E) as ->.
  unfold insert_vehicle in E. checks E. split; [|reflexivity].
  apply existsb_key_false with (key := Vehicle.plate_no).
  now apply negb_true_false.
Qed.

(** X16.  A package whose name is taken, whose price is negative or whose
    duration is not positive is refused with a message, for a duration that
    is an integer of the 64-bit range; the store stays. *)
Theorem create_package_refused :
  forall d s package_name price duration_minutes is_active_on,
    require_staff s = true ->
    int64 duration_minutes ->
    In package_name (map Package.package_name (packages d))
    \/ Qle_bool 0 price = false \/ duration_minutes <= 0 ->
    create_package package_name (Some price) (Some duration_minutes)
                   is_active_on s d
    = (Redirect staff_dashboard (Some PackageCreateFailed), d).
Proof.
  intros d s n p m a Hs _ H. unfold create_package, insert_package.
  rewrite Hs. cbn [negb].
  destruct (existsb (fun q => String.eqb (Package.package_name q) n)
                    (packages d)) eqn:En; cbn [negb check bind raise ret];
    [reflexivity|].
  destruct (Qle_bool 0 p) eqn:Ep; cbn [check bind raise ret]; [|reflexivity].
  destruct (0 <? m) eqn:Em; cbn [check bind raise ret]; [|reflexivity].
  exfalso. destruct H as [H | [H | H]].
  - apply existsb_key_false with (key := Package.package_name) in En.
    contradiction.
  - discriminate.
  - apply Z.ltb_lt in Em. lia.
Qed.

(** A package that passes those three checks is added at the end, with
    the next rowid, active or not as the box was ticked. *)
Lemma create_package_accepted :
  forall d s package_name price duration_minutes is_active_on,
    require_staff s = true ->
    int64 duration_minutes ->
    ~ In package_name (map Package.package_name (packages d)) ->
    Qle_bool 0 price = true -> 0 < duration_minutes ->
    create_package package_name (Some price) (Some duration_minutes)
                   is_active_on s d
    = (Redirect staff_dashboard (Some PackageCreated),
       set_packages
         (packages d
            ++ [Package.mk (next_rowid (package_ids d)) package_name price
                           duration_minutes (if is_active_on then 1 else 0)])
         d).
Proof.
  intros d s n p m a Hs _ Hn Hp Hm. unfold create_package, insert_package.
  rewrite Hs, Hp. cbn [negb].
  destruct (existsb (fun q => String.eqb (Package.package_name q) n)
                    (packages d)) eqn:En.
  { exfalso. apply Hn. apply existsb_exists in En.
    destruct En as [q [Hq E]]. apply String.eqb_eq in E. subst n.
    now apply in_map. }
  apply Z.ltb_lt in Hm. rewrite Hm. cbn [negb check bind ret].
  now destruct a.
Qed.

(** ** Staff and Admin users *)

(** X17.  The staff form makes Staff and Admin users only, with the role that
    was asked for; any other role is answered with "Invalid role." and no
    row. *)
Theorem create_staff_user_role :
  forall d s full_name phone email role password now,
    let r := create_staff_user full_name phone email role password now s d in
    (role <> "Staff" -> role <> "Admin" -> require_staff s = true ->
     r = (Redirect staff_dashboard (Some InvalidRole), d))
    /\ (users (snd r) = users d
        \/ exists row,
             users (snd r) = (users d ++ [row])%list
             /\ User.phone row = phone
             /\ ((role = "Staff" /\ User.role row = Staff)
                 \/ (role = "Admin" /\ User.role row = Admin))).
Proof.
  intros d s n p e role pw now. cbv zeta. unfold create_staff_user.
  destruct (require_staff s); cbn [negb]; [|split; [discriminate | now left]].
  destruct (String.eqb_spec role "Staff") as [E1|E1].
  - split; [congruence|].
    destruct (insert_user _ _ _ _ _ _ _) as [[]|d'] eqn:E; cbn [snd];
      try now left.
    apply insert_user_inr in E. subst d'. right. eexists.
    split; [reflexivity|]. cbn. auto.
  - destruct (String.eqb_spec role "Admin") as [E2|E2].
    + split; [congruence|].
      destruct (insert_user _ _ _ _ _ _ _) as [[]|d'] eqn:E; cbn [snd];
        try now left.
      apply insert_user_inr in E. subst d'. right. eexists.
      split; [reflexivity|]. cbn. auto.
    + split; [reflexivity | now left].
Qed.

(** ** Booking ids and unknown packages *)

(** X18.  The id of a new booking is greater than every booking id there is,
    and at least 1. *)
Theorem create_booking_id_grows :
  forall d s vehicle_id package_id scheduled_raw notes t_booking t_history
         bid d',
    create_booking vehicle_id package_id scheduled_raw notes t_booking
                   t_history s d
    = (Redirect customer_dashboard (Some (BookingCreated bid)), d') ->
    1 <= bid
    /\ forall b, In b (bookings d) -> Booking.booking_id b < bid.
Proof.
  intros d s v p sr nt t1 t2 bid d' H. unfold create_booking in H.
  destruct s as [u|]; [|discriminate]. destruct (negb _); [discriminate|].
  destruct v as [vid|]; [|discriminate]. destruct p as [pid|]; [|discriminate].
  cbn [int_field bind ret] in H.
  destruct (create_booking_tx _ _ _ _ _ _ _ _) as [e|[bid' d1]] eqn:E;
    [discriminate|].
  injection H as <- <-. apply create_booking_tx_shape in E.
  destruct E as [first [price [_ [_ [-> _]]]]]. unfold next_rowid. split.
  - assert (0 <= fold_right Z.max 0 (booking_ids d)); [|lia].
    induction (booking_ids d); cbn; lia.
  - intros b Hb. assert (Booking.booking_id b
                         <= fold_right Z.max 0 (booking_ids d)); [|lia].
    apply fold_max_ge. unfold booking_ids. now apply in_map.
Qed.

(** X19.  A [package_id] that names no package makes the insert of the
    booking violate its foreign key; nothing is created. *)
Theorem create_booking_unknown_package :
  forall d s vehicle_id package_id scheduled_raw notes t_booking t_history,
    has_id (package_ids d) package_id = false ->
    snd (create_booking vehicle_id (Some package_id) scheduled_raw notes
                        t_booking t_history s d) = d
    /\ (require_customer s = true ->
        exists e,
          fst (create_booking vehicle_id (Some package_id) scheduled_raw notes
                              t_booking t_history s d) = Abort e).
Proof.
  intros d s vid pid sr nt t1 t2 Hp. unfold create_booking.
  destruct s as [u|]; cbn [require_customer];
    [|split; [reflexivity | discriminate]].
  destruct (Role_eqb (Session.role u) Customer); cbn [negb];
    [|split; [reflexivity | discriminate]].
  assert (Hfail : forall e, snd (Abort e, d) = d
                    /\ (true = true -> exists e', fst (Abort e, d) = Abort e')).
  { intros e. split; [reflexivity | intros _; now exists e]. }
  destruct vid as [vid|]; cbn [int_field bind ret raise]; [|apply Hfail].
  unfold create_booking_tx, insert_booking.
  destruct (first_stage (service_stages d)); cbn [fetchone0 bind ret raise];
    [|apply Hfail].
  rewrite Hp.
  destruct (has_id (user_ids d) (Session.user_id u));
    cbn [check bind ret raise]; [|apply Hfail].
  destruct (has_id (vehicle_ids d) vid); cbn [check bind ret raise];
    apply Hfail.
Qed.

(** ** Payments at the edges *)

(** X20.  A method or a status outside the schema's lists, or missing, on a
    booking that has a payment row, ends the request with
    [IntegrityError]; the row stays as it was. *)
Theorem staff_update_payment_rejected :
  forall d s booking_id method status now p,
    require_staff s = true ->
    payment_of d booking_id = Some p ->
    match method with Some m => valid_method m | None => false end = false
    \/ match status with Some st => valid_payment_status st | None => false end
       = false ->
    staff_update_payment booking_id method status now s d
    = (Abort IntegrityError, d).
Proof.
  intros d s b m st now p Hs Hp H. unfold staff_update_payment, update_payment.
  rewrite Hs, Hp. cbn [negb].
  destruct m as [m|]; [|reflexivity]. destruct st as [st|]; [|reflexivity].
  destruct (valid_method m); cbn [check bind ret raise]; [|reflexivity].
  destruct (valid_payment_status st); cbn [check bind ret raise];
    [|reflexivity].
  destruct H; discriminate.
Qed.

(** X21.  For a booking id of the 64-bit range that names no booking of a
    reachable store the update matches no row: the request still reports
    "Payment updated.", whatever the method and the status are, and the
    store is unchanged. *)
Theorem staff_update_payment_no_booking :
  forall allowed d s booking_id method status now,
    reachable_by allowed d ->
    require_staff s = true ->
    int64 booking_id ->
    has_id (booking_ids d) booking_id = false ->
    staff_update_payment booking_id method status now s d
    = (Redirect staff_dashboard (Some PaymentUpdated), d).
Proof.
  intros allowed d s b m st now Hr Hs _ Hb.
  unfold staff_update_payment, update_payment. rewrite Hs. cbn [negb].
  destruct (payment_of d b) as [p|] eqn:Hp; [|reflexivity].
  exfalso. unfold payment_of in Hp. apply find_In in Hp.
  destruct Hp as [Hin E]. apply Z.eqb_eq in E.
  pose proof (ref_payment d (reachable_by_refs_ok _ _ Hr) p Hin) as Hfk.
  rewrite E in Hfk. apply has_id_In in Hfk. congruence.
Qed.

(** ** The history shown on the dashboards *)

Lemma dict_get_put {V} (m : list (Z * V)) (k k' : Z) (v : V) :
  dict_get (dict_put m k v) k' = if k =? k' then Some v else dict_get m k'.
Proof.
  induction m as [|[k0 v0] m IH]; cbn; [reflexivity|].
  destruct (Z.eqb_spec k0 k) as [E|E]; cbn.
  - subst k0. now destruct (k =? k').
  - rewrite IH. destruct (Z.eqb_spec k0 k') as [E'|E']; [|reflexivity].
    subst k'. destruct (Z.eqb_spec k k0); [congruence | reflexivity].
Qed.

Lemma history_map_step_get {V} (limit : nat) (m : list (Z * list V))
    (k k' : Z) (e : V) :
  dict_get (history_map_step limit m (k, e)) k'
  = if k =? k'
    then Some (let l := match dict_get m k with Some l => l | None => [] end in
               if (List.length l <? limit)%nat then (l ++ [e])%list else l)
    else dict_get m k'.
Proof.
  unfold history_map_step, setdefault.
  destruct (dict_get m k) as [l|] eqn:Em.
  - rewrite Em. cbv zeta.
    destruct (List.length l <? limit)%nat.
    + apply dict_get_put.
    + destruct (Z.eqb_spec k k'); [now subst | reflexivity].
  - rewrite dict_get_put, Z.eqb_refl. cbv zeta.
    destruct (List.length (@nil V) <? limit)%nat.
    + rewrite dict_get_put. destruct (k =? k') eqn:E; [reflexivity|].
      now rewrite dict_get_put, E.
    + apply dict_get_put.
Qed.

Lemma history_map_fold {V} (limit : nat) (rows : list (Z * V)) :
  forall (m : list (Z * list V)) (k : Z),
    dict_get (fold_left (history_map_step limit) rows m) k
    = match dict_get m k with
      | Some l =>
          Some (l ++ firstn (limit - List.length l)
                            (map snd (filter (fun r => fst r =? k) rows)))%list
      | None =>
          match map snd (filter (fun r => fst r =? k) rows) with
          | [] => None
          | es => Some (firstn limit es)
          end
      end.
Proof.
  induction rows as [|[k0 e] rows IH]; intros m k; cbn [fold_left].
  - cbn. destruct (dict_get m k) as [l|]; [|reflexivity].
    now rewrite firstn_nil, app_nil_r.
  - rewrite IH, history_map_step_get. cbn [filter fst].
    destruct (Z.eqb_spec k0 k) as [E|E]; [|reflexivity].
    subst k0. cbn [map snd]. cbv zeta.
    destruct (dict_get m k) as [l|].
    + destruct (Nat.ltb_spec (List.length l) limit) as [Hlt|Hge].
      * rewrite List.length_app. cbn [List.length].
        replace (limit - List.length l)%nat
          with (S (limit - (List.length l + 1)))%nat by lia.
        cbn [firstn]. now rewrite <- app_assoc.
      * replace (limit - List.length l)%nat with 0%nat by lia.
        reflexivity.
    + cbn [List.length]. destruct limit as [|n]; cbn.
      * reflexivity.
      * now rewrite Nat.sub_0_r.
Qed.

Lemma history_map_loop_get :
  forall (V : Type) (limit : nat) (rows : list (Z * V)) (k : Z),
    dict_get (history_map_loop limit rows) k
    = match map snd (filter (fun r => fst r =? k) rows) with
      | [] => None
      | es => Some (firstn limit es)
      end.
Proof.
  intros V limit rows k. unfold history_map_loop.
  now rewrite history_map_fold.
Qed.

(** X22.  The loop keeps, for every booking that has rows, the first [limit]
    of its rows in the order they came, and no entry for a booking without
    rows. *)
Theorem history_map_loop_first :
  forall (V : Type) (limit : nat) (rows : list (Z * V)) (k : Z),
    dict_get (history_map_loop limit rows) k
    = match map snd (filter (fun r => fst r =? k) rows) with
      | [] => None
      | es => Some (firstn limit es)
      end.
Proof.
  intros V limit rows k. unfold history_map_loop.
  now rewrite history_map_fold.
Qed.

Lemma increasing_snoc (l : list Z) (x : Z) :
  increasing l -> (forall y, In y l -> y < x) -> increasing (l ++ [x]).
Proof.
  induction l as [|a l IH]; cbn; intros Hl Hx.
  - split; [intros y [] | exact I].
  - destruct Hl as [Ha Hl]. split.
    + intros y Hy. apply in_app_or in Hy. destruct Hy as [Hy | [<- | []]].
      * now apply Ha.
      * apply Hx. now left.
    + apply IH; [exact Hl|]. intros y Hy. apply Hx. now right.
Qed.

Lemma below_next_rowid (ids : list Z) (y : Z) : In y ids -> y < next_rowid ids.
Proof. intros H. apply fold_max_ge in H. unfold next_rowid. lia. Qed.

Lemma effect_history_increasing d d' :
  increasing (map History.history_id (booking_stage_history d)) ->
  effect d d' ->
  increasing (map History.history_id (booking_stage_history d')).
Proof.
  intros Hinc H.
  destruct H as [| n p e h r t _ _ | c p a b e f _ _ | n p m a _ _ _ _
                 | pid | uid vid pid sc nt t1 t2 first price _ _ _ _ _ _ _ _
                 | b s t _ _ _ | bid new ep row actor t1 t2 st _ _ _ _
                 | m s now b _ _]; try exact Hinc.
  - unfold booking_created. db_simpl. rewrite map_app.
    apply increasing_snoc; [exact Hinc | apply below_next_rowid].
  - unfold stage_advanced. db_simpl.
    rewrite map_app, previous_closed_history_ids.
    apply increasing_snoc; [exact Hinc | apply below_next_rowid].
Qed.

Lemma reachable_history_increasing allowed d :
  reachable_by allowed d ->
  increasing (map History.history_id (booking_stage_history d)).
Proof.
  revert allowed d.
  apply (reachable_by_changes
           (fun d => increasing (map History.history_id
                                     (booking_stage_history d)))).
  - intros now. exact I.
  - intros d d' _ Hinc Hc. eapply effect_history_increasing; [exact Hinc|].
    now apply change_effect.
Qed.

Lemma insert_desc_last {A} (key : A -> Z) (x : A) (l : list A) :
  (forall y, In y l -> key x < key y) -> insert_desc key x l = (l ++ [x])%list.
Proof.
  induction l as [|y l IH]; cbn; intros H; [reflexivity|].
  destruct (Z.ltb_spec (key y) (key x)) as [Hlt|Hge].
  - specialize (H y (or_introl eq_refl)). lia.
  - f_equal. apply IH. intros z Hz. apply H. now right.
Qed.

Lemma sort_desc_increasing {A} (key : A -> Z) (l : list A) :
  increasing (map key l) -> sort_desc key l = rev l.
Proof.
  induction l as [|x l IH]; cbn; intros H; [reflexivity|].
  destruct H as [Hx Hl]. fold (sort_desc key l). rewrite (IH Hl).
  apply insert_desc_last. intros y Hy. apply Hx. apply in_map.
  now apply in_rev.
Qed.

Lemma increasing_filter {A} (key : A -> Z) (f : A -> bool) (l : list A) :
  increasing (map key l) -> increasing (map key (filter f l)).
Proof.
  induction l as [|x l IH]; cbn; intros H; [exact I|].
  destruct H as [Hx Hl]. destruct (f x); cbn; [|now apply IH].
  split; [|now apply IH]. intros y Hy. apply Hx.
  apply in_map_iff in Hy. destruct Hy as [z [<- Hz]].
  apply in_map. now apply filter_In in Hz.
Qed.

Lemma In_insert_desc {A} (key : A -> Z) (x a : A) (l : list A) :
  In a (insert_desc key x l) <-> a = x \/ In a l.
Proof.
  induction l as [|y l IH]; cbn; [intuition|].
  destruct (key y <? key x); cbn; [intuition|]. rewrite IH. intuition.
Qed.

Lemma In_sort_desc {A} (key : A -> Z) (a : A) (l : list A) :
  In a (sort_desc key l) <-> In a l.
Proof.
  induction l as [|x l IH]; cbn; [tauto|]. fold (sort_desc key l).
  rewrite In_insert_desc, IH. intuition.
Qed.

(** The rows of the loop that belong to booking [k], read off the history
    rows that join. *)
Lemma rows_of_booking {V} (R : History.t -> list (Z * V)) (k : Z)
    (l : list History.t) :
  (forall h r, In r (R h) -> fst r = History.booking_id h) ->
  map snd (filter (fun r => fst r =? k) (flat_map R l))
  = flat_map (fun h => map snd (R h))
             (filter (fun h => History.booking_id h =? k) l).
Proof.
  intros HR. induction l as [|h l IH]; cbn; [reflexivity|].
  rewrite filter_app, map_app, IH. clear IH.
  assert (E : filter (fun r => fst r =? k) (R h)
              = if History.booking_id h =? k then R h else []).
  { specialize (HR h). induction (R h) as [|r rs IHr]; cbn.
    - now destruct (_ =? k).
    - rewrite (HR r (or_introl eq_refl)).
      rewrite IHr by (intros r' Hr'; apply HR; now right).
      now destruct (History.booking_id h =? k). }
  rewrite E. now destruct (History.booking_id h =? k).
Qed.

Lemma filter_booking_of_listed (ids : list Z) (k : Z) (l : list History.t) :
  has_id ids k = true ->
  filter (fun h => History.booking_id h =? k)
         (filter (fun h => has_id ids (History.booking_id h)) l)
  = filter (fun h => History.booking_id h =? k) l.
Proof.
  intros Hk. induction l as [|h l IH]; cbn [filter]; [reflexivity|].
  destruct (History.booking_id h =? k) eqn:E.
  - apply Z.eqb_eq in E. rewrite E, Hk. cbn [filter].
    rewrite E, Z.eqb_refl. now f_equal.
  - destruct (has_id ids (History.booking_id h)); cbn [filter]; [|exact IH].
    now rewrite E.
Qed.

(** The history rows a dashboard reads, for one of the listed bookings:
    they are the booking's entries, the one inserted last first. *)
Lemma latest_rows_of_booking {V} (R : History.t -> list (Z * V)) allowed d
    (ids : list Z) (k : Z) :
  reachable_by allowed d ->
  (forall h r, In r (R h) -> fst r = History.booking_id h) ->
  has_id ids k = true ->
  map snd
      (filter (fun r => fst r =? k)
         (flat_map R
            (sort_desc History.history_id
               (filter (fun h => has_id ids (History.booking_id h))
                       (booking_stage_history d)))))
  = flat_map (fun h => map snd (R h))
             (rev (filter (fun h => History.booking_id h =? k)
                          (booking_stage_history d))).
Proof.
  intros Hr HR Hk. rewrite rows_of_booking by exact HR.
  rewrite sort_desc_increasing
    by (apply increasing_filter; eapply reachable_history_increasing, Hr).
  now rewrite filter_rev, filter_booking_of_listed.
Qed.

Lemma joined_row {A} (key : A -> Z) (k : Z) (l : list A) :
  In k (map key l) -> exists a, In a (filter (fun x => key x =? k) l).
Proof.
  intros H. apply in_map_iff in H. destruct H as [a [E Ha]].
  exists a. apply filter_In. split; [exact Ha | now apply Z.eqb_eq].
Qed.

Lemma customer_booking_listed allowed d b :
  reachable_by allowed d -> In b (bookings d) ->
  In (Booking.booking_id b) (customer_booking_ids d (Booking.customer_id b)).
Proof.
  intros Hr Hb. destruct (ref_booking d (reachable_by_refs_ok _ _ Hr) b Hb)
    as [_ [Hv [Hp _]]].
  destruct (joined_row Vehicle.vehicle_id _ _ Hv) as [v Hv'].
  destruct (joined_row Package.package_id _ _ Hp) as [p Hp'].
  unfold customer_booking_ids. apply in_map. apply In_sort_desc.
  apply in_flat_map. exists b. split.
  - apply filter_In. split; [exact Hb | apply Z.eqb_refl].
  - apply in_flat_map. exists v. split; [exact Hv'|].
    apply in_map_iff. exists p. auto.
Qed.

Lemma customer_booking_ids_own d uid k :
  In k (customer_booking_ids d uid) ->
  exists b, In b (bookings d) /\ Booking.booking_id b = k
            /\ Booking.customer_id b = uid.
Proof.
  unfold customer_booking_ids. intros H. apply in_map_iff in H.
  destruct H as [b [E H]]. apply In_sort_desc in H. apply in_flat_map in H.
  destruct H as [b0 [Hb0 H]]. apply in_flat_map in H.
  destruct H as [v [_ H]]. apply in_map_iff in H. destruct H as [p [-> _]].
  apply filter_In in Hb0. destruct Hb0 as [Hb0 Hc]. apply Z.eqb_eq in Hc.
  exists b. auto.
Qed.

(** X23.  For each booking of the customer, the customer's dashboard holds
    the four entries inserted last, the latest first, with the stage
    names. *)
Theorem cust_history_map_latest :
  forall allowed d b,
    reachable_by allowed d -> In b (bookings d) ->
    dict_get (cust_history_map d (Booking.customer_id b)) (Booking.booking_id b)
    = match customer_latest_entries d (Booking.booking_id b) with
      | [] => None
      | es => Some (firstn 4 es)
      end.
Proof.
  intros allowed d b Hr Hb.
  pose proof (customer_booking_listed allowed d b Hr Hb) as Hin.
  unfold cust_history_map.
  destruct (customer_booking_ids d (Booking.customer_id b)) as [|i ids] eqn:E;
    [contradiction|].
  rewrite history_map_loop_get. unfold customer_history_rows.
  rewrite (latest_rows_of_booking _ allowed d (i :: ids)
             (Booking.booking_id b) Hr).
  - unfold customer_latest_entries.
    erewrite flat_map_ext; [reflexivity|].
    intros h. cbv beta. now rewrite map_map.
  - intros h r Hrow. apply in_map_iff in Hrow. now destruct Hrow as [ss [<- _]].
  - now apply has_id_In.
Qed.

(** X24.  The customer's dashboard holds no history of a booking that is not
    the customer's. *)
Theorem cust_history_map_own :
  forall d uid k entries,
    dict_get (cust_history_map d uid) k = Some entries ->
    exists b, In b (bookings d) /\ Booking.booking_id b = k
              /\ Booking.customer_id b = uid.
Proof.
  intros d uid k entries H. apply customer_booking_ids_own.
  unfold cust_history_map in H.
  destruct (customer_booking_ids d uid) as [|i ids] eqn:E; [discriminate|].
  rewrite history_map_loop_get in H.
  destruct (filter (fun r => fst r =? k) (customer_history_rows d (i :: ids)))
    as [|r rs] eqn:Ef; [discriminate|].
  assert (Hr : In r (filter (fun r => fst r =? k)
                            (customer_history_rows d (i :: ids))))
    by (rewrite Ef; now left).
  apply filter_In in Hr. destruct Hr as [Hr Hk]. apply Z.eqb_eq in Hk.
  unfold customer_history_rows in Hr. apply in_flat_map in Hr.
  destruct Hr as [h [Hh Hrow]]. apply in_map_iff in Hrow.
  destruct Hrow as [ss [<- _]]. cbn in Hk. subst k.
  apply In_sort_desc, filter_In in Hh. destruct Hh as [_ Hh].
  now apply has_id_In.
Qed.

Lemma active_booking_listed allowed d b :
  reachable_by allowed d -> In b (bookings d) ->
  Booking.status b = Booked \/ Booking.status b = InProgress ->
  In (Booking.booking_id b) (active_booking_ids d).
Proof.
  intros Hr Hb Hst. destruct (ref_booking d (reachable_by_refs_ok _ _ Hr) b Hb)
    as [Hc [Hv [Hp _]]].
  destruct (joined_row User.user_id _ _ Hc) as [c Hc'].
  destruct (joined_row Vehicle.vehicle_id _ _ Hv) as [v Hv'].
  destruct (joined_row Package.package_id _ _ Hp) as [p Hp'].
  unfold active_booking_ids. apply -> in_rev. apply in_map.
  apply In_sort_desc. apply in_flat_map. exists b. split.
  - apply filter_In. split; [exact Hb|]. destruct Hst as [-> | ->]; reflexivity.
  - apply in_flat_map. exists c. split; [exact Hc'|].
    apply in_flat_map. exists v. split; [exact Hv'|].
    apply in_map_iff. exists p. auto.
Qed.

Lemma map_snd_flat_map {A B C} (f : A -> list (B * C)) (l : list A) :
  map snd (flat_map f l) = flat_map (fun a => map snd (f a)) l.
Proof.
  induction l as [|a l IH]; cbn; [reflexivity|]. now rewrite map_app, IH.
Qed.

(** X25.  For each booking that is Booked or InProgress, the staff dashboard
    holds the six entries inserted last, the latest first, with the stage
    names and the names of who recorded them. *)
Theorem staff_history_map_latest :
  forall allowed d b,
    reachable_by allowed d -> In b (bookings d) ->
    Booking.status b = Booked \/ Booking.status b = InProgress ->
    dict_get (staff_history_map d) (Booking.booking_id b)
    = match staff_latest_entries d (Booking.booking_id b) with
      | [] => None
      | es => Some (firstn 6 es)
      end.
Proof.
  intros allowed d b Hr Hb Hst.
  pose proof (active_booking_listed allowed d b Hr Hb Hst) as Hin.
  unfold staff_history_map.
  destruct (active_booking_ids d) as [|i ids] eqn:E; [contradiction|].
  rewrite history_map_loop_get. unfold staff_history_rows.
  rewrite (latest_rows_of_booking _ allowed d (i :: ids)
             (Booking.booking_id b) Hr).
  - unfold staff_latest_entries.
    erewrite flat_map_ext; [reflexivity|].
    intros h. cbv beta. rewrite map_snd_flat_map.
    apply flat_map_ext. intros ss. now rewrite map_map.
  - intros h r Hrow. apply in_flat_map in Hrow. destruct Hrow as [ss [_ Hrow]].
    apply in_map_iff in Hrow. now destruct Hrow as [u [<- _]].
  - now apply has_id_In.
Qed.

(** ** The page of one booking *)

Lemma booking_detail_rows_some allowed d bid b :
  reachable_by allowed d -> booking_of d bid = Some b ->
  exists row, In row (booking_detail_rows d bid).
Proof.
  intros Hr Hrow. destruct (booking_of_In _ _ _ Hrow) as [Hb Hid].
  destruct (ref_booking d (reachable_by_refs_ok _ _ Hr) b Hb)
    as [Hc [Hv [Hp _]]].
  destruct (joined_row User.user_id _ _ Hc) as [c Hc'].
  destruct (joined_row Vehicle.vehicle_id _ _ Hv) as [v Hv'].
  destruct (joined_row Package.package_id _ _ Hp) as [p Hp'].
  unfold booking_detail_rows.
  destruct (filter (fun s => match Booking.current_stage_id b with
                             | Some c => Stage.stage_id s =? c
                             | None => false
                             end) (service_stages d)) as [|s ss] eqn:Es.
  - eexists. apply in_flat_map. exists b. split.
    { apply filter_In. split; [exact Hb | now apply Z.eqb_eq]. }
    apply in_flat_map. exists c. split; [exact Hc'|].
    apply in_flat_map. exists v. split; [exact Hv'|].
    apply in_flat_map. exists p. split; [exact Hp'|].
    cbv zeta. rewrite Es. left. reflexivity.
  - eexists. apply in_flat_map. exists b. split.
    { apply filter_In. split; [exact Hb | now apply Z.eqb_eq]. }
    apply in_flat_map. exists c. split; [exact Hc'|].
    apply in_flat_map. exists v. split; [exact Hv'|].
    apply in_flat_map. exists p. split; [exact Hp'|].
    cbv zeta. rewrite Es. left. reflexivity.
Qed.

Lemma booking_detail_history_latest allowed d bid :
  reachable_by allowed d ->
  booking_detail_history d bid = staff_latest_entries d bid.
Proof.
  intros Hr. unfold booking_detail_history, staff_history_rows.
  rewrite map_snd_flat_map.
  rewrite sort_desc_increasing
    by (apply increasing_filter; eapply reachable_history_increasing, Hr).
  unfold staff_latest_entries.
  replace (filter (fun h => has_id [bid] (History.booking_id h))
                  (booking_stage_history d))
    with (filter (fun h => History.booking_id h =? bid)
                 (booking_stage_history d)).
  - apply flat_map_ext. intros h. rewrite map_snd_flat_map.
    apply flat_map_ext. intros ss. now rewrite map_map.
  - apply filter_ext. intros h. cbn. now rewrite orb_false_r.
Qed.

(** X26.  In a reachable store, the page of an existing booking is refused
    to a Customer who is not its owner, and shown to its owner and to any
    Staff or Admin member, with the booking's whole history, the latest
    entry first, and its payment row. *)
Theorem booking_detail_access :
  forall allowed d booking_id b u,
    reachable_by allowed d ->
    booking_of d booking_id = Some b ->
    (Session.role u = Customer ->
     Booking.customer_id b <> Session.user_id u ->
     booking_detail booking_id (Some u) d = inr detail_not_allowed)
    /\ (Session.role u <> Customer
        \/ Booking.customer_id b = Session.user_id u ->
        exists row,
          booking_detail booking_id (Some u) d
          = inr (detail_page row (staff_latest_entries d booking_id)
                             (payment_of d booking_id))).
Proof.
  intros allowed d bid b u Hr Hrow.
  destruct (booking_detail_rows_some allowed d bid b Hr Hrow) as [row0 Hin].
  unfold booking_detail. rewrite (booking_detail_history_latest allowed d bid Hr).
  destruct (booking_detail_rows d bid) as [|row rows]; [contradiction|].
  rewrite Hrow. cbn [fetchone0 bind ret]. split.
  - intros Hrole Hne. rewrite Hrole. cbn [Role_eqb].
    apply Z.eqb_neq in Hne. now rewrite Hne.
  - intros H. exists row.
    destruct (Role_eqb (Session.role u) Customer) eqn:Er; [|reflexivity].
    destruct H as [H | H].
    + destruct (Session.role u); try discriminate. now destruct H.
    + apply Z.eqb_eq in H. now rewrite H.
Qed.

(** X27.  An id of the 64-bit range that names no booking is answered with
    "Booking not found." to whoever is logged in; without a session the
    answer is the login page. *)
Theorem booking_detail_not_found :
  forall d booking_id s,
    int64 booking_id ->
    booking_of d booking_id = None ->
    booking_detail booking_id s d
    = inr (match s with Some _ => detail_not_found | None => detail_to_login end).
Proof.
  intros d bid s _ H. unfold booking_detail.
  destruct s as [u|]; [|reflexivity].
  unfold booking_detail_rows.
  replace (filter (fun b => Booking.booking_id b =? bid) (bookings d))
    with (@nil Booking.t); [reflexivity|].
  unfold booking_of in H. symmetry.
  induction (bookings d) as [|x l IH]; cbn in *; [reflexivity|].
  destruct (Booking.booking_id x =? bid); [discriminate | now apply IH].
Qed.

(** ** The schema's guarantees, for the record *)

(** X4.  In every reachable store the keys the schema declares are keys:
    rowids, phones, e-mail addresses, plates and package names are each
    without repetition, and no booking has two payment rows. *)
Theorem reachable_keys_ok :
  forall allowed d, reachable_by allowed d -> keys_ok d.
Proof.
  apply (reachable_by_changes keys_ok seeded_keys_ok).
  intros d d' _ Hk Hc. apply change_effect in Hc.
  exact (effect_keys_ok d d' Hk Hc).
Qed.

(** X5.  In every reachable store no row refers to a row that is not there:
    vehicles have their owner, bookings their customer, vehicle, package
    and stage, history entries their booking, stage and recorder,
    assignments their booking and user, payments their booking. *)
Theorem reachable_refs_ok :
  forall allowed d, reachable_by allowed d -> refs_ok d.
Proof.
  apply (reachable_by_changes refs_ok seeded_refs_ok).
  intros d d' _ Hk Hc. apply change_effect in Hc.
  exact (effect_refs_ok d d' Hk Hc).
Qed.

(** X6.  In every reachable store the checks the schema declares hold, the
    seeded packages and an Admin stay, every booking has a payment row, and
    [paid_at] is set exactly on the payments whose status is ["Paid"]. *)
Theorem reachable_checks_ok :
  forall allowed d, reachable_by allowed d -> checks_ok d.
Proof.
  apply (reachable_by_changes checks_ok seeded_checks_ok).
  intros d d' _ Hk Hc. apply change_effect in Hc.
  exact (effect_checks_ok d d' Hk Hc).
Qed.

(** ** A booking and the price of its package *)

Lemma price_of_row d pkg :
  NoDup (package_ids d) -> In pkg (packages d) ->
  price_of d (Package.package_id pkg) = Some (Package.price pkg).
Proof.
  intros Hk Hin. unfold price_of.
  now rewrite (find_key Package.package_id _ pkg Hk Hin).
Qed.

(** C5.  In a reachable store, a Customer who books a vehicle of their own
    with a package that is a row of [packages] gets, in one commit: a
    booking row with status Booked whose current stage is the stage of
    least order; one new history entry for that stage, started at the
    reading of the clock and open; and one new payment row whose amount is
    the price in the package's row, with status ["Unpaid"] and no
    [paid_at].  The new booking id is unused before. *)
Theorem create_booking_effect :
  forall d u vehicle_id package_id scheduled_raw notes t_booking t_history
         v pkg,
    reachable d ->
    Session.role u = Customer ->
    authentic d u = true ->
    In v (vehicles d) ->
    Vehicle.vehicle_id v = vehicle_id ->
    Vehicle.customer_id v = Session.user_id u ->
    In pkg (packages d) ->
    Package.package_id pkg = package_id ->
    exists d' bid first sc hid pmid,
      create_booking (Some vehicle_id) (Some package_id) scheduled_raw notes
                     t_booking t_history (Some u) d
      = (Redirect customer_dashboard (Some (BookingCreated bid)), d')
      /\ has_id (booking_ids d) bid = false
      /\ In first (service_stages d)
      /\ (forall s, In s (service_stages d) ->
                    Stage.stage_order first <= Stage.stage_order s)
      /\ bookings d'
         = (bookings d
              ++ [Booking.mk bid (Session.user_id u) vehicle_id package_id
                             t_booking sc Booked (Some (Stage.stage_id first))
                             (or_None notes)])%list
      /\ booking_stage_history d'
         = (booking_stage_history d
              ++ [History.mk hid bid (Stage.stage_id first) t_history None 1])
           %list
      /\ payments d'
         = (payments d
              ++ [Payment.mk pmid bid (Package.price pkg) "Cash" "Unpaid" None])
           %list.
Proof.
  intros d u vid pid sr nt t1 t2 v pkg Hr Hrole Hauth Hv Hvid Hown Hp Hpid.
  apply (create_booking_at_price d u vid pid sr nt t1 t2 v (Package.price pkg)
           Hr Hrole Hauth Hv Hvid Hown).
  rewrite <- Hpid. apply price_of_row; [|exact Hp].
  apply key_package_ids. exact (reachable_by_keys_ok _ d Hr).
Qed.

(** C5 on the day: Ali books the Standard Wash, whose row has the price
    800. *)
Lemma create_booking_effect_witness :
  reachable open_shop
  /\ Session.role ali = Customer
  /\ authentic open_shop ali = true
  /\ In (Vehicle.mk 1 2 "LEA-1234" (Some "Toyota") (Some "Corolla")
                    (Some "White") (Some "Sedan")) (vehicles open_shop)
  /\ In (Package.mk 2 "Standard Wash" (inject_Z 800) 35 1) (packages open_shop)
  /\ exists d' bid first sc hid pmid,
       create_booking (Some 1) (Some 2) "2026-01-06T10:30" "" at_0915 at_0915 (Some ali)
                      open_shop
       = (Redirect customer_dashboard (Some (BookingCreated bid)), d')
       /\ has_id (booking_ids open_shop) bid = false
       /\ In first (service_stages open_shop)
       /\ (forall s, In s (service_stages open_shop) ->
                     Stage.stage_order first <= Stage.stage_order s)
       /\ bookings d'
          = (bookings open_shop
               ++ [Booking.mk bid (Session.user_id ali) 1 2 at_0915 sc Booked
                              (Some (Stage.stage_id first)) (or_None "")])%list
       /\ booking_stage_history d'
          = (booking_stage_history open_shop
               ++ [History.mk hid bid (Stage.stage_id first) at_0915 None 1])%list
       /\ payments d'
          = (payments open_shop
               ++ [Payment.mk pmid bid (inject_Z 800) "Cash" "Unpaid" None])
            %list.
Proof.
  assert (Hr : reachable open_shop)
    by (apply open_shop_reachable; repeat constructor).
  assert (H1 : Session.role ali = Customer) by reflexivity.
  assert (H2 : authentic open_shop ali = true) by by_computation.
  assert (H3 : In (Vehicle.mk 1 2 "LEA-1234" (Some "Toyota") (Some "Corolla")
                              (Some "White") (Some "Sedan"))
                  (vehicles open_shop)) by (vm_compute; left; reflexivity).
  assert (H4 : In (Package.mk 2 "Standard Wash" (inject_Z 800) 35 1)
                  (packages open_shop))
    by (vm_compute; right; left; reflexivity).
  split; [exact Hr|]. split; [exact H1|]. split; [exact H2|].
  split; [exact H3|]. split; [exact H4|].
  exact (create_booking_effect open_shop ali 1 2 "2026-01-06T10:30" "" at_0915
           at_0915 _ (Package.mk 2 "Standard Wash" (inject_Z 800) 35 1)
           Hr H1 H2 H3 eq_refl eq_refl H4 eq_refl).
Defined.

(** The Premium Wash costs 1200, and so does the payment of a booking of
    it. *)
Example premium_at_1200 :
  payments
    (snd (create_booking (Some 1) (Some 3) "" "" at_0915 at_0915 (Some ali)
                         open_shop))
  = [Payment.mk 1 1 (inject_Z 1200) "Cash" "Unpaid" None].
Proof. by_computation. Qed.

(** ** The further properties on the example day *)

Lemma finished_reachable : reachable_by closes_previous finished.
Proof. apply run_reachable; [repeat constructor | apply booked_reachable]. Qed.

Lemma register_then_login_witness :
  let d := seeded at_0800 in
  let d' := snd (register "Ali" "0311-1111111" "" "pw1" "pw1" at_0800 d) in
  register "Ali" "0311-1111111" "" "pw1" "pw1" at_0800 d
  = (Redirect login_page (Some Registered), d')
  /\ login "0311-1111111" "pw1" None d'
     = (Redirect home (Some (Welcome "Ali" Customer)),
        Some (Session.mk (next_rowid (user_ids d)) "Ali" Customer)).
Proof.
  cbv zeta.
  assert (H : register "Ali" "0311-1111111" "" "pw1" "pw1" at_0800
                       (seeded at_0800)
              = (Redirect login_page (Some Registered),
                 snd (register "Ali" "0311-1111111" "" "pw1" "pw1" at_0800
                               (seeded at_0800)))) by by_computation.
  split; [exact H|].
  exact (register_then_login (seeded at_0800) "Ali" "0311-1111111" "" "pw1"
           at_0800 None _ H).
Defined.

Lemma login_authentic_witness :
  login "0333-3333333" "pw3" None open_shop
  = (Redirect home (Some (Welcome "Sara" Staff)), Some sara)
  /\ authentic open_shop sara = true.
Proof.
  assert (H : login "0333-3333333" "pw3" None open_shop
              = (Redirect home (Some (Welcome "Sara" Staff)), Some sara))
    by by_computation.
  split; [exact H|].
  exact (login_authentic "0333-3333333" "pw3" None open_shop "Sara" Staff sara
           H).
Defined.

Lemma authentic_kept_witness :
  authentic open_shop ali = true
  /\ authentic
       (snd (handle (CreateBooking (Some 1) (Some 2) "" "" at_0915 at_0915
                                   (Some ali)) open_shop)) ali = true.
Proof.
  assert (H : authentic open_shop ali = true) by by_computation.
  split; [exact H|].
  exact (authentic_kept (CreateBooking (Some 1) (Some 2) "" "" at_0915 at_0915
                                       (Some ali)) open_shop ali H).
Defined.

Lemma reachable_keys_ok_witness :
  reachable_by closes_previous finished /\ keys_ok finished.
Proof.
  split; [exact finished_reachable|].
  exact (reachable_keys_ok closes_previous finished finished_reachable).
Defined.

Lemma reachable_refs_ok_witness :
  reachable_by closes_previous finished /\ refs_ok finished.
Proof.
  split; [exact finished_reachable|].
  exact (reachable_refs_ok closes_previous finished finished_reachable).
Defined.

Lemma reachable_checks_ok_witness :
  reachable_by closes_previous finished /\ checks_ok finished.
Proof.
  split; [exact finished_reachable|].
  exact (reachable_checks_ok closes_previous finished finished_reachable).
Defined.

Lemma init_db_again_witness :
  reachable_by closes_previous finished
  /\ init_db at_1005 finished = inr finished.
Proof.
  split; [exact finished_reachable|].
  exact (init_db_again closes_previous finished at_1005 finished_reachable).
Defined.

Lemma toggle_package_twice_witness :
  reachable_by closes_previous booked
  /\ snd (toggle_package 2 (Some sara)
                         (snd (toggle_package 2 (Some sara) booked))) = booked.
Proof.
  split; [exact booked_reachable|].
  exact (toggle_package_twice closes_previous booked 2 (Some sara)
           booked_reachable).
Defined.

Lemma one_payment_per_booking_witness :
  reachable_by closes_previous finished
  /\ In (Booking.mk 1 2 1 2 at_0915 (Some "2026-01-06 10:30") Completed
                    (Some 4) None) (bookings finished)
  /\ exists p,
       filter (fun p => Payment.booking_id p =? 1) (payments finished) = [p]
       /\ payment_of finished 1 = Some p.
Proof.
  assert (H : In (Booking.mk 1 2 1 2 at_0915 (Some "2026-01-06 10:30")
                             Completed (Some 4) None) (bookings finished))
    by (vm_compute; left; reflexivity).
  split; [exact finished_reachable|]. split; [exact H|].
  exact (one_payment_per_booking closes_previous finished _ finished_reachable
           H).
Defined.

Lemma without_staff_role_witness :
  let r := CreateBooking (Some 1) (Some 2) "" "" at_0915 at_0915 (Some ali) in
  require_staff (caller r) = false
  /\ let d' := snd (handle r open_shop) in
     packages d' = packages open_shop
     /\ service_stages d' = service_stages open_shop
     /\ booking_staff_assignment d' = booking_staff_assignment open_shop
     /\ prefix (vehicles open_shop) (vehicles d')
     /\ prefix (bookings open_shop) (bookings d')
     /\ prefix (booking_stage_history open_shop) (booking_stage_history d')
     /\ prefix (payments open_shop) (payments d')
     /\ exists t, users d' = (users open_shop ++ t)%list
                  /\ Forall (fun u => User.role u = Customer) t.
Proof.
  cbv zeta.
  assert (H : require_staff
                (caller (CreateBooking (Some 1) (Some 2) "" "" at_0915 at_0915
                                       (Some ali))) = false) by reflexivity.
  split; [exact H|].
  exact (without_staff_role
           (CreateBooking (Some 1) (Some 2) "" "" at_0915 at_0915 (Some ali))
           open_shop H).
Defined.

Lemma staff_assign_bad_id_aborts_witness :
  require_staff (Some sara) = true
  /\ In None [Some 4; None; Some 1]
  /\ snd (staff_assign (Some 1) [Some 4; None; Some 1] (fun _ => at_0940)
                       (Some sara) booked) = booked
  /\ exists e,
       fst (staff_assign (Some 1) [Some 4; None; Some 1] (fun _ => at_0940)
                         (Some sara) booked) = Abort e.
Proof.
  assert (H1 : require_staff (Some sara) = true) by reflexivity.
  assert (H2 : In None [Some 4; None; Some 1]) by (right; left; reflexivity).
  split; [exact H1|]. split; [exact H2|].
  exact (staff_assign_bad_id_aborts booked (Some sara) (Some 1)
           [Some 4; None; Some 1] (fun _ => at_0940) H1 H2).
Defined.

Lemma staff_assign_batch_twice_witness :
  require_staff (Some sara) = true
  /\ require_staff (Some admin_user) = true
  /\ int64 1
  /\ Forall int64 [4; 99; 1]
  /\ let r1 := staff_assign (Some 1) (map Some [4; 99; 1]) (fun _ => at_0940)
                            (Some sara) booked in
     staff_assign (Some 1) (map Some [4; 99; 1]) (fun _ => at_1005)
                  (Some admin_user) (snd r1)
     = (Redirect staff_dashboard (Some StaffAssigned), snd r1).
Proof.
  assert (H1 : require_staff (Some sara) = true) by reflexivity.
  assert (H2 : require_staff (Some admin_user) = true) by reflexivity.
  assert (H3 : int64 1) by (unfold int64; lia).
  assert (H4 : Forall int64 [4; 99; 1])
    by (repeat constructor; unfold int64; lia).
  split; [exact H1|]. split; [exact H2|]. split; [exact H3|].
  split; [exact H4|].
  exact (staff_assign_batch_twice booked (Some sara) (Some admin_user) 1
           [4; 99; 1] (fun _ => at_0940) (fun _ => at_1005) H1 H2 H3 H4).
Defined.

Lemma add_vehicle_duplicate_plate_witness :
  require_customer (Some omar) = true
  /\ In "LEA-1234" (map Vehicle.plate_no (vehicles open_shop))
  /\ add_vehicle "LEA-1234" "Honda" "" "" "" (Some omar) open_shop
     = (Redirect customer_dashboard (Some VehicleAddFailed), open_shop).
Proof.
  assert (H1 : require_customer (Some omar) = true) by reflexivity.
  assert (H2 : In "LEA-1234" (map Vehicle.plate_no (vehicles open_shop)))
    by (vm_compute; left; reflexivity).
  split; [exact H1|]. split; [exact H2|].
  exact (add_vehicle_duplicate_plate open_shop (Some omar) "LEA-1234" "Honda"
           "" "" "" H1 H2).
Defined.

Lemma add_vehicle_owner_witness :
  let d' := snd (add_vehicle "LEB-5678" "Honda" "" "" "" (Some omar) open_shop)
  in
  add_vehicle "LEB-5678" "Honda" "" "" "" (Some omar) open_shop
  = (Redirect customer_dashboard (Some VehicleAdded), d')
  /\ Session.role omar = Customer
  /\ ~ In "LEB-5678" (map Vehicle.plate_no (vehicles open_shop))
  /\ vehicles d'
     = (vehicles open_shop
          ++ [Vehicle.mk (next_rowid (vehicle_ids open_shop))
                         (Session.user_id omar) "LEB-5678" (or_None "Honda")
                         (or_None "") (or_None "") (or_None "")])%list.
Proof.
  cbv zeta.
  assert (H : add_vehicle "LEB-5678" "Honda" "" "" "" (Some omar) open_shop
              = (Redirect customer_dashboard (Some VehicleAdded),
                 snd (add_vehicle "LEB-5678" "Honda" "" "" "" (Some omar)
                                  open_shop))) by by_computation.
  split; [exact H|].
  exact (add_vehicle_owner open_shop omar "LEB-5678" "Honda" "" "" "" _ H).
Defined.

Lemma create_package_refused_witness :
  require_staff (Some sara) = true
  /\ int64 15
  /\ (In "Basic Wash" (map Package.package_name (packages open_shop))
      \/ Qle_bool 0 (inject_Z 300) = false \/ 15 <= 0)
  /\ create_package "Basic Wash" (Some (inject_Z 300)) (Some 15) true
                    (Some sara) open_shop
     = (Redirect staff_dashboard (Some PackageCreateFailed), open_shop).
Proof.
  assert (H1 : require_staff (Some sara) = true) by reflexivity.
  assert (H2 : In "Basic Wash" (map Package.package_name (packages open_shop))
               \/ Qle_bool 0 (inject_Z 300) = false \/ 15 <= 0)
    by (left; vm_compute; left; reflexivity).
  assert (H3 : int64 15) by (unfold int64; lia).
  split; [exact H1|]. split; [exact H3|]. split; [exact H2|].
  exact (create_package_refused open_shop (Some sara) "Basic Wash"
           (inject_Z 300) 15 true H1 H3 H2).
Defined.

Lemma create_staff_user_role_witness :
  let r := create_staff_user "Eve" "0344-4444444" "" "Customer" "pw5" at_0915
                             (Some sara) open_shop in
  "Customer" <> "Staff" /\ "Customer" <> "Admin"
  /\ require_staff (Some sara) = true
  /\ r = (Redirect staff_dashboard (Some InvalidRole), open_shop).
Proof.
  cbv zeta.
  assert (H1 : "Customer" <> "Staff") by discriminate.
  assert (H2 : "Customer" <> "Admin") by discriminate.
  assert (H3 : require_staff (Some sara) = true) by reflexivity.
  split; [exact H1|]. split; [exact H2|]. split; [exact H3|].
  exact (proj1 (create_staff_user_role open_shop (Some sara) "Eve"
                  "0344-4444444" "" "Customer" "pw5" at_0915) H1 H2 H3).
Defined.

Lemma create_booking_id_grows_witness :
  let d' := snd (create_booking (Some 1) (Some 3) "" "again" at_1005 at_1005
                                (Some ali) finished) in
  create_booking (Some 1) (Some 3) "" "again" at_1005 at_1005 (Some ali)
                 finished
  = (Redirect customer_dashboard (Some (BookingCreated 2)), d')
  /\ 1 <= 2
  /\ forall b, In b (bookings finished) -> Booking.booking_id b < 2.
Proof.
  cbv zeta.
  assert (H : create_booking (Some 1) (Some 3) "" "again" at_1005 at_1005
                             (Some ali) finished
              = (Redirect customer_dashboard (Some (BookingCreated 2)),
                 snd (create_booking (Some 1) (Some 3) "" "again" at_1005
                                     at_1005 (Some ali) finished)))
    by by_computation.
  split; [exact H|].
  exact (create_booking_id_grows finished (Some ali) (Some 1) (Some 3) ""
           "again" at_1005 at_1005 2 _ H).
Defined.

Lemma create_booking_unknown_package_witness :
  has_id (package_ids open_shop) 9 = false
  /\ snd (create_booking (Some 1) (Some 9) "" "" at_0915 at_0915 (Some ali)
                         open_shop) = open_shop
  /\ (require_customer (Some ali) = true ->
      exists e,
        fst (create_booking (Some 1) (Some 9) "" "" at_0915 at_0915 (Some ali)
                            open_shop) = Abort e).
Proof.
  assert (H : has_id (package_ids open_shop) 9 = false) by by_computation.
  split; [exact H|].
  exact (create_booking_unknown_package open_shop (Some ali) (Some 1) 9 "" ""
           at_0915 at_0915 H).
Defined.

Lemma staff_update_payment_rejected_witness :
  require_staff (Some sara) = true
  /\ payment_of booked 1
     = Some (Payment.mk 1 1 (inject_Z 800) "Cash" "Unpaid" None)
  /\ (match Some "Cheque" with Some m => valid_method m | None => false end
      = false
      \/ match Some "Paid" with
         | Some st => valid_payment_status st
         | None => false
         end = false)
  /\ staff_update_payment 1 (Some "Cheque") (Some "Paid") at_1005 (Some sara)
                          booked
     = (Abort IntegrityError, booked).
Proof.
  assert (H1 : require_staff (Some sara) = true) by reflexivity.
  assert (H2 : payment_of booked 1
               = Some (Payment.mk 1 1 (inject_Z 800) "Cash" "Unpaid" None))
    by by_computation.
  assert (H3 : match Some "Cheque" with
               | Some m => valid_method m
               | None => false
               end = false
               \/ match Some "Paid" with
                  | Some st => valid_payment_status st
                  | None => false
                  end = false) by (left; by_computation).
  split; [exact H1|]. split; [exact H2|]. split; [exact H3|].
  exact (staff_update_payment_rejected booked (Some sara) 1 (Some "Cheque")
           (Some "Paid") at_1005 _ H1 H2 H3).
Defined.

Lemma staff_update_payment_no_booking_witness :
  reachable_by closes_previous booked
  /\ require_staff (Some sara) = true
  /\ int64 7
  /\ has_id (booking_ids booked) 7 = false
  /\ staff_update_payment 7 (Some "Cheque") None at_1005 (Some sara) booked
     = (Redirect staff_dashboard (Some PaymentUpdated), booked).
Proof.
  assert (H1 : require_staff (Some sara) = true) by reflexivity.
  assert (H2 : has_id (booking_ids booked) 7 = false) by by_computation.
  assert (H3 : int64 7) by (unfold int64; lia).
  split; [exact booked_reachable|]. split; [exact H1|]. split; [exact H3|].
  split; [exact H2|].
  exact (staff_update_payment_no_booking closes_previous booked (Some sara) 7
           (Some "Cheque") None at_1005 booked_reachable H1 H3 H2).
Defined.

Lemma finished_booking :
  In (Booking.mk 1 2 1 2 at_0915 (Some "2026-01-06 10:30") Completed (Some 4)
                 None) (bookings finished).
Proof. vm_compute. left. reflexivity. Qed.

Lemma booked_booking :
  In (Booking.mk 1 2 1 2 at_0915 (Some "2026-01-06 10:30") Booked (Some 1)
                 None) (bookings booked).
Proof. vm_compute. left. reflexivity. Qed.

Lemma cust_history_map_latest_witness :
  reachable_by closes_previous finished
  /\ dict_get (cust_history_map finished 2) 1
     = match customer_latest_entries finished 1 with
       | [] => None
       | es => Some (firstn 4 es)
       end.
Proof.
  split; [exact finished_reachable|].
  exact (cust_history_map_latest closes_previous finished _ finished_reachable
           finished_booking).
Defined.

Example cust_history_map_finished :
  cust_history_map finished 2
  = [(1, [("Completed", at_0940, None); ("Washing", at_0915, Some at_0940)])].
Proof. by_computation. Qed.

Lemma cust_history_map_own_witness :
  dict_get (cust_history_map finished 2) 1
  = Some [("Completed", at_0940, None); ("Washing", at_0915, Some at_0940)]
  /\ exists b, In b (bookings finished) /\ Booking.booking_id b = 1
               /\ Booking.customer_id b = 2.
Proof.
  assert (H : dict_get (cust_history_map finished 2) 1
              = Some [("Completed", at_0940, None);
                      ("Washing", at_0915, Some at_0940)]) by by_computation.
  split; [exact H|].
  exact (cust_history_map_own finished 2 1 _ H).
Defined.

Lemma staff_history_map_latest_witness :
  reachable_by closes_previous booked
  /\ (Booked = Booked \/ Booked = InProgress)
  /\ dict_get (staff_history_map booked) 1
     = match staff_latest_entries booked 1 with
       | [] => None
       | es => Some (firstn 6 es)
       end.
Proof.
  assert (H : Booked = Booked \/ Booked = InProgress) by (left; reflexivity).
  split; [exact booked_reachable|]. split; [exact H|].
  exact (staff_history_map_latest closes_previous booked _ booked_reachable
           booked_booking H).
Defined.

Lemma booking_detail_access_witness :
  reachable_by closes_previous booked
  /\ booking_of booked 1
     = Some (Booking.mk 1 2 1 2 at_0915 (Some "2026-01-06 10:30") Booked
                        (Some 1) None)
  /\ Session.role omar = Customer
  /\ 2 <> Session.user_id omar
  /\ booking_detail 1 (Some omar) booked = inr detail_not_allowed.
Proof.
  assert (H1 : booking_of booked 1
               = Some (Booking.mk 1 2 1 2 at_0915 (Some "2026-01-06 10:30")
                                  Booked (Some 1) None)) by by_computation.
  assert (H2 : Session.role omar = Customer) by reflexivity.
  assert (H3 : 2 <> Session.user_id omar) by discriminate.
  split; [exact booked_reachable|]. split; [exact H1|]. split; [exact H2|].
  split; [exact H3|].
  exact (proj1 (booking_detail_access closes_previous booked 1 _ omar
                  booked_reachable H1) H2 H3).
Defined.

Lemma booking_detail_not_found_witness :
  int64 7
  /\ booking_of booked 7 = None
  /\ booking_detail 7 (Some sara) booked = inr detail_not_found.
Proof.
  assert (H0 : int64 7) by (unfold int64; lia).
  assert (H : booking_of booked 7 = None) by by_computation.
  split; [exact H0|]. split; [exact H|].
  exact (booking_detail_not_found booked 7 (Some sara) H0 H).
Defined.
